(** * Quetzal: the polite, bounded web crawler ([simple_crawler.py])

    A shallow embedding of [SimpleCrawler], of the part of
    [SimpleDocProcessor] it drives and of
    [ResearchAssistant.process_document], with the properties of the
    specification, and further properties of the code, stated and proved
    over it.

    Modelling conventions.
    - Python [str] is [string]; [int] is [Z]; [Optional[T]] is [option T];
      a [dict] keyed by strings is a [gmap string _]; a [set] of strings is a
      [gset string]; the [deque] used as a FIFO is a [list] read at its head
      and extended at its tail.
    - Library calls ([urllib], [requests], [re], [ElementTree],
      [BeautifulSoup], [RobotFileParser], file access) are fields of the
      record [Lib]: what they answer is not fixed by the repository.  Each
      one that can raise answers an [outcome].
    - [try / except Exception] is a match on the [outcome] of the guarded
      block.
    - Logging, [time.sleep] and [last_request_time] ([_respect_rate_limits])
      change no value that the modelled methods read, and are left out. *)

From Equations Require Import Equations.
From stdpp Require Import gmap strings list.
From Stdlib Require Import ZArith Lia.

Set Warnings "-register-all".

Local Open Scope string_scope.
Local Open Scope Z_scope.

(** ** Exceptions and outcomes *)

(** The handlers of the source distinguish [ET.ParseError] from every other
    [Exception]. *)
Inductive exn : Type :=
| ParseError
| OtherException.

Inductive outcome (A : Type) : Type :=
| Returns (a : A)
| Raises (e : exn).
Arguments Returns {A} a.
Arguments Raises {A} e.

(** ** Python strings *)

Module Py.

(** [s.startswith(p)] *)
Definition startswith (s p : string) : bool := String.prefix p s.

(** [s.endswith(p)] *)
Definition endswith (s p : string) : bool :=
  let n := String.length s in
  let m := String.length p in
  (m <=? n)%nat && String.eqb (String.substring (n - m) m s) p.

(** [needle in hay] on strings *)
Definition contains (needle hay : string) : bool :=
  match String.index 0 needle hay with
  | Some _ => true
  | None => false
  end.

(** Truth value of a [str]: the empty string is false. *)
Definition str_truthy (s : string) : bool := negb (String.eqb s "").

(** Truth value of an [Optional[str]]. *)
Definition truthy (o : option string) : bool :=
  match o with
  | Some s => str_truthy s
  | None => false
  end.

(** Truth value of an [Optional[int]]: [None] and [0] are false. *)
Definition int_truthy (o : option Z) : bool :=
  match o with
  | Some n => negb (n =? 0)
  | None => false
  end.

(** Truth value of an [Optional[List[str]]]: [None] and [[]] are false. *)
Definition list_truthy {A} (o : option (list A)) : bool :=
  match o with
  | Some (_ :: _) => true
  | _ => false
  end.

End Py.

(** ** The libraries the crawler calls *)

(** What [urlparse] returns, as far as the crawler reads it. *)
Record ParseResult : Type := {
  scheme : string;
  netloc : string;
}.

(** What [requests.get] and [requests.head] return, as far as the crawler
    reads it. *)
Record Response : Type := {
  status_code : Z;
  text : string;
}.

(** A [RobotFileParser] after [read()], seen through
    [can_fetch("*", url)]. *)
Record RobotFileParser : Type := {
  can_fetch : string -> outcome bool;
}.


(** An [xml.etree.ElementTree.Element]: tag (with its namespace in braces),
    text, children in document order. *)
Inductive Element : Type :=
| Elem (tag : string) (etext : option string) (children : list Element).

Record Lib : Type := {
  (** [urllib.parse.urlparse(url)] *)
  urlparse : string -> outcome ParseResult;
  (** [urllib.parse.urljoin(base, url)] *)
  urljoin : string -> string -> outcome string;
  (** [re.search(pattern, s)], as a truth value *)
  re_search : string -> string -> outcome bool;
  (** [requests.get(url, ...)] *)
  requests_get : string -> outcome Response;
  (** [requests.head(url, ...)] *)
  requests_head : string -> outcome Response;
  (** [ET.fromstring(text)] *)
  ET_fromstring : string -> outcome Element;
  (** the [href] of every [soup.find_all("a", href=True)] of
      [BeautifulSoup(html, "html.parser")], in document order *)
  soup_hrefs : string -> outcome (list string);
  (** the text of [BeautifulSoup(html, "html.parser")] once script, style,
      header, footer and nav are removed and white space is collapsed *)
  soup_text : string -> outcome string;
  (** [RobotFileParser()] after [set_url(robots_url)] and [read()] *)
  robots_read : string -> outcome RobotFileParser;
  (** [SimpleDocProcessor.get_html_from_markdown(path)] (file access) *)
  get_html_from_markdown : string -> outcome (option string);
  (** [SimpleDocProcessor.process_markdown_file(path)] (file access) *)
  process_markdown_file : string -> outcome (option string);
  (** [SimpleDocProcessor.process_text_file(path)] (file access) *)
  process_text_file : string -> outcome (option string);
  (** [SimpleDocProcessor.process_pdf_file(path)] (file access) *)
  process_pdf_file : string -> outcome (option string);
}.

(** ** The crawler object *)

(** The fields of [self] that the modelled methods read or write.
    [robot_parsers] is the cache of [_get_robot_parser], keyed by netloc.
    [crawl_delay] and [last_request_time], which only
    [_respect_rate_limits] reads and writes, [processor] and [logger] are
    not fields of the record: an equation between two crawlers speaks of
    the four fields below and says nothing about those. *)
Record SimpleCrawler : Type := {
  respect_robots_txt : bool;
  max_pages : Z;
  max_depth : Z;
  robot_parsers : gmap string RobotFileParser;
}.

(** [self.max_depth] and [self.max_pages], for the methods in which a
    parameter of the same name hides the field. *)
Definition self_max_depth (self : SimpleCrawler) : Z := max_depth self.
Definition self_max_pages (self : SimpleCrawler) : Z := max_pages self.

(** [SimpleCrawler(respect_robots_txt, crawl_delay, max_pages, max_depth)] *)
Definition init (respect : bool) (pages depth : Z) : SimpleCrawler :=
  {| respect_robots_txt := respect;
     max_pages := pages;
     max_depth := depth;
     robot_parsers := ∅ |}.

(** [SimpleCrawler()] with the default arguments of [__init__]. *)
Definition init_default : SimpleCrawler := init true 100 3.

Definition set_robot_parsers (self : SimpleCrawler)
    (cache : gmap string RobotFileParser) : SimpleCrawler :=
  {| respect_robots_txt := respect_robots_txt self;
     max_pages := max_pages self;
     max_depth := max_depth self;
     robot_parsers := cache |}.

(** ** The frontier of [crawl_with_depth] *)

(** What the traversal did, for stating its properties: no code reads it. *)
Inductive event : Type :=
| Enqueue (url : string) (depth : Z)
    (** [queue.append((url, depth))], the initial entry included *)
| Dispatch (url : string) (depth : Z) (content : option string)
    (links : list string)
    (** [content, links = self.crawl(url)] for an entry of that depth *).

(** The local variables of [crawl_with_depth] during its loop, [self], and
    the [log] of events, newest first. *)
Record frontier : Type := {
  queue : list (string * Z);
  visited : gset string;
  results : gmap string string;
  page_count : Z;
  crawler : SimpleCrawler;
  log : list event;
}.

(** One turn of the [while] loop. *)
Inductive step_result : Type :=
| Continue (s : frontier)
    (** the body ended or hit [continue]: the condition is tested again *)
| Break (s : frontier)
    (** the condition was false, or the body hit [break] *)
| Abort (e : exn) (s : frontier)
    (** an exception left the loop *).

(** ** Vocabulary of the properties of a traversal *)

(** The frontier a turn of the loop ends with. *)
Definition frontier_of (r : step_result) : frontier :=
  match r with
  | Continue s => s
  | Break s => s
  | Abort _ s => s
  end.

(** The URLs given to [crawl], newest first. *)
Fixpoint dispatched (log : list event) : list string :=
  match log with
  | [] => []
  | Dispatch url _ _ _ :: rest => url :: dispatched rest
  | Enqueue _ _ :: rest => dispatched rest
  end.

(** The URLs given to [crawl], in the order of the calls. *)
Definition dispatch_order (log : list event) : list string :=
  rev (dispatched log).

(** The URLs put into the queue, newest first. *)
Fixpoint enqueued (log : list event) : list string :=
  match log with
  | [] => []
  | Enqueue url _ :: rest => url :: enqueued rest
  | Dispatch _ _ _ _ :: rest => enqueued rest
  end.

(** [a] is given to [crawl] at some point before [b] is. *)
Definition processed_before (log : list event) (a b : string) : Prop :=
  exists l1 l2 l3, dispatch_order log = (l1 ++ a :: l2 ++ b :: l3)%list.

(** [url] was discovered through a chain of [n] links that starts at one of
    the [seeds]: each link is one that a call of [crawl] recorded in [log]
    returned. *)
Inductive discovered (seeds : list string) (log : list event)
    : nat -> string -> Prop :=
| discovered_seed url :
    url ∈ seeds -> discovered seeds log 0 url
| discovered_link n page depth content links url :
    discovered seeds log n page ->
    Dispatch page depth content links ∈ log ->
    url ∈ links ->
    discovered seeds log (S n) url.

(** [host] is [base_host] or one of its subdomains. *)
Definition host_in_scope (host base_host : string) : Prop :=
  host = base_host \/ exists sub, host = sub ++ "." ++ base_host.

(** What [extract_links] requires of the netloc of a link: it is the
    netloc of the base URL, or it ends with a dot and that netloc.  The
    netloc of a URL is its host as written, together with its port and its
    user information when it has them. *)
Definition netloc_in_scope (url_netloc base_netloc : string) : Prop :=
  url_netloc = base_netloc
  \/ exists pre, url_netloc = pre ++ "." ++ base_netloc.

(** [s.rpartition("@")[2]]: what follows the last [@] of [s], or [s]. *)
Fixpoint after_last_at (s : string) : string :=
  match s with
  | "" => ""
  | String c rest =>
      if Py.contains "@" rest then after_last_at rest
      else if String.eqb (String c "") "@" then rest
      else s
  end.

(** The host of a netloc: what follows the user information and precedes
    the port, as [urlparse(url).hostname] has it for a host name (which it
    also puts in lower case). *)
Definition hostname (netloc : string) : string :=
  let hostinfo := after_last_at netloc in
  match String.index 0 ":" hostinfo with
  | Some i => String.substring 0 i hostinfo
  | None => hostinfo
  end.

(** The entries given to [crawl], with their depths, newest first. *)
Fixpoint dispatches (log : list event) : list (string * Z) :=
  match log with
  | [] => []
  | Dispatch url depth _ _ :: rest => (url, depth) :: dispatches rest
  | Enqueue _ _ :: rest => dispatches rest
  end.

(** The number of calls of [crawl] that gave text. *)
Fixpoint pages_with_text (log : list event) : nat :=
  match log with
  | [] => 0%nat
  | Dispatch _ _ content _ :: rest =>
      if Py.truthy content then S (pages_with_text rest)
      else pages_with_text rest
  | Enqueue _ _ :: rest => pages_with_text rest
  end.

(** [self'] is [self] with, possibly, more robots.txt parsers in its
    cache: the settings are the same and no cached parser is dropped or
    replaced. *)
Definition cache_grown (self self' : SimpleCrawler) : Prop :=
  respect_robots_txt self' = respect_robots_txt self
  /\ max_pages self' = max_pages self
  /\ max_depth self' = max_depth self
  /\ robot_parsers self ⊆ robot_parsers self'.

(** [url] names a page of the web for [crawl]: it starts with [http://] or
    [https://]. *)
Definition is_http (url : string) : bool :=
  Py.startswith url "http://" || Py.startswith url "https://".

Section Crawler.

Variable L : Lib.

(** *** Politeness gate *)

(** [_is_valid_url]: scheme and netloc both non-empty; a raising
    [urlparse] gives [False]. *)
Definition _is_valid_url (url : string) : bool :=
  match urlparse L url with
  | Returns r => Py.str_truthy (scheme r) && Py.str_truthy (netloc r)
  | Raises _ => false
  end.

(** [_get_robot_parser]: the parser it returns ([None] when robots.txt is
    not respected or could not be read), or the exception that escapes it
    ([urlparse] and [urljoin] are called outside its [try]), and [self]
    afterwards. *)
Definition _get_robot_parser (self : SimpleCrawler) (base_url : string)
    : outcome (option RobotFileParser) * SimpleCrawler :=
  if negb (respect_robots_txt self) then (Returns None, self)
  else
    match urlparse L base_url with
    | Raises e => (Raises e, self)
    | Returns parsed =>
        match robot_parsers self !! netloc parsed with
        | Some robot_parser => (Returns (Some robot_parser), self)
        | None =>
            match urljoin L base_url "/robots.txt" with
            | Raises e => (Raises e, self)
            | Returns robots_url =>
                match robots_read L robots_url with
                | Returns robot_parser =>
                    (Returns (Some robot_parser),
                     set_robot_parsers self
                       (<[netloc parsed := robot_parser]> (robot_parsers self)))
                | Raises _ => (Returns None, self)
                end
            end
        end
    end.

(** [_can_fetch] *)
Definition _can_fetch (self : SimpleCrawler) (url : string)
    : bool * SimpleCrawler :=
  if negb (respect_robots_txt self) then (true, self)
  else
    match _get_robot_parser self url with
    | (Returns (Some robot_parser), self') =>
        match can_fetch robot_parser url with
        | Returns b => (b, self')
        | Raises _ => (true, self')
        end
    | (Returns None, self') => (true, self')
    | (Raises _, self') => (true, self')
    end.

(** *** Content and link extractor *)

(** [any(re.search(pattern, s) for pattern in patterns)]: stops at the
    first match; a raising [re.search] raises. *)
Fixpoint any_search (patterns : list string) (s : string) : outcome bool :=
  match patterns with
  | [] => Returns false
  | pattern :: rest =>
      match re_search L pattern s with
      | Raises e => Raises e
      | Returns true => Returns true
      | Returns false => any_search rest s
      end
  end.

(** The pattern filter shared by [extract_links] and [crawl_with_depth]:
    [if url_patterns: if not any(...): continue].  [Returns false] is the
    [continue]. *)
Definition passes_patterns (url_patterns : option (list string))
    (s : string) : outcome bool :=
  if Py.list_truthy url_patterns
  then any_search (default [] url_patterns) s
  else Returns true.

(** [url_domain == base_domain or url_domain.endswith(f".{base_domain}")] *)
Definition same_site (url_domain base_domain : string) : bool :=
  String.eqb url_domain base_domain
  || Py.endswith url_domain ("." ++ base_domain).

(** The [for a_tag in ...] loop of [extract_links], with [links] the list
    built so far.  An exception leaves the loop with [self] as it is
    then. *)
Fixpoint extract_links_loop (self : SimpleCrawler) (hrefs : list string)
    (base_url : string) (url_patterns : option (list string))
    (links : list string) : outcome (list string) * SimpleCrawler :=
  match hrefs with
  | [] => (Returns links, self)
  | href :: rest =>
      if Py.str_truthy base_url then
        match urljoin L base_url href with
        | Raises e => (Raises e, self)
        | Returns full_url =>
            match passes_patterns url_patterns full_url with
            | Raises e => (Raises e, self)
            | Returns false =>
                extract_links_loop self rest base_url url_patterns links
            | Returns true =>
                match urlparse L base_url with
                | Raises e => (Raises e, self)
                | Returns base_parsed =>
                    match urlparse L full_url with
                    | Raises e => (Raises e, self)
                    | Returns url_parsed =>
                        if same_site (netloc url_parsed) (netloc base_parsed)
                        then
                          if _is_valid_url full_url then
                            let '(ok, self') := _can_fetch self full_url in
                            extract_links_loop self' rest base_url url_patterns
                              (if ok then links ++ [full_url] else links)
                          else
                            extract_links_loop self rest base_url
                              url_patterns links
                        else
                          extract_links_loop self rest base_url url_patterns
                            links
                    end
                end
            end
        end
      else if _is_valid_url href then
        let '(ok, self') := _can_fetch self href in
        extract_links_loop self' rest base_url url_patterns
          (if ok then links ++ [href] else links)
      else extract_links_loop self rest base_url url_patterns links
  end.

(** [extract_links]: any exception gives [[]]. *)
Definition extract_links (self : SimpleCrawler) (html_content : string)
    (base_url : string) (url_patterns : option (list string))
    : list string * SimpleCrawler :=
  match soup_hrefs L html_content with
  | Raises _ => ([], self)
  | Returns hrefs =>
      match extract_links_loop self hrefs base_url url_patterns [] with
      | (Returns links, self') => (links, self')
      | (Raises _, self') => ([], self')
      end
  end.

(** *** Sitemap resolver *)

Definition sitemap_ns (name : string) : string :=
  "{http://www.sitemaps.org/schemas/sitemap/0.9}" ++ name.

Definition tag_of (e : Element) : string :=
  match e with Elem t _ _ => t end.

Definition text_of (e : Element) : option string :=
  match e with Elem _ t _ => t end.

Definition children_of (e : Element) : list Element :=
  match e with Elem _ _ cs => cs end.

(** Every element below [e], in document order ([e] itself is not one). *)
Fixpoint descendants (e : Element) : list Element :=
  match e with
  | Elem _ _ cs => flat_map (fun c => c :: descendants c) cs
  end.

(** [root.findall(".//" + tag)] *)
Definition findall (root : Element) (tag : string) : list Element :=
  List.filter (fun e => String.eqb (tag_of e) tag) (descendants root).

(** [e.find(tag)]: the first child with that tag. *)
Definition find (e : Element) (tag : string) : option Element :=
  List.find (fun c => String.eqb (tag_of c) tag) (children_of e).

(** The [loc] text an entry contributes:
    [loc = e.find("{ns}loc")], kept [if loc is not None and loc.text]. *)
Definition loc_text (e : Element) : option string :=
  match find e (sitemap_ns "loc") with
  | Some loc => if Py.truthy (text_of loc) then text_of loc else None
  | None => None
  end.

(** The [loc] texts of the entries named [name] below [root], in document
    order. *)
Definition locs (root : Element) (name : string) : list string :=
  omap loc_text (findall root (sitemap_ns name)).

(** The loop over the children of a sitemap index:
    [child_urls = self.parse_sitemap(loc.text); urls.extend(child_urls)],
    with [recur] the recursive call.  [None]: a recursive call did not
    finish. *)
Fixpoint extend_children (recur : string -> option (list string))
    (child_locs : list string) (urls : list string) : option (list string) :=
  match child_locs with
  | [] => Some urls
  | loc :: rest =>
      match recur loc with
      | None => None
      | Some child_urls => extend_children recur rest (urls ++ child_urls)
      end
  end.

(** The [try] block of [parse_sitemap]. *)
Definition parse_sitemap_try (recur : string -> option (list string))
    (sitemap_url : string) : option (outcome (list string)) :=
  match requests_get L sitemap_url with
  | Raises e => Some (Raises e)
  | Returns response =>
      if negb (status_code response =? 200) then Some (Returns [])
      else if Py.contains "<sitemapindex" (text response) then
        match ET_fromstring L (text response) with
        | Raises e => Some (Raises e)
        | Returns root =>
            match extend_children recur (locs root "sitemap") [] with
            | Some urls => Some (Returns urls)
            | None => None
            end
        end
      else
        match ET_fromstring L (text response) with
        | Raises e => Some (Raises e)
        | Returns root => Some (Returns (locs root "url"))
        end
  end.

(** [parse_sitemap].  The source recurses without a bound (an index may
    list itself); [fuel] bounds the nesting of calls, and [None] says that
    the call did not finish within it.  Both handlers return [[]]. *)
Fixpoint parse_sitemap (fuel : nat) (sitemap_url : string)
    : option (list string) :=
  match fuel with
  | O => None
  | S fuel' =>
      match parse_sitemap_try (parse_sitemap fuel') sitemap_url with
      | None => None
      | Some (Returns urls) => Some urls
      | Some (Raises ParseError) => Some []
      | Some (Raises OtherException) => Some []
      end
  end.

(** *** Single-document dispatcher *)

(** [SimpleDocProcessor.get_html_from_url] *)
Definition get_html_from_url (url : string) : option string :=
  match requests_get L url with
  | Raises _ => None
  | Returns response =>
      if status_code response =? 200 then Some (text response) else None
  end.

(** [SimpleDocProcessor.process_url]; [response.content] and
    [response.text] are the one body of the modelled response. *)
Definition process_url (url : string) : option string :=
  match requests_get L url with
  | Raises _ => None
  | Returns response =>
      if status_code response =? 200 then
        match soup_text L (text response) with
        | Returns t => Some t
        | Raises _ => None
        end
      else None
  end.

(** [crawl]: [(content, links)] and [self] afterwards; any exception gives
    [(None, [])]. *)
Definition crawl (self : SimpleCrawler) (file_path_or_url : string)
    : (option string * list string) * SimpleCrawler :=
  if Py.startswith file_path_or_url "http://"
     || Py.startswith file_path_or_url "https://" then
    let html_content := get_html_from_url file_path_or_url in
    if negb (Py.truthy html_content) then ((None, []), self)
    else
      let content := process_url file_path_or_url in
      let '(links, self') :=
        extract_links self (default "" html_content) file_path_or_url None in
      ((content, links), self')
  else if Py.endswith file_path_or_url ".md" then
    match get_html_from_markdown L file_path_or_url with
    | Raises _ => ((None, []), self)
    | Returns html_content =>
        if negb (Py.truthy html_content) then ((None, []), self)
        else
          match process_markdown_file L file_path_or_url with
          | Raises _ => ((None, []), self)
          | Returns content =>
              let '(links, self') :=
                extract_links self (default "" html_content) "" None in
              ((content, links), self')
          end
    end
  else if Py.endswith file_path_or_url ".txt" then
    match process_text_file L file_path_or_url with
    | Raises _ => ((None, []), self)
    | Returns content => ((content, []), self)
    end
  else if Py.endswith file_path_or_url ".pdf" then
    match process_pdf_file L file_path_or_url with
    | Raises _ => ((None, []), self)
    | Returns content => ((content, []), self)
    end
  else ((None, []), self).

(** *** Frontier traversal engine *)

(** [if not arg: arg = instance_value] *)
Definition override (arg : option Z) (instance_value : Z) : Z :=
  if negb (Py.int_truthy arg) then instance_value else default 0 arg.

(** The loop that seeds the queue:
    [for url in sitemap_urls: if url not in visited: queue.append((url, 0))] *)
Fixpoint seed_queue (visited : gset string) (sitemap_urls : list string)
    (queue : list (string * Z)) (log : list event)
    : list (string * Z) * list event :=
  match sitemap_urls with
  | [] => (queue, log)
  | url :: rest =>
      if bool_decide (url ∈ visited)
      then seed_queue visited rest queue log
      else seed_queue visited rest (queue ++ [(url, 0)]) (Enqueue url 0 :: log)
  end.

(** The [try] block that looks for a sitemap, as the list
    [sitemap_urls] it iterates over ([[]] when it appends nothing).
    [None]: [parse_sitemap] did not finish within [fuel]. *)
Definition sitemap_urls_of (fuel : nat) (sitemap_url : string)
    : option (list string) :=
  match requests_head L sitemap_url with
  | Raises _ => Some []
  | Returns response =>
      if status_code response =? 200
      then parse_sitemap fuel sitemap_url
      else Some []
  end.

(** The loop that adds the links of a page:
    [[
    for link in links:
        if url_patterns:
            if not any(re.search(pattern, link) for pattern in url_patterns):
                continue
        if link not in visited:
            queue.append((link, depth + 1))
    ]]
    [Some e]: [re.search] raised [e], with the queue as it is then. *)
Fixpoint enqueue_links (url_patterns : option (list string))
    (visited : gset string) (depth : Z) (links : list string)
    (queue : list (string * Z)) (log : list event)
    : option exn * (list (string * Z) * list event) :=
  match links with
  | [] => (None, (queue, log))
  | link :: rest =>
      match passes_patterns url_patterns link with
      | Raises e => (Some e, (queue, log))
      | Returns false =>
          enqueue_links url_patterns visited depth rest queue log
      | Returns true =>
          if bool_decide (link ∈ visited)
          then enqueue_links url_patterns visited depth rest queue log
          else enqueue_links url_patterns visited depth rest
                 (queue ++ [(link, depth + 1)])
                 (Enqueue link (depth + 1) :: log)
      end
  end.

(** The condition and the body of
    [while queue and page_count < max_pages]. *)
Definition step (max_depth max_pages : Z)
    (url_patterns : option (list string)) (s : frontier) : step_result :=
  match queue s with
  | [] => Break s
  | (url, depth) :: rest =>
      if negb (page_count s <? max_pages) then Break s
      else if bool_decide (url ∈ visited s) || (max_depth <? depth) then
        Continue {| queue := rest; visited := visited s;
                    results := results s; page_count := page_count s;
                    crawler := crawler s; log := log s |}
      else
        let visited' := {[url]} ∪ visited s in
        let '((content, links), self') := crawl (crawler s) url in
        let log' := Dispatch url depth content links :: log s in
        if Py.truthy content then
          let results' := <[url := default "" content]> (results s) in
          let page_count' := page_count s + 1 in
          if max_pages <=? page_count' then
            Break {| queue := rest; visited := visited';
                     results := results'; page_count := page_count';
                     crawler := self'; log := log' |}
          else if depth <? max_depth then
            match enqueue_links url_patterns visited' depth links rest log'
            with
            | (None, (queue', log'')) =>
                Continue {| queue := queue'; visited := visited';
                            results := results'; page_count := page_count';
                            crawler := self'; log := log'' |}
            | (Some e, (queue', log'')) =>
                Abort e {| queue := queue'; visited := visited';
                           results := results'; page_count := page_count';
                           crawler := self'; log := log'' |}
            end
          else
            Continue {| queue := rest; visited := visited';
                        results := results'; page_count := page_count';
                        crawler := self'; log := log' |}
        else
          Continue {| queue := rest; visited := visited';
                      results := results s; page_count := page_count s;
                      crawler := self'; log := log' |}
  end.

(** The [while] loop: the exception that left it, if any, and the frontier
    at its end.  Each turn either counts a page below [max_pages] or
    shortens the queue. *)
Equations? drain (max_depth max_pages : Z)
    (url_patterns : option (list string)) (s : frontier)
    : option exn * frontier
    by wf (Z.to_nat (max_pages - page_count s), List.length (queue s))
          (Subterm.lexprod nat nat lt lt) :=
  drain max_depth max_pages url_patterns s
    with Equations.Prop.Logic.inspect (step max_depth max_pages url_patterns s) := {
    | exist _ (Continue s') H => drain max_depth max_pages url_patterns s';
    | exist _ (Break s') H => (None, s');
    | exist _ (Abort e s') H => (Some e, s') }.
Proof.
  unfold step in H.
  destruct (queue s) as [|[url depth] rest] eqn:Hq; [discriminate|].
  match type of H with
  | context [negb (page_count s <? ?m)] =>
      destruct (page_count s <? m) eqn:Hlt; [|discriminate]
  end.
  apply Z.ltb_lt in Hlt. cbn [negb] in H.
  match type of H with
  | context [bool_decide ?P || ?b] => destruct (bool_decide P || b)
  end.
  { inversion H; subst; cbn. right. lia. }
  destruct (crawl (crawler s) url) as [[content links] self'].
  destruct (Py.truthy content).
  - match type of H with
    | context [?m <=? page_count s + 1] =>
        destruct (m <=? page_count s + 1) eqn:Hle; [discriminate|];
        apply Z.leb_gt in Hle;
        assert (Hdec : (Z.to_nat (m - (page_count s + 1))
                        < Z.to_nat (m - page_count s))%nat) by lia
    end.
    match type of H with
    | context [depth <? ?d] => destruct (depth <? d)
    end.
    + destruct (enqueue_links _ _ _ _ _ _) as [[e|] [queue' log'']];
        [discriminate|].
      inversion H; subst; cbn. left. exact Hdec.
    + inversion H; subst; cbn. left. exact Hdec.
  - inversion H; subst; cbn. right. lia.
Qed.

(** The frontier when the loop starts: [queue = deque([(start_url, 0)])],
    [visited = set()], [results = {}], then the sitemap URLs appended,
    [page_count = 0]. *)
Definition initial_frontier (self : SimpleCrawler) (start_url : string)
    (sitemap_urls : list string) : frontier :=
  let visited : gset string := ∅ in
  let '(queue, log) :=
    seed_queue visited sitemap_urls [(start_url, 0)] [Enqueue start_url 0] in
  {| queue := queue; visited := visited; results := ∅; page_count := 0;
     crawler := self; log := log |}.

(** [crawl_with_depth] up to the end of its loop: the exception that left
    it, if any, and the frontier then.  [None]: the sitemap was not
    resolved within [fuel]. *)
Definition crawl_with_depth_run (fuel : nat) (self : SimpleCrawler)
    (start_url : string) (max_depth max_pages : option Z)
    (url_patterns : option (list string)) : option (option exn * frontier) :=
  let max_depth := override max_depth (self_max_depth self) in
  let max_pages := override max_pages (self_max_pages self) in
  match urljoin L start_url "/sitemap.xml" with
  | Raises e => Some (Some e, initial_frontier self start_url [])
  | Returns sitemap_url =>
      match sitemap_urls_of fuel sitemap_url with
      | None => None
      | Some sitemap_urls =>
          Some (drain max_depth max_pages url_patterns
                  (initial_frontier self start_url sitemap_urls))
      end
  end.

(** [crawl_with_depth]: the dictionary it returns, or the exception it
    raises. *)
Definition crawl_with_depth (fuel : nat) (self : SimpleCrawler)
    (start_url : string) (max_depth max_pages : option Z)
    (url_patterns : option (list string))
    : option (outcome (gmap string string)) :=
  match crawl_with_depth_run fuel self start_url max_depth max_pages
          url_patterns with
  | None => None
  | Some (None, s) => Some (Returns (results s))
  | Some (Some e, _) => Some (Raises e)
  end.

(** *** Methods beside the traversal *)

(** [check_sitemap]: [urljoin] is called outside the [try]. *)
Definition check_sitemap (base_url : string) : outcome bool :=
  match urljoin L base_url "/sitemap.xml" with
  | Raises e => Raises e
  | Returns sitemap_url =>
      match requests_head L sitemap_url with
      | Returns response => Returns (status_code response =? 200)
      | Raises _ => Returns false
      end
  end.

(** [SimpleDocProcessor.process_document] *)
Definition process_document (file_path_or_url : string)
    : outcome (option string) :=
  if Py.startswith file_path_or_url "http://"
     || Py.startswith file_path_or_url "https://" then
    Returns (process_url file_path_or_url)
  else if Py.endswith file_path_or_url ".pdf" then
    process_pdf_file L file_path_or_url
  else if Py.endswith file_path_or_url ".md" then
    process_markdown_file L file_path_or_url
  else if Py.endswith file_path_or_url ".txt" then
    process_text_file L file_path_or_url
  else Returns None.

(** [ResearchAssistant.process_document]: the content it returns, or the
    [ResearchAssistantError] it raises (an [OtherException]: it is no
    [ET.ParseError]).  The handler turns every exception of the [try] block
    into that error. *)
Definition ResearchAssistant_process_document (file_path_or_url : string)
    : outcome string :=
  let content : outcome (option string) :=
    if Py.startswith file_path_or_url "http://"
       || Py.startswith file_path_or_url "https://" then
      Returns (process_url file_path_or_url)
    else if Py.endswith file_path_or_url ".pdf" then
      process_pdf_file L file_path_or_url
    else if Py.endswith file_path_or_url ".md" then
      process_markdown_file L file_path_or_url
    else if Py.endswith file_path_or_url ".txt" then
      process_text_file L file_path_or_url
    else Raises OtherException in
  match content with
  | Raises _ => Raises OtherException
  | Returns content =>
      if negb (Py.truthy content) then Raises OtherException
      else Returns (default "" content)
  end.

(** The [href]s of a document resolved against [base_url], in document
    order. *)
Definition resolve_all (base_url : string) (hrefs : list string)
    : list string :=
  omap (fun href =>
          match urljoin L base_url href with
          | Returns full_url => Some full_url
          | Raises _ => None
          end) hrefs.

(** *** Vocabulary of the properties *)

(** [drain] by bounded iteration of [step], to run it on a given web. *)
Fixpoint drain_fuel (n : nat) (max_depth max_pages : Z)
    (url_patterns : option (list string)) (s : frontier)
    : option (option exn * frontier) :=
  match n with
  | O => None
  | S n' =>
      match step max_depth max_pages url_patterns s with
      | Continue s' => drain_fuel n' max_depth max_pages url_patterns s'
      | Break s' => Some (None, s')
      | Abort e s' => Some (Some e, s')
      end
  end.

(** [parse_sitemap sitemap_url] returns [urls]. *)
Definition resolves (sitemap_url : string) (urls : list string) : Prop :=
  exists fuel, parse_sitemap fuel sitemap_url = Some urls.

(** The links that [crawl] finds on a page, for a crawler in state
    [self]. *)
Definition links_of (self : SimpleCrawler) (url : string) : list string :=
  (crawl self url).1.2.

(** [url] is reached from [start_url] by a chain of [n] links, each one
    found by [crawl] on the page before it. *)
Inductive link_chain (self : SimpleCrawler) (start_url : string)
    : nat -> string -> Prop :=
| link_chain_start : link_chain self start_url 0 start_url
| link_chain_step n page url :
    link_chain self start_url n page ->
    url ∈ links_of self page ->
    link_chain self start_url (S n) url.

(** What one turn of the loop does to the frontier: nothing (the loop is
    over), drop the head of the queue (already visited, or too deep), or
    give it to [crawl], record what was found and append some of its
    links, [new], one level deeper. *)
Inductive turn (max_depth max_pages : Z) (s : frontier)
    : frontier -> Prop :=
| turn_end :
    queue s = [] \/ max_pages <= page_count s ->
    turn max_depth max_pages s s
| turn_skip url depth rest :
    queue s = (url, depth) :: rest ->
    page_count s < max_pages ->
    url ∈ visited s \/ max_depth < depth ->
    turn max_depth max_pages s
      {| queue := rest; visited := visited s; results := results s;
         page_count := page_count s; crawler := crawler s; log := log s |}
| turn_dispatch url depth rest content links self' new :
    queue s = (url, depth) :: rest ->
    page_count s < max_pages ->
    url ∉ visited s ->
    depth <= max_depth ->
    crawl (crawler s) url = ((content, links), self') ->
    Forall (fun link => link ∈ links /\ link ∉ {[url]} ∪ visited s) new ->
    (new <> [] -> depth < max_depth /\ Py.truthy content = true) ->
    turn max_depth max_pages s
      {| queue := rest ++ List.map (fun link => (link, depth + 1)) new;
         visited := {[url]} ∪ visited s;
         results :=
           if Py.truthy content
           then <[url := default "" content]> (results s)
           else results s;
         page_count :=
           if Py.truthy content then page_count s + 1 else page_count s;
         crawler := self';
         log := List.map (fun link => Enqueue link (depth + 1)) (rev new)
                ++ Dispatch url depth content links :: log s |}.

(** *** Readings that the code does not satisfy *)

(** "All sitemap-seeded URLs are dequeued and processed before the
    explicit start URL is processed", for a call in which the sitemap
    yields at least one URL. *)
Definition sitemap_urls_first (fuel : nat) (self : SimpleCrawler)
    (start_url : string) (max_depth max_pages : option Z)
    (url_patterns : option (list string)) : Prop :=
  forall sitemap_url sitemap_urls e s url,
    urljoin L start_url "/sitemap.xml" = Returns sitemap_url ->
    sitemap_urls_of fuel sitemap_url = Some sitemap_urls ->
    crawl_with_depth_run fuel self start_url max_depth max_pages
      url_patterns = Some (e, s) ->
    url ∈ sitemap_urls ->
    url <> start_url ->
    start_url ∈ dispatched (log s) ->
    processed_before (log s) url start_url.

(** "Every distinct URL string is inserted into the frontier queue at
    most once." *)
Definition enqueued_at_most_once (fuel : nat) (self : SimpleCrawler)
    (start_url : string) (max_depth max_pages : option Z)
    (url_patterns : option (list string)) : Prop :=
  forall e s,
    crawl_with_depth_run fuel self start_url max_depth max_pages
      url_patterns = Some (e, s) ->
    NoDup (enqueued (log s)).

(** "No URL whose only discovery paths from the start URL are chains of
    more than [d] links (and which is not returned by the sitemap) appears
    as a key of the result map." *)
Definition depth_bound_from_start_url (fuel : nat) (self : SimpleCrawler)
    (start_url : string) (max_depth max_pages : option Z)
    (url_patterns : option (list string)) : Prop :=
  forall sitemap_url sitemap_urls result url,
    urljoin L start_url "/sitemap.xml" = Returns sitemap_url ->
    sitemap_urls_of fuel sitemap_url = Some sitemap_urls ->
    crawl_with_depth fuel self start_url max_depth max_pages url_patterns
    = Some (Returns result) ->
    url ∉ sitemap_urls ->
    (forall n,
        link_chain self start_url n url ->
        override max_depth (self_max_depth self) < Z.of_nat n) ->
    url ∉ dom result.

(** "When extract_links is called with a non-empty baseUrl, every returned
    link's host is either exactly equal to the base URL's host or ends
    with a dot followed by the base host", and, for the base host
    example.com, "a link to host sub.example.com is kept (assuming it is
    valid and fetchable)".  The host of a URL is the [hostname] of its
    netloc. *)
Definition domain_scoping_by_host (self : SimpleCrawler)
    (html_content base_url : string) (url_patterns : option (list string))
    : Prop :=
  base_url <> "" ->
  (forall link base_parsed link_parsed,
      link ∈ (extract_links self html_content base_url url_patterns).1 ->
      urlparse L base_url = Returns base_parsed ->
      urlparse L link = Returns link_parsed ->
      host_in_scope (hostname (netloc link_parsed))
        (hostname (netloc base_parsed)))
  /\ (forall hrefs href link base_parsed link_parsed,
        soup_hrefs L html_content = Returns hrefs ->
        href ∈ hrefs ->
        urljoin L base_url href = Returns link ->
        urlparse L base_url = Returns base_parsed ->
        hostname (netloc base_parsed) = "example.com" ->
        urlparse L link = Returns link_parsed ->
        hostname (netloc link_parsed) = "sub.example.com" ->
        _is_valid_url link = true ->
        (forall self0, (_can_fetch self0 link).1 = true) ->
        link ∈ (extract_links self html_content base_url url_patterns).1).


End Crawler.

(** ** A small web to run the crawler on *)

Module Toy.

(** [url ↦ v] tables. *)
Fixpoint lookup {A} (key : string) (table : list (string * A)) : option A :=
  match table with
  | [] => None
  | (k, v) :: rest => if String.eqb k key then Some v else lookup key rest
  end.

(** A served document: an HTML page with its text and the [href]s of its
    anchors, or an XML document with its text and what it parses to
    ([None]: it is not well-formed). *)
Inductive document : Type :=
| Html (content : string) (hrefs : list string)
| Xml (body : string) (root : option Element).

(** A web: the documents served with status 200 (every other URL answers
    404), the URLs whose request fails, and the robots.txt files that can
    be read, each with the URLs it disallows. *)
Record web : Type := {
  served : list (string * document);
  unreachable : list string;
  robots : list (string * list string);
}.

(** [scheme://netloc/path], split at the first [://] and the next [/]. *)
Definition split_url (url : string) : string * string * string :=
  match String.index 0 "://" url with
  | None => ("", "", url)
  | Some i =>
      let rest := String.substring (i + 3) (String.length url) url in
      match String.index 0 "/" rest with
      | None => (String.substring 0 i url, rest, "")
      | Some j =>
          (String.substring 0 i url, String.substring 0 j rest,
           String.substring j (String.length rest) rest)
      end
  end.

Definition parse (url : string) : outcome ParseResult :=
  let '(s, n, _) := split_url url in
  Returns {| scheme := s; netloc := n |}.

(** Absolute references are kept; a reference that starts with [/]
    replaces the path of the base. *)
Definition join (base ref : string) : outcome string :=
  if Py.contains "://" ref then Returns ref
  else
    let '(s, n, _) := split_url base in
    Returns (s ++ "://" ++ n ++ ref).

(** The body sent for a document: an HTML page is sent as its URL, which
    the HTML parser below reads back. *)
Definition body_of (url : string) (d : document) : string :=
  match d with
  | Html _ _ => url
  | Xml body _ => body
  end.

Definition fetch (w : web) (url : string) : outcome Response :=
  if bool_decide (url ∈ unreachable w) then Raises OtherException
  else
    match lookup url (served w) with
    | Some d => Returns {| status_code := 200; text := body_of url d |}
    | None => Returns {| status_code := 404; text := "" |}
    end.

Definition xml_of (w : web) (body : string) : outcome Element :=
  match
    List.find (fun '(_, d) =>
                 match d with
                 | Xml b _ => String.eqb b body
                 | Html _ _ => false
                 end) (served w)
  with
  | Some (_, Xml _ (Some root)) => Returns root
  | _ => Raises ParseError
  end.

Definition hrefs_of (w : web) (html : string) : outcome (list string) :=
  match lookup html (served w) with
  | Some (Html _ hrefs) => Returns hrefs
  | _ => Returns []
  end.

Definition text_of_html (w : web) (html : string) : outcome string :=
  match lookup html (served w) with
  | Some (Html content _) => Returns content
  | _ => Returns ""
  end.

Definition read_robots (w : web) (robots_url : string)
    : outcome RobotFileParser :=
  match lookup robots_url (robots w) with
  | Some disallowed =>
      Returns {| can_fetch url :=
                   Returns (negb (bool_decide (url ∈ disallowed))) |}
  | None => Raises OtherException
  end.

Definition lib (w : web) : Lib :=
  {| urlparse := parse;
     urljoin := join;
     re_search pattern s := Returns (Py.contains pattern s);
     requests_get := fetch w;
     requests_head := fetch w;
     ET_fromstring := xml_of w;
     soup_hrefs := hrefs_of w;
     soup_text := text_of_html w;
     robots_read := read_robots w;
     get_html_from_markdown _ := Returns None;
     process_markdown_file _ := Returns None;
     process_text_file _ := Returns None;
     process_pdf_file _ := Returns None |}.

(** [<urlset>] or [<sitemapindex>] documents of the sitemap protocol. *)
Definition entry (name loc : string) : Element :=
  Elem (sitemap_ns name) None [Elem (sitemap_ns "loc") (Some loc) []].

Definition urlset (locs : list string) : Element :=
  Elem (sitemap_ns "urlset") None (List.map (entry "url") locs).

Definition sitemapindex (locs : list string) : Element :=
  Elem (sitemap_ns "sitemapindex") None (List.map (entry "sitemap") locs).

End Toy.

(** ** Webs used to run the crawler *)

Module Examples.

(** A crawler that ignores robots.txt, with the default budgets. *)
Definition plain : SimpleCrawler := init false 100 3.

(** A page of example.com that links to three other hosts. *)
Definition scoping_web : Toy.web :=
  {| Toy.served :=
       [("https://example.com/a",
         Toy.Html "a"
           ["https://evil.com/x"; "https://sub.example.com/y";
            "https://notexample.com/z"])];
     Toy.unreachable := [];
     Toy.robots := [] |}.

(** The links [extract_links] returns for that page. *)
Definition scoping_links : list string :=
  (extract_links (Toy.lib scoping_web) plain
     "https://example.com/a" "https://example.com/a" None).1.

(** A site whose robots.txt cannot be read. *)
Definition no_robots_web : Toy.web :=
  {| Toy.served := [("https://example.com/a", Toy.Html "a" [])];
     Toy.unreachable := [];
     Toy.robots := [] |}.

(** A sitemap index of two sitemaps of three pages each, a sitemap that is
    not well-formed, and one on a host that does not answer. *)
Definition sitemap_web : Toy.web :=
  {| Toy.served :=
       [("https://example.com/sitemap.xml",
         Toy.Xml "<sitemapindex>"
           (Some (Toy.sitemapindex
                    ["https://example.com/s1.xml";
                     "https://example.com/s2.xml"])));
        ("https://example.com/s1.xml",
         Toy.Xml "<urlset>1"
           (Some (Toy.urlset
                    ["https://example.com/a1"; "https://example.com/a2";
                     "https://example.com/a3"])));
        ("https://example.com/s2.xml",
         Toy.Xml "<urlset>2"
           (Some (Toy.urlset
                    ["https://example.com/b1"; "https://example.com/b2";
                     "https://example.com/b3"])));
        ("https://example.com/broken.xml", Toy.Xml "<urlset" None)];
     Toy.unreachable := ["https://down.example.com/sitemap.xml"];
     Toy.robots := [] |}.

(** A site whose home page leads to [/x] through three links, and whose
    sitemap lists [/s], a page that links to [/x], twice. *)
Definition crawl_web : Toy.web :=
  {| Toy.served :=
       [("https://example.com/", Toy.Html "home" ["/b"]);
        ("https://example.com/b", Toy.Html "page b" ["/c"]);
        ("https://example.com/c", Toy.Html "page c" ["/x"]);
        ("https://example.com/x", Toy.Html "page x" []);
        ("https://example.com/s", Toy.Html "page s" ["/x"]);
        ("https://example.com/sitemap.xml",
         Toy.Xml "<urlset>"
           (Some (Toy.urlset
                    ["https://example.com/s"; "https://example.com/s"])))];
     Toy.unreachable := [];
     Toy.robots := [] |}.

(** The frontier at the end of
    [plain.crawl_with_depth("https://example.com/", max_depth=1)] on that
    site, by ten turns of the loop at most. *)
Definition crawl_end : frontier :=
  let start := initial_frontier plain "https://example.com/"
                 ["https://example.com/s"; "https://example.com/s"] in
  (default (None, start)
     (drain_fuel (Toy.lib crawl_web) 10 1 100 None start)).2.

(** A site whose robots.txt disallows its home page and [/private]; the
    home page links to [/private], twice to [/public], and to another
    host. *)
Definition polite_web : Toy.web :=
  {| Toy.served :=
       [("https://example.com/",
         Toy.Html "home"
           ["/private"; "/public"; "https://other.org/"; "/public"]);
        ("https://example.com/public", Toy.Html "public page" []);
        ("https://example.com/private", Toy.Html "private page" [])];
     Toy.unreachable := [];
     Toy.robots :=
       [("https://example.com/robots.txt",
         ["https://example.com/"; "https://example.com/private"])] |}.

(** The parser of that robots.txt, and the default crawler once it has
    cached it. *)
Definition polite_parser : RobotFileParser :=
  {| can_fetch url :=
       Returns (negb (bool_decide
                        (url ∈ ["https://example.com/";
                                "https://example.com/private"]))) |}.

Definition polite_cached : SimpleCrawler :=
  set_robot_parsers init_default {["example.com" := polite_parser]}.

(** The frontier at the end of
    [SimpleCrawler().crawl_with_depth("https://example.com/")] on that
    site. *)
Definition polite_end : frontier :=
  let start := initial_frontier init_default "https://example.com/" [] in
  (default (None, start)
     (drain_fuel (Toy.lib polite_web) 10 3 100 None start)).2.

(** The libraries of a web, with a [re.search] that raises on [(], which
    is not a regular expression. *)
Definition strict_lib (w : Toy.web) : Lib :=
  {| urlparse := urlparse (Toy.lib w);
     urljoin := urljoin (Toy.lib w);
     re_search pattern s :=
       if String.eqb pattern "(" then Raises OtherException
       else Returns (Py.contains pattern s);
     requests_get := requests_get (Toy.lib w);
     requests_head := requests_head (Toy.lib w);
     ET_fromstring := ET_fromstring (Toy.lib w);
     soup_hrefs := soup_hrefs (Toy.lib w);
     soup_text := soup_text (Toy.lib w);
     robots_read := robots_read (Toy.lib w);
     get_html_from_markdown := get_html_from_markdown (Toy.lib w);
     process_markdown_file := process_markdown_file (Toy.lib w);
     process_text_file := process_text_file (Toy.lib w);
     process_pdf_file := process_pdf_file (Toy.lib w) |}.

(** A home page with a link below [/docs] and one below [/blog]. *)
Definition patterns_web : Toy.web :=
  {| Toy.served :=
       [("https://example.com/", Toy.Html "home" ["/docs/a"; "/blog/b"]);
        ("https://example.com/docs/a", Toy.Html "doc a" []);
        ("https://example.com/blog/b", Toy.Html "post b" [])];
     Toy.unreachable := [];
     Toy.robots := [] |}.

(** How [plain.crawl_with_depth("https://example.com/",
    url_patterns=["docs", "("])] leaves its loop on that site. *)
Definition patterns_end : option exn * frontier :=
  let start := initial_frontier plain "https://example.com/" [] in
  default (None, start)
    (drain_fuel (strict_lib patterns_web) 10 3 100 (Some ["docs"; "("])
       start).

(** The libraries of [no_robots_web], with one Markdown file. *)
Definition files_lib : Lib :=
  {| urlparse := urlparse (Toy.lib no_robots_web);
     urljoin := urljoin (Toy.lib no_robots_web);
     re_search := re_search (Toy.lib no_robots_web);
     requests_get := requests_get (Toy.lib no_robots_web);
     requests_head := requests_head (Toy.lib no_robots_web);
     ET_fromstring := ET_fromstring (Toy.lib no_robots_web);
     soup_hrefs := soup_hrefs (Toy.lib no_robots_web);
     soup_text := soup_text (Toy.lib no_robots_web);
     robots_read := robots_read (Toy.lib no_robots_web);
     get_html_from_markdown path :=
       if String.eqb path "notes.md" then Returns (Some "<p>notes</p>")
       else Returns None;
     process_markdown_file path :=
       if String.eqb path "notes.md" then Returns (Some "notes")
       else Returns None;
     process_text_file := process_text_file (Toy.lib no_robots_web);
     process_pdf_file := process_pdf_file (Toy.lib no_robots_web) |}.

(** A sitemap that is no index, with a comment that names one. *)
Definition marker_web : Toy.web :=
  {| Toy.served :=
       [("https://example.com/sitemap.xml",
         Toy.Xml "<!-- replaces the <sitemapindex> --><urlset>"
           (Some (Toy.urlset ["https://example.com/a"])))];
     Toy.unreachable := [];
     Toy.robots := [] |}.

(** [sitemap_web] with an index that lists, between its two sitemaps, the
    one of the host that does not answer. *)
Definition partial_index_web : Toy.web :=
  {| Toy.served :=
       ("https://example.com/index.xml",
        Toy.Xml "<sitemapindex>3"
          (Some (Toy.sitemapindex
                   ["https://example.com/s1.xml";
                    "https://down.example.com/sitemap.xml";
                    "https://example.com/s2.xml"])))
       :: Toy.served sitemap_web;
     Toy.unreachable := Toy.unreachable sitemap_web;
     Toy.robots := [] |}.

(** The frontier at the end of
    [plain.crawl_with_depth("https://example.com/", url_patterns=["docs"])]
    on [patterns_web]. *)
Definition docs_end : frontier :=
  let start := initial_frontier plain "https://example.com/" [] in
  (default (None, start)
     (drain_fuel (Toy.lib patterns_web) 10 3 100 (Some ["docs"]) start)).2.

(** The frontier at the end of
    [plain.crawl_with_depth("https://example.com/", max_depth=-1)] on
    [crawl_web]. *)
Definition shallow_end : frontier :=
  let start := initial_frontier plain "https://example.com/"
                 ["https://example.com/s"; "https://example.com/s"] in
  (default (None, start)
     (drain_fuel (Toy.lib crawl_web) 10 (-1) 100 None start)).2.

(** A page of example.com that links to evil.com with [.example.com] in
    the place of the port, and to sub.example.com at port 8443. *)
Definition port_web : Toy.web :=
  {| Toy.served :=
       [("https://example.com/a",
         Toy.Html "a"
           ["https://evil.com:.example.com/x";
            "https://sub.example.com:8443/y"])];
     Toy.unreachable := [];
     Toy.robots := [] |}.


(** The frontier at the end of
    [plain.crawl_with_depth("https://example.com/", max_depth=0,
    max_pages=0)] on [crawl_web], by twelve turns of the loop at most with
    the budgets of [plain], 3 and 100. *)
Definition zero_end : frontier :=
  let start := initial_frontier plain "https://example.com/"
                 ["https://example.com/s"; "https://example.com/s"] in
  (default (None, start)
     (drain_fuel (Toy.lib crawl_web) 12 3 100 None start)).2.

End Examples.

(** * Properties *)

(** ** Python strings *)

Lemma substring_all (s : string) :
  String.substring 0 (String.length s) s = s.
Proof. induction s as [|c s IH]; simpl; [reflexivity | by rewrite IH]. Qed.

Lemma substring_split (s : string) (k : nat) :
  (k <= String.length s)%nat ->
  s = String.substring 0 k s ++ String.substring k (String.length s - k) s.
Proof.
  revert k. induction s as [|c s IH]; intros k Hk; simpl in *.
  - assert (k = 0%nat) as -> by lia. reflexivity.
  - destruct k as [|k]; simpl.
    + by rewrite substring_all.
    + change (String c s = String c (String.substring 0 k s
               ++ String.substring k (String.length s - k) s)).
      f_equal. apply IH. lia.
Qed.

Lemma string_length_app (a b : string) :
  String.length (a ++ b) = (String.length a + String.length b)%nat.
Proof. induction a as [|c a IH]; simpl; [reflexivity | by rewrite IH]. Qed.

Lemma substring_app_r (a b : string) :
  String.substring (String.length a) (String.length b) (a ++ b) = b.
Proof.
  induction a as [|c a IH]; simpl; [apply substring_all | exact IH].
Qed.

Lemma endswith_spec (s p : string) :
  Py.endswith s p = true <-> exists pre, s = pre ++ p.
Proof.
  unfold Py.endswith. split.
  - intros [Hle Heq]%andb_true_iff.
    apply Nat.leb_le in Hle. apply String.eqb_eq in Heq.
    pose proof (substring_split s (String.length s - String.length p)
                  ltac:(lia)) as Hsplit.
    replace (String.length s - (String.length s - String.length p))%nat
      with (String.length p) in Hsplit by lia.
    rewrite Heq in Hsplit. eauto.
  - intros [pre ->]. rewrite string_length_app.
    apply andb_true_iff. split; [apply Nat.leb_le; lia|].
    replace (String.length pre + String.length p - String.length p)%nat
      with (String.length pre) by lia.
    rewrite substring_app_r. apply String.eqb_refl.
Qed.

Lemma str_truthy_spec (s : string) : Py.str_truthy s = true <-> s <> "".
Proof.
  unfold Py.str_truthy. rewrite negb_true_iff. split.
  - intros H ->. by rewrite String.eqb_refl in H.
  - intros H. by apply String.eqb_neq.
Qed.

Lemma string_app_cons (x : Ascii.ascii) (a b : string) :
  String x a ++ b = String x (a ++ b).
Proof. reflexivity. Qed.

Lemma string_append_assoc (a b c : string) : (a ++ b) ++ c = a ++ (b ++ c).
Proof.
  induction a as [|x a IH]; [reflexivity|].
  by rewrite !string_app_cons, IH.
Qed.

Lemma string_app_last (s s' : string) (c c' : Ascii.ascii) :
  s ++ String c "" = s' ++ String c' "" -> c = c'.
Proof.
  revert s'. induction s as [|x s IH]; intros [|x' s'];
    rewrite ?string_app_cons; intros H.
  - by injection H.
  - injection H as _ H. by destruct s'.
  - injection H as _ H. by destruct s.
  - injection H as _ H. by eapply IH.
Qed.

(** Two suffixes of one string end with the same character. *)
Lemma endswith_last (s p q c d : string) :
  String.length c = 1%nat ->
  String.length d = 1%nat ->
  Py.endswith s (p ++ c) = true ->
  Py.endswith s (q ++ d) = true ->
  c = d.
Proof.
  destruct c as [|c [|]]; [done| |done].
  destruct d as [|d [|]]; [done| |done].
  intros _ _ [pre Hp]%endswith_spec [pre' Hq]%endswith_spec.
  rewrite Hp, <- !string_append_assoc in Hq.
  f_equal. by eapply string_app_last.
Qed.

Lemma endswith_md_not_pdf (s : string) :
  Py.endswith s ".md" = true -> Py.endswith s ".pdf" = false.
Proof.
  intros Hmd. destruct (Py.endswith s ".pdf") eqn:Hpdf; [|done].
  by pose proof (endswith_last s ".m" ".pd" "d" "f" eq_refl eq_refl Hmd Hpdf).
Qed.

Lemma endswith_txt_not_pdf (s : string) :
  Py.endswith s ".txt" = true -> Py.endswith s ".pdf" = false.
Proof.
  intros Htxt. destruct (Py.endswith s ".pdf") eqn:Hpdf; [|done].
  by pose proof (endswith_last s ".tx" ".pd" "t" "f" eq_refl eq_refl Htxt
                   Hpdf).
Qed.

Lemma is_http_truthy (url : string) :
  is_http url = true -> Py.str_truthy url = true.
Proof. by destruct url. Qed.

Section Properties.

Variable L : Lib.

(** ** Politeness gate *)



(** ** Content and link extractor *)

Lemma same_site_spec (url_domain base_domain : string) :
  same_site url_domain base_domain = true
  <-> netloc_in_scope url_domain base_domain.
Proof.
  unfold same_site, netloc_in_scope.
  rewrite orb_true_iff, String.eqb_eq, endswith_spec. reflexivity.
Qed.

(** Every link the loop adds is in scope. *)
Lemma extract_links_loop_scope (base_url : string)
    (url_patterns : option (list string)) (P : string -> Prop) :
  Py.str_truthy base_url = true ->
  (forall full_url base_parsed url_parsed,
      urlparse L base_url = Returns base_parsed ->
      urlparse L full_url = Returns url_parsed ->
      same_site (netloc url_parsed) (netloc base_parsed) = true ->
      P full_url) ->
  forall hrefs self links result self',
    extract_links_loop L self hrefs base_url url_patterns links
    = (Returns result, self') ->
    Forall P links -> Forall P result.
Proof.
  intros Hbase HP hrefs.
  induction hrefs as [|href rest IH]; intros self links result self' Hrun Hacc;
    simpl in Hrun.
  - by inversion Hrun; subst.
  - rewrite Hbase in Hrun.
    destruct (urljoin L base_url href) as [full_url|]; [|done].
    destruct (passes_patterns L url_patterns full_url) as [[|]|];
      [|by eauto|done].
    destruct (urlparse L base_url) as [base_parsed|] eqn:Hb; [|done].
    destruct (urlparse L full_url) as [url_parsed|] eqn:Hu; [|done].
    destruct (same_site _ _) eqn:Hsite; [|by eauto].
    destruct (_is_valid_url L full_url); [|by eauto].
    destruct (_can_fetch L self full_url) as [[|] self1]; [|by eauto].
    eapply IH; [exact Hrun|].
    apply Forall_app. split; [done|]. repeat constructor. eauto.
Qed.

(** The loop over [before ++ after] is the loop over [before] followed by
    the loop over [after]. *)
Lemma extract_links_loop_app (base_url : string)
    (url_patterns : option (list string)) (before after : list string) :
  forall self links,
    extract_links_loop L self (before ++ after) base_url url_patterns links
    = match extract_links_loop L self before base_url url_patterns links with
      | (Returns links1, self1) =>
          extract_links_loop L self1 after base_url url_patterns links1
      | (Raises e, self1) => (Raises e, self1)
      end.
Proof.
  induction before as [|href rest IH]; intros self links; simpl; [done|].
  destruct (Py.str_truthy base_url).
  - destruct (urljoin L base_url href) as [full_url|]; [|done].
    destruct (passes_patterns L url_patterns full_url) as [[|]|];
      [|by rewrite IH|done].
    destruct (urlparse L base_url) as [base_parsed|]; [|done].
    destruct (urlparse L full_url) as [url_parsed|]; [|done].
    destruct (same_site _ _); [|by rewrite IH].
    destruct (_is_valid_url L full_url); [|by rewrite IH].
    destruct (_can_fetch L self full_url) as [ok self1]. by rewrite IH.
  - destruct (_is_valid_url L href); [|by rewrite IH].
    destruct (_can_fetch L self href) as [ok self1]. by rewrite IH.
Qed.

(** The loop only ever appends to [links]. *)
Lemma extract_links_loop_keeps (base_url : string)
    (url_patterns : option (list string)) (hrefs : list string) :
  forall self links result self',
    extract_links_loop L self hrefs base_url url_patterns links
    = (Returns result, self') ->
    forall link, link ∈ links -> link ∈ result.
Proof.
  induction hrefs as [|href rest IH]; intros self links result self' Hrun link Hin;
    simpl in Hrun.
  - by inversion Hrun; subst.
  - destruct (Py.str_truthy base_url).
    + destruct (urljoin L base_url href) as [full_url|]; [|done].
      destruct (passes_patterns L url_patterns full_url) as [[|]|];
        [|by eauto|done].
      destruct (urlparse L base_url) as [base_parsed|]; [|done].
      destruct (urlparse L full_url) as [url_parsed|]; [|done].
      destruct (same_site _ _); [|by eauto].
      destruct (_is_valid_url L full_url); [|by eauto].
      destruct (_can_fetch L self full_url) as [[|] self1]; [|by eauto].
      eapply IH; [exact Hrun|]. apply elem_of_app. by left.
    + destruct (_is_valid_url L href); [|by eauto].
      destruct (_can_fetch L self href) as [[|] self1]; [|by eauto].
      eapply IH; [exact Hrun|]. apply elem_of_app. by left.
Qed.

(** C6. With a non-empty [base_url], the netloc of every link that
    [extract_links] returns is the netloc of [base_url] or ends with a dot
    followed by it; the netloc is what [urlparse] gives, the host with its
    port and user information as written.  For a base of netloc
    example.com: a link resolved to netloc evil.com or to netloc
    notexample.com is never returned; an anchor resolved to netloc
    sub.example.com is returned when it is valid, passes the pattern filter
    and may be fetched when the loop reaches it, and no exception ends the
    extraction (an exception empties the result). *)
Theorem extract_links_domain_scoping (self : SimpleCrawler)
    (html_content base_url : string) (url_patterns : option (list string)) :
  base_url <> "" ->
  (forall link,
      link ∈ (extract_links L self html_content base_url url_patterns).1 ->
      exists base_parsed link_parsed,
        urlparse L base_url = Returns base_parsed
        /\ urlparse L link = Returns link_parsed
        /\ netloc_in_scope (netloc link_parsed) (netloc base_parsed))
  /\ (forall base_parsed link link_parsed,
        urlparse L base_url = Returns base_parsed ->
        netloc base_parsed = "example.com" ->
        urlparse L link = Returns link_parsed ->
        netloc link_parsed = "evil.com"
        \/ netloc link_parsed = "notexample.com" ->
        link ∉ (extract_links L self html_content base_url url_patterns).1)
  /\ (forall base_parsed before href after full_url url_parsed
             links1 self1 links self',
        urlparse L base_url = Returns base_parsed ->
        netloc base_parsed = "example.com" ->
        soup_hrefs L html_content = Returns (before ++ href :: after)%list ->
        extract_links_loop L self (before ++ href :: after)%list base_url
          url_patterns [] = (Returns links, self') ->
        extract_links_loop L self before base_url url_patterns []
        = (Returns links1, self1) ->
        urljoin L base_url href = Returns full_url ->
        passes_patterns L url_patterns full_url = Returns true ->
        urlparse L full_url = Returns url_parsed ->
        netloc url_parsed = "sub.example.com" ->
        _is_valid_url L full_url = true ->
        (_can_fetch L self1 full_url).1 = true ->
        full_url ∈ (extract_links L self html_content base_url url_patterns).1).
Proof.
  intros Hbase%str_truthy_spec.
  assert (Hscope : forall link,
    link ∈ (extract_links L self html_content base_url url_patterns).1 ->
    exists base_parsed link_parsed,
      urlparse L base_url = Returns base_parsed
      /\ urlparse L link = Returns link_parsed
      /\ netloc_in_scope (netloc link_parsed) (netloc base_parsed)).
  { intros link. unfold extract_links.
    destruct (soup_hrefs L html_content) as [hrefs|];
      [|by intros ?%elem_of_nil].
    destruct (extract_links_loop L self hrefs base_url url_patterns [])
      as [[links|] self'] eqn:Hrun; [|by intros ?%elem_of_nil].
    simpl. revert link. apply Forall_forall.
    eapply (extract_links_loop_scope base_url url_patterns);
      [exact Hbase| |exact Hrun|constructor].
    intros full_url base_parsed url_parsed Hb Hu Hsite.
    exists base_parsed, url_parsed. by rewrite <- same_site_spec. }
  split; [exact Hscope|split].
  - intros base_parsed link link_parsed Hb Hnet Hl Hhost Hin.
    destruct (Hscope link Hin) as (bp & lp & Hb' & Hl' & Hs).
    rewrite Hb in Hb'. rewrite Hl in Hl'.
    inversion Hb'; inversion Hl'; subst bp lp.
    apply same_site_spec in Hs. rewrite Hnet in Hs.
    destruct Hhost as [Hh|Hh]; rewrite Hh in Hs; vm_compute in Hs;
      discriminate.
  - intros base_parsed before href after full_url url_parsed links1 self1
      links self' Hb Hnet Hsoup Hrun Hbefore Hjoin Hpass Hu Hhost Hvalid Hfetch.
    unfold extract_links. rewrite Hsoup, Hrun. simpl.
    rewrite extract_links_loop_app, Hbefore in Hrun. simpl in Hrun.
    rewrite Hbase, Hjoin, Hpass, Hb, Hu, Hnet, Hhost, Hvalid in Hrun.
    change (same_site "sub.example.com" "example.com") with true in Hrun.
    destruct (_can_fetch L self1 full_url) as [ok self2].
    simpl in Hfetch. subst ok.
    eapply extract_links_loop_keeps; [exact Hrun|].
    apply elem_of_app. right. by apply list_elem_of_singleton.
Qed.

(** ** Sitemap resolver *)

Lemma extend_children_spec (recur : string -> option (list string))
    (child_locs : list string) :
  forall urls result,
    extend_children recur child_locs urls = Some result
    <-> exists parts,
          Forall2 (fun loc part => recur loc = Some part) child_locs parts
          /\ result = (urls ++ concat parts)%list.
Proof.
  induction child_locs as [|loc rest IH]; intros urls result; simpl.
  - split.
    + intros [= <-]. exists []. split; [constructor|].
      by rewrite app_nil_r.
    + intros (parts & Hparts & ->). inversion Hparts; subst. simpl.
      by rewrite app_nil_r.
  - destruct (recur loc) as [child_urls|] eqn:Hloc.
    + rewrite IH. split.
      * intros (parts & Hparts & ->). exists (child_urls :: parts).
        split; [by constructor|]. simpl. by rewrite app_assoc.
      * intros (parts & Hparts & ->).
        inversion Hparts as [|? part ? parts' Hpart Hrest]; subst.
        rewrite Hloc in Hpart. injection Hpart as <-.
        exists parts'. split; [done|]. simpl. by rewrite app_assoc.
    + split; [done|]. intros (parts & Hparts & _).
      inversion Hparts as [|? part ? parts' Hpart Hrest]; subst.
      by rewrite Hloc in Hpart.
Qed.

(** More fuel does not change what a call returns. *)
Lemma parse_sitemap_mono (fuel : nat) :
  forall fuel' sitemap_url urls,
    (fuel <= fuel')%nat ->
    parse_sitemap L fuel sitemap_url = Some urls ->
    parse_sitemap L fuel' sitemap_url = Some urls.
Proof.
  induction fuel as [|fuel IH]; intros fuel' sitemap_url urls Hle Hrun;
    [done|].
  destruct fuel' as [|fuel']; [lia|].
  simpl in *. unfold parse_sitemap_try in *.
  destruct (requests_get L sitemap_url) as [response|]; [|done].
  destruct (negb (status_code response =? 200)); [done|].
  destruct (Py.contains "<sitemapindex" (text response)); [|done].
  destruct (ET_fromstring L (text response)) as [root|]; [|done].
  destruct (extend_children (parse_sitemap L fuel) _ [])
    as [urls0|] eqn:Hchildren; [|done].
  apply extend_children_spec in Hchildren as (parts & Hparts & ->).
  assert (Hchildren' :
    extend_children (parse_sitemap L fuel') (locs root "sitemap") []
    = Some ([] ++ concat parts)%list).
  { apply extend_children_spec. exists parts. split; [|done].
    eapply Forall2_impl; [exact Hparts|].
    intros loc part Hpart. apply (IH fuel'); [lia|done]. }
  by rewrite Hchildren'.
Qed.

Lemma resolves_functional (sitemap_url : string) (urls urls' : list string) :
  resolves L sitemap_url urls -> resolves L sitemap_url urls' ->
  urls = urls'.
Proof.
  intros [fuel Hrun] [fuel' Hrun'].
  apply (parse_sitemap_mono _ (fuel `max` fuel')%nat) in Hrun; [|lia].
  apply (parse_sitemap_mono _ (fuel `max` fuel')%nat) in Hrun'; [|lia].
  congruence.
Qed.

(** Calls that all return do so within a common bound. *)
Lemma resolves_common_fuel (child_locs : list string)
    (parts : list (list string)) :
  Forall2 (resolves L) child_locs parts ->
  exists fuel,
    Forall2 (fun loc part => parse_sitemap L fuel loc = Some part)
      child_locs parts.
Proof.
  induction 1 as [|loc part rest parts [fuel Hloc] _ [fuel' IH]].
  - exists 0%nat. constructor.
  - exists (fuel `max` fuel')%nat. constructor.
    + apply (parse_sitemap_mono fuel); [lia|done].
    + eapply Forall2_impl; [exact IH|].
      intros loc' part' Hpart. apply (parse_sitemap_mono fuel'); [lia|done].
Qed.

(** On a sitemap index, a call is the loop over its children. *)
Lemma parse_sitemap_index (fuel : nat) (sitemap_url : string)
    (response : Response) (root : Element) :
  requests_get L sitemap_url = Returns response ->
  status_code response = 200 ->
  Py.contains "<sitemapindex" (text response) = true ->
  ET_fromstring L (text response) = Returns root ->
  parse_sitemap L (S fuel) sitemap_url
  = extend_children (parse_sitemap L fuel) (locs root "sitemap") [].
Proof.
  intros Hget Hstatus Hindex Hxml. simpl. unfold parse_sitemap_try.
  rewrite Hget, Hstatus, Hindex, Hxml. simpl.
  by destruct (extend_children _ _ _).
Qed.

(** C7. On a response that contains the sitemap-index marker,
    [parse_sitemap] returns exactly the concatenation, in document order
    of the [<sitemap><loc>] entries, of what [parse_sitemap] returns for
    each of them; an index of two children that return three URLs each
    returns the six URLs, the first child's first. *)
Theorem parse_sitemap_index_flattens (sitemap_url : string)
    (response : Response) (root : Element) :
  requests_get L sitemap_url = Returns response ->
  status_code response = 200 ->
  Py.contains "<sitemapindex" (text response) = true ->
  ET_fromstring L (text response) = Returns root ->
  (forall urls,
      resolves L sitemap_url urls
      <-> exists parts,
            Forall2 (resolves L) (locs root "sitemap") parts
            /\ urls = concat parts)
  /\ (forall child1 child2 a1 a2 a3 b1 b2 b3,
        locs root "sitemap" = [child1; child2] ->
        resolves L child1 [a1; a2; a3] ->
        resolves L child2 [b1; b2; b3] ->
        resolves L sitemap_url [a1; a2; a3; b1; b2; b3]).
Proof.
  intros Hget Hstatus Hindex Hxml.
  assert (Heqn : forall urls,
    resolves L sitemap_url urls
    <-> exists parts,
          Forall2 (resolves L) (locs root "sitemap") parts
          /\ urls = concat parts).
  { intros urls. split.
    - intros [[|fuel] Hrun]; [done|].
      rewrite (parse_sitemap_index fuel _ _ _ Hget Hstatus Hindex Hxml)
        in Hrun.
      apply extend_children_spec in Hrun as (parts & Hparts & ->).
      exists parts. split; [|done].
      eapply Forall2_impl; [exact Hparts|].
      intros loc part Hpart. by exists fuel.
    - intros (parts & Hparts & ->).
      apply resolves_common_fuel in Hparts as [fuel Hparts].
      exists (S fuel).
      rewrite (parse_sitemap_index fuel _ _ _ Hget Hstatus Hindex Hxml).
      apply extend_children_spec. by exists parts. }
  split; [exact Heqn|].
  intros child1 child2 a1 a2 a3 b1 b2 b3 Hlocs H1 H2.
  apply Heqn. exists [[a1; a2; a3]; [b1; b2; b3]]. rewrite Hlocs.
  split; [|done]. repeat constructor; done.
Qed.

(** C8. [parse_sitemap] returns a list and has no way to raise; it returns
    [[]] when the request raises, when the status is not 200, when the
    body does not parse as XML, and whenever its [try] block raises. *)
Theorem parse_sitemap_failures_give_empty (fuel : nat)
    (sitemap_url : string) :
  (forall e,
      requests_get L sitemap_url = Raises e ->
      parse_sitemap L (S fuel) sitemap_url = Some [])
  /\ (forall response,
        requests_get L sitemap_url = Returns response ->
        status_code response <> 200 ->
        parse_sitemap L (S fuel) sitemap_url = Some [])
  /\ (forall response e,
        requests_get L sitemap_url = Returns response ->
        status_code response = 200 ->
        ET_fromstring L (text response) = Raises e ->
        parse_sitemap L (S fuel) sitemap_url = Some [])
  /\ (forall e,
        parse_sitemap_try L (parse_sitemap L fuel) sitemap_url
        = Some (Raises e) ->
        parse_sitemap L (S fuel) sitemap_url = Some []).
Proof.
  repeat split.
  - intros e Hget. simpl. unfold parse_sitemap_try. rewrite Hget.
    by destruct e.
  - intros response Hget Hstatus. simpl. unfold parse_sitemap_try.
    rewrite Hget. apply Z.eqb_neq in Hstatus. by rewrite Hstatus.
  - intros response e Hget Hstatus Hxml. simpl. unfold parse_sitemap_try.
    rewrite Hget, Hstatus, Hxml. simpl.
    destruct (Py.contains _ _); by destruct e.
  - intros e Htry. simpl. rewrite Htry. by destruct e.
Qed.

(** ** Frontier traversal engine *)

Lemma drain_step (max_depth max_pages : Z)
    (url_patterns : option (list string)) (s : frontier) :
  drain L max_depth max_pages url_patterns s
  = match step L max_depth max_pages url_patterns s with
    | Continue s' => drain L max_depth max_pages url_patterns s'
    | Break s' => (None, s')
    | Abort e s' => (Some e, s')
    end.
Proof.
  rewrite drain_equation_1. simpl.
  by destruct (step L max_depth max_pages url_patterns s).
Qed.

Lemma drain_fuel_sound (n : nat) (max_depth max_pages : Z)
    (url_patterns : option (list string)) :
  forall s r,
    drain_fuel L n max_depth max_pages url_patterns s = Some r ->
    drain L max_depth max_pages url_patterns s = r.
Proof.
  induction n as [|n IH]; intros s r Hrun; [done|].
  rewrite drain_step. simpl in Hrun.
  destruct (step L max_depth max_pages url_patterns s) as [s'|s'|e s'].
  - by apply IH.
  - by injection Hrun.
  - by injection Hrun.
Qed.

Lemma enqueue_links_spec (url_patterns : option (list string))
    (visited : gset string) (depth : Z) (links : list string) :
  forall queue log e queue' log',
    enqueue_links L url_patterns visited depth links queue log
    = (e, (queue', log')) ->
    exists new,
      queue' = (queue ++ List.map (fun link => (link, depth + 1)) new)%list
      /\ log' = (List.map (fun link => Enqueue link (depth + 1)) (rev new)
                 ++ log)%list
      /\ Forall (fun link => link ∈ links /\ link ∉ visited) new.
Proof.
  induction links as [|link rest IH]; intros queue log e queue' log' Hrun;
    simpl in Hrun.
  - injection Hrun as <- <- <-. exists []. simpl.
    by rewrite app_nil_r.
  - assert (Hrest : forall queue0 log0,
      enqueue_links L url_patterns visited depth rest queue0 log0
      = (e, (queue', log')) ->
      exists new,
        queue' = (queue0 ++ List.map (fun link => (link, depth + 1)) new)%list
        /\ log' = (List.map (fun link => Enqueue link (depth + 1)) (rev new)
                   ++ log0)%list
        /\ Forall (fun l => l ∈ link :: rest /\ l ∉ visited) new).
    { intros queue0 log0 H0.
      destruct (IH _ _ _ _ _ H0) as (new & -> & -> & Hnew).
      exists new. repeat split.
      eapply Forall_impl; [exact Hnew|].
      intros l [Hl Hv]. split; [by right|done]. }
    destruct (passes_patterns L url_patterns link) as [[|]|].
    + destruct (bool_decide (link ∈ visited)) eqn:Hvis; [by apply Hrest|].
      apply bool_decide_eq_false in Hvis.
      destruct (Hrest _ _ Hrun) as (new & -> & -> & Hnew).
      exists (link :: new). repeat split.
      * simpl. by rewrite <- app_assoc.
      * simpl. rewrite map_app. simpl. by rewrite <- app_assoc.
      * constructor; [|done]. split; [by left|done].
    + by apply Hrest.
    + injection Hrun as <- <- <-. exists []. simpl.
      by rewrite app_nil_r.
Qed.

(** Each turn of the loop is one of the three of [turn]. *)
Lemma step_turn (max_depth max_pages : Z)
    (url_patterns : option (list string)) (s : frontier) :
  turn L max_depth max_pages s
    (frontier_of (step L max_depth max_pages url_patterns s)).
Proof.
  unfold step.
  destruct (queue s) as [|[url depth] rest] eqn:Hq;
    [by constructor; left|].
  destruct (page_count s <? max_pages) eqn:Hlt;
    [|by constructor; right; apply Z.ltb_ge].
  apply Z.ltb_lt in Hlt. cbn [negb].
  destruct (bool_decide (url ∈ visited s) || (max_depth <? depth)) eqn:Hskip.
  { simpl. eapply turn_skip; [done..|].
    apply orb_true_iff in Hskip as [Hv|Hd].
    - left. by apply bool_decide_eq_true in Hv.
    - right. by apply Z.ltb_lt. }
  apply orb_false_iff in Hskip as [Hv Hd].
  apply bool_decide_eq_false in Hv. apply Z.ltb_ge in Hd.
  destruct (crawl L (crawler s) url) as [[content links] self'] eqn:Hcrawl.
  pose proof (turn_dispatch L max_depth max_pages s url depth rest content
                links self' [] Hq Hlt Hv Hd Hcrawl (List.Forall_nil _)
                ltac:(done)) as Hnone.
  simpl in Hnone. rewrite app_nil_r in Hnone.
  destruct (Py.truthy content) eqn:Hcontent; [|exact Hnone].
  destruct (max_pages <=? page_count s + 1); [exact Hnone|].
  destruct (depth <? max_depth) eqn:Hdeep; [|exact Hnone].
  apply Z.ltb_lt in Hdeep.
  destruct (enqueue_links L url_patterns ({[url]} ∪ visited s) depth links
              rest (Dispatch url depth content links :: log s))
    as [e [queue' log']] eqn:Henq.
  destruct (enqueue_links_spec _ _ _ _ _ _ _ _ _ Henq)
    as (new & -> & -> & Hnew).
  pose proof (turn_dispatch L max_depth max_pages s url depth rest content
                links self' new Hq Hlt Hv Hd Hcrawl Hnew
                ltac:(done)) as Hsome.
  rewrite Hcontent in Hsome. by destruct e.
Qed.

(** What every turn preserves holds when the loop ends. *)
Lemma drain_invariant (max_depth max_pages : Z)
    (url_patterns : option (list string)) (P : frontier -> Prop) :
  (forall s s', P s -> turn L max_depth max_pages s s' -> P s') ->
  forall s, P s -> P (drain L max_depth max_pages url_patterns s).2.
Proof.
  intros Hturn s.
  apply (drain_elim L
    (fun max_depth max_pages url_patterns s r =>
       (forall s s', P s -> turn L max_depth max_pages s s' -> P s') ->
       P s -> P r.2)); [| | |exact Hturn].
  all: clear; intros max_depth max_pages url_patterns.
  - intros s s' Hstep IH _ Hturn Hs. apply IH; [exact Hturn|].
    apply (Hturn s); [exact Hs|].
    pose proof (step_turn max_depth max_pages url_patterns s) as Ht.
    by rewrite Hstep in Ht.
  - intros s s' Hstep _ Hturn Hs. simpl.
    apply (Hturn s); [exact Hs|].
    pose proof (step_turn max_depth max_pages url_patterns s) as Ht.
    by rewrite Hstep in Ht.
  - intros s e s' Hstep _ Hturn Hs. simpl.
    apply (Hturn s); [exact Hs|].
    pose proof (step_turn max_depth max_pages url_patterns s) as Ht.
    by rewrite Hstep in Ht.
Qed.

Lemma seed_queue_empty (sitemap_urls : list string) :
  forall queue log,
    seed_queue ∅ sitemap_urls queue log
    = ((queue ++ List.map (fun url => (url, 0)) sitemap_urls)%list,
       (List.map (fun url => Enqueue url 0) (rev sitemap_urls) ++ log)%list).
Proof.
  induction sitemap_urls as [|url rest IH]; intros queue log; simpl.
  - by rewrite app_nil_r.
  - rewrite bool_decide_eq_false_2 by set_solver.
    rewrite IH, map_app. simpl. by rewrite <- !app_assoc.
Qed.

(** The frontier when the loop starts. *)
Lemma initial_frontier_eq (self : SimpleCrawler) (start_url : string)
    (sitemap_urls : list string) :
  initial_frontier self start_url sitemap_urls
  = {| queue := (start_url, 0)
                :: List.map (fun url => (url, 0)) sitemap_urls;
       visited := ∅; results := ∅; page_count := 0; crawler := self;
       log := List.map (fun url => Enqueue url 0) (rev sitemap_urls)
              ++ [Enqueue start_url 0] |}.
Proof. unfold initial_frontier. by rewrite seed_queue_empty. Qed.

Lemma dispatched_enqueues (depth : Z) (urls : list string)
    (log : list event) :
  dispatched (List.map (fun url => Enqueue url depth) urls ++ log)
  = dispatched log.
Proof. induction urls as [|url rest IH]; simpl; done. Qed.

(** What holds when the loop starts and is preserved by every turn holds
    when [crawl_with_depth] ends. *)
Lemma crawl_with_depth_run_invariant (P : frontier -> Prop) (fuel : nat)
    (self : SimpleCrawler) (start_url : string) (max_depth max_pages : option Z)
    (url_patterns : option (list string)) :
  (forall sitemap_urls,
      (forall sitemap_url,
          urljoin L start_url "/sitemap.xml" = Returns sitemap_url ->
          sitemap_urls_of L fuel sitemap_url = Some sitemap_urls) ->
      P (initial_frontier self start_url sitemap_urls)) ->
  (forall s s',
      P s ->
      turn L (override max_depth (self_max_depth self))
        (override max_pages (self_max_pages self)) s s' ->
      P s') ->
  forall e s,
    crawl_with_depth_run L fuel self start_url max_depth max_pages
      url_patterns = Some (e, s) ->
    P s.
Proof.
  intros Hinit Hturn e s. unfold crawl_with_depth_run.
  destruct (urljoin L start_url "/sitemap.xml") as [sitemap_url|ex].
  - destruct (sitemap_urls_of L fuel sitemap_url) as [sitemap_urls|] eqn:Hs;
      [|done].
    intros [= Hrun].
    pose proof (drain_invariant (override max_depth (self_max_depth self))
                  (override max_pages (self_max_pages self)) url_patterns
                  P Hturn (initial_frontier self start_url sitemap_urls))
      as Hend.
    rewrite Hrun in Hend. apply Hend, Hinit. by intros ? [= <-].
  - intros [= <- <-]. apply Hinit. done.
Qed.

(** The result has at most [max(0, max_pages)] entries: no page is counted
    when the budget is negative. *)
Lemma crawl_with_depth_size (fuel : nat) (self : SimpleCrawler)
    (start_url : string) (max_depth max_pages : option Z)
    (url_patterns : option (list string)) (e : option exn) (s : frontier) :
  crawl_with_depth_run L fuel self start_url max_depth max_pages url_patterns
  = Some (e, s) ->
  Z.of_nat (size (results s))
  <= Z.max 0 (override max_pages (self_max_pages self)).
Proof.
  intros Hrun.
  set (budget := override max_pages (self_max_pages self)) in *.
  cut (Z.of_nat (size (results s)) <= page_count s
       /\ page_count s <= Z.max 0 budget); [lia|].
  eapply (crawl_with_depth_run_invariant
            (fun s => Z.of_nat (size (results s)) <= page_count s
                      /\ page_count s <= Z.max 0 budget)); [| |exact Hrun].
  - intros sitemap_urls _. rewrite initial_frontier_eq. simpl.
    rewrite map_size_empty. lia.
  - intros s0 s1 [Hsize Hcount] Hturn.
    destruct Hturn as [|url depth rest|url depth rest content links self' new
                       Hq Hlt Hv Hd Hcrawl Hnew Hdeep]; simpl; [done..|].
    fold budget in Hlt. clearbody budget.
    destruct (Py.truthy content); [|done].
    split; [|lia].
    pose proof (map_size_insert url (default "" content) (results s0)) as Hins.
    destruct (results s0 !! url); simpl in Hins; lia.
Qed.

(** C3. The dictionary [crawl_with_depth] returns has at most as many
    entries as its page budget, the value of [max_pages] once the
    override is resolved and a number of pages, so not negative. *)
Theorem crawl_with_depth_page_bound (fuel : nat) (self : SimpleCrawler)
    (start_url : string) (max_depth max_pages : option Z)
    (url_patterns : option (list string)) (result : gmap string string) :
  crawl_with_depth L fuel self start_url max_depth max_pages url_patterns
  = Some (Returns result) ->
  0 <= override max_pages (self_max_pages self) ->
  Z.of_nat (size result) <= override max_pages (self_max_pages self).
Proof.
  intros Hcall Hbudget. unfold crawl_with_depth in Hcall.
  destruct (crawl_with_depth_run L fuel self start_url max_depth max_pages
              url_patterns) as [[[e|] s]|] eqn:Hrun; [done| |done].
  injection Hcall as <-.
  pose proof (crawl_with_depth_size _ _ _ _ _ _ _ _ Hrun). lia.
Qed.

(** Every URL given to [crawl] is in [visited]. *)
Lemma dispatched_visited_turn (max_depth max_pages : Z) (s s' : frontier) :
  (forall url, url ∈ dispatched (log s) -> url ∈ visited s) ->
  turn L max_depth max_pages s s' ->
  forall url, url ∈ dispatched (log s') -> url ∈ visited s'.
Proof.
  intros Hs Hturn.
  destruct Hturn as [|url depth rest|url depth rest content links self' new];
    simpl; [done..|].
  intros url'. rewrite dispatched_enqueues. simpl.
  rewrite elem_of_cons, elem_of_union, elem_of_singleton.
  intros [->|Hin]; [by left|right; by apply Hs].
Qed.

Lemma initial_frontier_dispatched (self : SimpleCrawler)
    (start_url : string) (sitemap_urls : list string) :
  dispatched (log (initial_frontier self start_url sitemap_urls)) = [].
Proof. rewrite initial_frontier_eq. simpl. by rewrite dispatched_enqueues. Qed.

(** C5. In one call of [crawl_with_depth] no URL is given to [crawl]
    twice: the URLs dispatched are pairwise distinct, also when the call
    ends with an exception. *)
Theorem crawl_with_depth_dispatches_once (fuel : nat) (self : SimpleCrawler)
    (start_url : string) (max_depth max_pages : option Z)
    (url_patterns : option (list string)) (e : option exn) (s : frontier) :
  crawl_with_depth_run L fuel self start_url max_depth max_pages url_patterns
  = Some (e, s) ->
  NoDup (dispatched (log s)).
Proof.
  intros Hrun.
  cut ((forall url, url ∈ dispatched (log s) -> url ∈ visited s)
       /\ NoDup (dispatched (log s))); [by intros [_ ?]|].
  eapply (crawl_with_depth_run_invariant
            (fun s => (forall url, url ∈ dispatched (log s) -> url ∈ visited s)
                      /\ NoDup (dispatched (log s)))); [| |exact Hrun].
  - intros sitemap_urls _. rewrite initial_frontier_dispatched.
    split; [by intros ? ?%elem_of_nil|constructor].
  - intros s0 s1 [Hvis Hnodup] Hturn.
    split; [by eapply dispatched_visited_turn|].
    destruct Hturn as [|url depth rest|url depth rest content links self' new
                       Hq Hlt Hv]; simpl; [done..|].
    rewrite dispatched_enqueues. simpl. constructor; [|done].
    intros Hin. by apply Hv, Hvis.
Qed.

(** An entry put into the queue was not dispatched before. *)
Lemma enqueue_fresh_cons (ev : event) (log : list event) :
  (forall url depth, ev = Enqueue url depth -> url ∉ dispatched log) ->
  (forall later url depth earlier,
      log = (later ++ Enqueue url depth :: earlier)%list ->
      url ∉ dispatched earlier) ->
  forall later url depth earlier,
    ev :: log = (later ++ Enqueue url depth :: earlier)%list ->
    url ∉ dispatched earlier.
Proof.
  intros Hev Hlog [|ev' later] url depth earlier Heq; simpl in Heq.
  - injection Heq as -> <-. by eapply Hev.
  - injection Heq as -> ->. by eapply Hlog.
Qed.

Lemma enqueue_fresh_app (depth0 : Z) (new : list string)
    (log : list event) :
  Forall (fun url => url ∉ dispatched log) new ->
  (forall later url depth earlier,
      log = (later ++ Enqueue url depth :: earlier)%list ->
      url ∉ dispatched earlier) ->
  forall later url depth earlier,
    (List.map (fun url => Enqueue url depth0) new ++ log)%list
    = (later ++ Enqueue url depth :: earlier)%list ->
    url ∉ dispatched earlier.
Proof.
  induction 1 as [|url0 new Hurl0 Hnew IH]; intros Hlog; simpl; [done|].
  apply enqueue_fresh_cons; [|by apply IH].
  intros url depth [= <- <-]. by rewrite dispatched_enqueues.
Qed.

(** C2, as the code has it.  [visited] is consulted before every
    insertion into the queue, and it holds the URLs already dequeued for
    processing: a URL is never put into the queue once it has been given
    to [crawl].  (A URL that is still waiting in the queue can be put
    into it again; the copy is dropped when it is dequeued.) *)
Theorem crawl_with_depth_enqueues_unvisited (fuel : nat)
    (self : SimpleCrawler) (start_url : string)
    (max_depth max_pages : option Z) (url_patterns : option (list string))
    (e : option exn) (s : frontier) :
  crawl_with_depth_run L fuel self start_url max_depth max_pages url_patterns
  = Some (e, s) ->
  forall later url depth earlier,
    log s = (later ++ Enqueue url depth :: earlier)%list ->
    url ∉ dispatched earlier.
Proof.
  intros Hrun.
  cut ((forall url, url ∈ dispatched (log s) -> url ∈ visited s)
       /\ (forall later url depth earlier,
             log s = (later ++ Enqueue url depth :: earlier)%list ->
             url ∉ dispatched earlier)); [by intros [_ ?]|].
  eapply (crawl_with_depth_run_invariant
            (fun s =>
               (forall url, url ∈ dispatched (log s) -> url ∈ visited s)
               /\ (forall later url depth earlier,
                     log s = (later ++ Enqueue url depth :: earlier)%list ->
                     url ∉ dispatched earlier))); [| |exact Hrun].
  - intros sitemap_urls _.
    split; [rewrite initial_frontier_dispatched; by intros ? ?%elem_of_nil|].
    rewrite initial_frontier_eq. simpl.
    apply enqueue_fresh_app.
    + apply Forall_forall. intros url _. simpl. apply not_elem_of_nil.
    + intros [|ev later] url depth earlier Heq; simpl in Heq.
      * injection Heq as _ _ <-. apply not_elem_of_nil.
      * injection Heq as _ Heq. by destruct later.
  - intros s0 s1 [Hvis Hfresh] Hturn.
    split; [by eapply dispatched_visited_turn|].
    destruct Hturn as [|url depth rest|url depth rest content links self' new
                       Hq Hlt Hv Hd Hcrawl Hnew]; simpl; [done..|].
    apply enqueue_fresh_app.
    + apply Forall_rev. eapply Forall_impl; [exact Hnew|].
      intros link [_ Hlink]. simpl.
      rewrite elem_of_cons. intros Hin. apply Hlink.
      rewrite elem_of_union, elem_of_singleton.
      destruct Hin as [->|Hin]; [by left|right; by apply Hvis].
    + apply enqueue_fresh_cons; [done|exact Hfresh].
Qed.

Lemma dispatch_order_turn (max_depth max_pages : Z) (s s' : frontier)
    (first : string) :
  (exists rest, dispatch_order (log s) = first :: rest) ->
  turn L max_depth max_pages s s' ->
  exists rest, dispatch_order (log s') = first :: rest.
Proof.
  intros [order Horder] Hturn.
  destruct Hturn as [|url depth rest|url depth rest content links self' new];
    simpl; [by eauto..|].
  unfold dispatch_order in *. rewrite dispatched_enqueues. simpl.
  rewrite Horder. by eauto.
Qed.

(** C1, as the code has it.  The queue starts as [(start_url, 0)] and the
    sitemap URLs are appended behind it, at depth 0 and in the order of
    the sitemap; so whenever the budgets let the loop process anything
    ([max_pages > 0] and [max_depth >= 0]), the start URL is the first URL
    dequeued and given to [crawl], before every URL of the sitemap. *)
Theorem crawl_with_depth_start_url_first (fuel : nat) (self : SimpleCrawler)
    (start_url : string) (max_depth max_pages : option Z)
    (url_patterns : option (list string)) (sitemap_url : string)
    (sitemap_urls : list string) :
  urljoin L start_url "/sitemap.xml" = Returns sitemap_url ->
  sitemap_urls_of L fuel sitemap_url = Some sitemap_urls ->
  queue (initial_frontier self start_url sitemap_urls)
  = (start_url, 0) :: List.map (fun url => (url, 0)) sitemap_urls
  /\ (forall e s,
        crawl_with_depth_run L fuel self start_url max_depth max_pages
          url_patterns = Some (e, s) ->
        0 < override max_pages (self_max_pages self) ->
        0 <= override max_depth (self_max_depth self) ->
        exists rest, dispatch_order (log s) = start_url :: rest).
Proof.
  intros Hjoin Hsitemap. split; [by rewrite initial_frontier_eq|].
  intros e s Hrun Hpages Hdepth. unfold crawl_with_depth_run in Hrun.
  rewrite Hjoin, Hsitemap in Hrun. injection Hrun as Hrun.
  set (md := override max_depth (self_max_depth self)) in *.
  set (mp := override max_pages (self_max_pages self)) in *.
  set (s0 := initial_frontier self start_url sitemap_urls) in *.
  assert (Hfirst : exists rest,
    dispatch_order (log (frontier_of (step L md mp url_patterns s0)))
    = start_url :: rest).
  { pose proof (step_turn md mp url_patterns s0) as Hturn.
    pose proof (initial_frontier_dispatched self start_url sitemap_urls)
      as Hnone.
    fold s0 in Hnone.
    assert (Hq : queue s0
                 = (start_url, 0)
                   :: List.map (fun url => (url, 0)) sitemap_urls)
      by (unfold s0; by rewrite initial_frontier_eq).
    assert (Hv : visited s0 = ∅)
      by (unfold s0; by rewrite initial_frontier_eq).
    assert (Hc : page_count s0 = 0)
      by (unfold s0; by rewrite initial_frontier_eq).
    destruct Hturn as [[Hempty|Hfull]|url depth rest Hq' Hlt Hskip
                       |url depth rest content links self' new Hq'].
    - by rewrite Hq in Hempty.
    - lia.
    - rewrite Hq in Hq'. injection Hq' as <- <- _. rewrite Hv in Hskip.
      destruct Hskip as [Hin|Hdeep]; [set_solver|lia].
    - rewrite Hq in Hq'. injection Hq' as <- <- _. simpl.
      unfold dispatch_order. rewrite dispatched_enqueues. simpl.
      rewrite Hnone. by exists []. }
  rewrite drain_step in Hrun.
  destruct (step L md mp url_patterns s0) as [s1|s1|ex s1]; simpl in Hfirst.
  - pose proof (drain_invariant md mp url_patterns
                  (fun s => exists rest,
                     dispatch_order (log s) = start_url :: rest)
                  (fun s s' Hs Ht =>
                     dispatch_order_turn md mp s s' start_url Hs Ht)
                  s1 Hfirst) as Hend.
    by rewrite Hrun in Hend.
  - by injection Hrun as _ <-.
  - by injection Hrun as _ <-.
Qed.

Lemma discovered_mono (seeds : list string) (log log' : list event)
    (n : nat) (url : string) :
  (forall ev, ev ∈ log -> ev ∈ log') ->
  discovered seeds log n url -> discovered seeds log' n url.
Proof.
  intros Hsub. induction 1 as [url Hseed|n page depth content links url _ IH Hev Hlink].
  - by constructor.
  - econstructor; [exact IH|by apply Hsub|done].
Qed.

(** C4, as the code has it.  With depth budget [d], the value of
    [max_depth] once the override is resolved, every key of the result was
    discovered through a chain of at most [d] links that starts at the
    start URL or at a URL of the sitemap: sitemap URLs enter the queue at
    depth 0, links are enqueued one level below their page only from a
    page of depth less than [d], and an entry deeper than [d] is
    skipped. *)
Theorem crawl_with_depth_depth_bound (fuel : nat) (self : SimpleCrawler)
    (start_url : string) (max_depth max_pages : option Z)
    (url_patterns : option (list string)) (sitemap_url : string)
    (sitemap_urls : list string) (e : option exn) (s : frontier) :
  urljoin L start_url "/sitemap.xml" = Returns sitemap_url ->
  sitemap_urls_of L fuel sitemap_url = Some sitemap_urls ->
  crawl_with_depth_run L fuel self start_url max_depth max_pages url_patterns
  = Some (e, s) ->
  forall url,
    url ∈ dom (results s) ->
    exists n : nat,
      Z.of_nat n <= override max_depth (self_max_depth self)
      /\ discovered (start_url :: sitemap_urls) (log s) n url.
Proof.
  intros Hjoin Hsitemap Hrun.
  set (md := override max_depth (self_max_depth self)).
  set (seeds := start_url :: sitemap_urls).
  cut ((forall url depth,
          (url, depth) ∈ queue s ->
          exists n : nat, depth = Z.of_nat n /\ discovered seeds (log s) n url)
       /\ (forall url,
             url ∈ dom (results s) ->
             exists n : nat,
               Z.of_nat n <= md /\ discovered seeds (log s) n url));
    [by intros [_ ?]|].
  eapply (crawl_with_depth_run_invariant
    (fun s =>
       (forall url depth,
           (url, depth) ∈ queue s ->
           exists n : nat, depth = Z.of_nat n /\ discovered seeds (log s) n url)
       /\ (forall url,
              url ∈ dom (results s) ->
              exists n : nat,
                Z.of_nat n <= md /\ discovered seeds (log s) n url)));
    [| |exact Hrun].
  - intros sitemap_urls' Hurls.
    specialize (Hurls _ Hjoin). rewrite Hsitemap in Hurls.
    injection Hurls as <-. rewrite initial_frontier_eq. simpl. split.
    + intros url depth Hin. exists 0%nat.
      change ((url, depth) ∈
              List.map (fun url => (url, 0)) (start_url :: sitemap_urls))
        in Hin.
      apply list_elem_of_fmap in Hin as (seed & [= -> ->] & Hseed).
      split; [done|by constructor].
    + intros url. rewrite dom_empty_L. by intros ?%elem_of_empty.
  - intros s0 s1 [Hqueue Hresults] Hturn.
    destruct Hturn as [|url depth rest Hq|url depth rest content links self' new
                       Hq Hlt Hv Hd Hcrawl Hnew Hdeep]; simpl; [done| |].
    + split; [|done]. intros url' depth' Hin. apply Hqueue.
      rewrite Hq. by right.
    + set (log1 := (List.map (fun link => Enqueue link (depth + 1)) (rev new)
                    ++ Dispatch url depth content links :: log s0)%list).
      assert (Hsub : forall ev, ev ∈ log s0 -> ev ∈ log1).
      { intros ev Hev. apply elem_of_app. right. by right. }
      destruct (Hqueue url depth) as (n & Hn & Hdisc);
        [rewrite Hq; by left|].
      split.
      * intros url' depth' [Hin|Hin]%elem_of_app.
        -- destruct (Hqueue url' depth') as (n' & Hn' & Hdisc');
             [rewrite Hq; by right|].
           exists n'. split; [done|by eapply discovered_mono].
        -- apply list_elem_of_fmap in Hin as (link & [= -> ->] & Hlink).
           exists (S n). split; [lia|].
           eapply discovered_link.
           ++ eapply discovered_mono; [exact Hsub|exact Hdisc].
           ++ apply elem_of_app. right. by left.
           ++ by eapply (proj1 (Forall_forall _ _) Hnew).
      * intros url'. destruct (Py.truthy content).
        -- rewrite dom_insert_L. intros [->%elem_of_singleton|Hin]%elem_of_union.
           ++ exists n. split; [lia|by eapply discovered_mono].
           ++ destruct (Hresults url' Hin) as (n' & Hn' & Hdisc').
              exists n'. split; [done|by eapply discovered_mono].
        -- intros Hin. destruct (Hresults url' Hin) as (n' & Hn' & Hdisc').
           exists n'. split; [done|by eapply discovered_mono].
Qed.


(** A call whose loop ends within [n] turns. *)
Lemma crawl_with_depth_run_compute (n fuel : nat) (self : SimpleCrawler)
    (start_url : string) (max_depth max_pages : option Z)
    (url_patterns : option (list string)) (sitemap_url : string)
    (sitemap_urls : list string) (r : option exn * frontier) :
  urljoin L start_url "/sitemap.xml" = Returns sitemap_url ->
  sitemap_urls_of L fuel sitemap_url = Some sitemap_urls ->
  drain_fuel L n (override max_depth (self_max_depth self))
    (override max_pages (self_max_pages self)) url_patterns
    (initial_frontier self start_url sitemap_urls) = Some r ->
  crawl_with_depth_run L fuel self start_url max_depth max_pages url_patterns
  = Some r.
Proof.
  intros Hjoin Hsitemap Hrun. unfold crawl_with_depth_run.
  rewrite Hjoin, Hsitemap. f_equal. by eapply drain_fuel_sound.
Qed.

(** ** The robots.txt cache *)

Lemma cache_grown_refl (self : SimpleCrawler) : cache_grown self self.
Proof. by repeat split. Qed.

Lemma cache_grown_trans (a b c : SimpleCrawler) :
  cache_grown a b -> cache_grown b c -> cache_grown a c.
Proof.
  intros (Hr1 & Hp1 & Hd1 & Hc1) (Hr2 & Hp2 & Hd2 & Hc2).
  repeat split; [congruence..|]. by etrans.
Qed.

Lemma get_robot_parser_grows (self : SimpleCrawler) (url : string) :
  cache_grown self (_get_robot_parser L self url).2
  /\ (respect_robots_txt self = false
      -> (_get_robot_parser L self url).2 = self).
Proof.
  unfold _get_robot_parser.
  destruct (respect_robots_txt self) eqn:Hrespect; simpl;
    [|split; [apply cache_grown_refl|done]].
  split; [|done].
  destruct (urlparse L url) as [parsed|]; [|apply cache_grown_refl].
  destruct (robot_parsers self !! netloc parsed) eqn:Hcache;
    [apply cache_grown_refl|].
  destruct (urljoin L url "/robots.txt") as [robots_url|];
    [|apply cache_grown_refl].
  destruct (robots_read L robots_url) as [robot_parser|];
    [|apply cache_grown_refl].
  repeat split. simpl. by apply insert_subseteq.
Qed.

Lemma can_fetch_grows (self : SimpleCrawler) (url : string) :
  cache_grown self (_can_fetch L self url).2
  /\ (respect_robots_txt self = false -> (_can_fetch L self url).2 = self).
Proof.
  unfold _can_fetch.
  destruct (respect_robots_txt self) eqn:Hrespect; simpl;
    [|split; [apply cache_grown_refl|done]].
  split; [|done].
  destruct (get_robot_parser_grows self url) as [Hgrown _].
  destruct (_get_robot_parser L self url) as [[[rp|]|] self']; simpl in *;
    [|done..].
  by destruct (can_fetch rp url) as [b|].
Qed.

Lemma extract_links_loop_grows (base_url : string)
    (url_patterns : option (list string)) (hrefs : list string) :
  forall self links,
    cache_grown self
      (extract_links_loop L self hrefs base_url url_patterns links).2
    /\ (respect_robots_txt self = false
        -> (extract_links_loop L self hrefs base_url url_patterns links).2
           = self).
Proof.
  induction hrefs as [|href rest IH]; intros self links; simpl.
  { split; [apply cache_grown_refl|done]. }
  assert (Hfetch : forall url links0 links1,
    cache_grown self
      (extract_links_loop L (_can_fetch L self url).2 rest base_url
         url_patterns
         (if (_can_fetch L self url).1 then links1 else links0)).2
    /\ (respect_robots_txt self = false
        -> (extract_links_loop L (_can_fetch L self url).2 rest base_url
              url_patterns
              (if (_can_fetch L self url).1 then links1 else links0)).2
           = self)).
  { intros url links0 links1.
    destruct (can_fetch_grows self url) as [Hgrown Hoff].
    destruct (IH (_can_fetch L self url).2
                (if (_can_fetch L self url).1 then links1 else links0))
      as [Hgrown' Hoff'].
    split; [by eapply cache_grown_trans|].
    intros Hrespect. specialize (Hoff Hrespect).
    rewrite Hoff in Hoff' |- *. by apply Hoff'. }
  assert (Hself : cache_grown self self /\
                  (respect_robots_txt self = false -> self = self)).
  { split; [apply cache_grown_refl|done]. }
  destruct (Py.str_truthy base_url).
  - destruct (urljoin L base_url href) as [full_url|]; [|exact Hself].
    destruct (passes_patterns L url_patterns full_url) as [[|]|];
      [|apply IH|exact Hself].
    destruct (urlparse L base_url) as [base_parsed|]; [|exact Hself].
    destruct (urlparse L full_url) as [url_parsed|]; [|exact Hself].
    destruct (same_site _ _); [|apply IH].
    destruct (_is_valid_url L full_url); [|apply IH].
    specialize (Hfetch full_url links (links ++ [full_url])%list).
    by destruct (_can_fetch L self full_url).
  - destruct (_is_valid_url L href); [|apply IH].
    specialize (Hfetch href links (links ++ [href])%list).
    by destruct (_can_fetch L self href).
Qed.

Lemma extract_links_grows (self : SimpleCrawler) (html_content : string)
    (base_url : string) (url_patterns : option (list string)) :
  cache_grown self (extract_links L self html_content base_url url_patterns).2
  /\ (respect_robots_txt self = false
      -> (extract_links L self html_content base_url url_patterns).2 = self).
Proof.
  unfold extract_links.
  destruct (soup_hrefs L html_content) as [hrefs|]; simpl;
    [|split; [apply cache_grown_refl|done]].
  pose proof (extract_links_loop_grows base_url url_patterns hrefs self [])
    as Hloop.
  by destruct (extract_links_loop L self hrefs base_url url_patterns [])
    as [[links|] self'].
Qed.


Lemma crawl_grows (self : SimpleCrawler) (file_path_or_url : string) :
  cache_grown self (crawl L self file_path_or_url).2
  /\ (respect_robots_txt self = false
      -> robot_parsers (crawl L self file_path_or_url).2
         = robot_parsers self).
Proof.
  assert (Hself : cache_grown self self /\
                  (respect_robots_txt self = false
                   -> robot_parsers self = robot_parsers self)).
  { split; [apply cache_grown_refl|done]. }
  unfold crawl.
  destruct (Py.startswith file_path_or_url "http://"
            || Py.startswith file_path_or_url "https://").
  { destruct (negb (Py.truthy (get_html_from_url L file_path_or_url)));
      [exact Hself|].
    pose proof (extract_links_grows self
                  (default "" (get_html_from_url L file_path_or_url))
                  file_path_or_url None) as [Hgrown Hoff].
    destruct (extract_links L self _ file_path_or_url None)
      as [links self'].
    simpl in *. split; [done|]. intros Hrespect. by rewrite (Hoff Hrespect). }
  destruct (Py.endswith file_path_or_url ".md").
  { destruct (get_html_from_markdown L file_path_or_url) as [html_content|];
      [|exact Hself].
    destruct (negb (Py.truthy html_content)); [exact Hself|].
    destruct (process_markdown_file L file_path_or_url) as [content|];
      [|exact Hself].
    pose proof (extract_links_grows self (default "" html_content) "" None)
      as [Hgrown Hoff].
    destruct (extract_links L self _ "" None) as [links self'].
    simpl in *. split; [done|]. intros Hrespect. by rewrite (Hoff Hrespect). }
  destruct (Py.endswith file_path_or_url ".txt").
  { by destruct (process_text_file L file_path_or_url). }
  destruct (Py.endswith file_path_or_url ".pdf"); [|exact Hself].
  by destruct (process_pdf_file L file_path_or_url).
Qed.

(** X1. Once [_get_robot_parser] has returned a parser for a URL, it
    returns that same parser for every URL of the same netloc and leaves
    the crawler as it is, whatever the libraries answer by then: robots.txt
    is not read again. *)
Theorem get_robot_parser_reuses_cache (self self' : SimpleCrawler)
    (url url' : string) (robot_parser : RobotFileParser)
    (parsed parsed' : ParseResult) (L' : Lib) :
  _get_robot_parser L self url = (Returns (Some robot_parser), self') ->
  urlparse L url = Returns parsed ->
  urlparse L' url' = Returns parsed' ->
  netloc parsed' = netloc parsed ->
  _get_robot_parser L' self' url' = (Returns (Some robot_parser), self').
Proof.
  intros Hfirst Hparse Hparse' Hnetloc. unfold _get_robot_parser in *.
  destruct (respect_robots_txt self) eqn:Hrespect; simpl in Hfirst;
    [|done].
  rewrite Hparse in Hfirst.
  destruct (robot_parsers self !! netloc parsed) as [cached|] eqn:Hcache.
  - injection Hfirst as -> ->.
    by rewrite Hrespect, Hparse', Hnetloc, Hcache.
  - destruct (urljoin L url "/robots.txt") as [robots_url|]; [|done].
    destruct (robots_read L robots_url) as [read|]; [|done].
    injection Hfirst as -> <-. simpl.
    by rewrite Hrespect, Hparse', Hnetloc, lookup_insert_eq.
Qed.


(** X2. A call of [crawl_with_depth] leaves [respect_robots_txt],
    [max_pages] and [max_depth] of the crawler as they are and only adds
    to its cache of robots.txt parsers (no cached parser is dropped or
    replaced); the cache of a crawler that does not respect robots.txt is
    left as it is. *)
Theorem crawl_with_depth_keeps_settings (fuel : nat) (self : SimpleCrawler)
    (start_url : string) (max_depth max_pages : option Z)
    (url_patterns : option (list string)) (e : option exn) (s : frontier) :
  crawl_with_depth_run L fuel self start_url max_depth max_pages url_patterns
  = Some (e, s) ->
  cache_grown self (crawler s)
  /\ (respect_robots_txt self = false
      -> robot_parsers (crawler s) = robot_parsers self).
Proof.
  intros Hrun.
  eapply (crawl_with_depth_run_invariant
            (fun s => cache_grown self (crawler s)
                      /\ (respect_robots_txt self = false
                          -> robot_parsers (crawler s)
                             = robot_parsers self))); [| |exact Hrun].
  - intros sitemap_urls _. rewrite initial_frontier_eq. simpl.
    split; [apply cache_grown_refl|done].
  - intros s0 s1 [Hgrown Hoff] Hturn.
    destruct Hturn as [|url depth rest|url depth rest content links self' new
                       Hq Hlt Hv Hd Hcrawl]; simpl; [done..|].
    destruct (crawl_grows (crawler s0) url) as [Hgrown' Hoff'].
    rewrite Hcrawl in Hgrown', Hoff'. simpl in Hgrown', Hoff'.
    split; [by eapply cache_grown_trans|].
    intros Hrespect. rewrite Hoff'; [by apply Hoff|].
    destruct Hgrown as (-> & _). exact Hrespect.
Qed.

(** ** What [extract_links] returns *)

(** Every link the loop of [extract_links] keeps is an anchor of the
    document (resolved against the base URL and let through by the
    patterns, when there is a base URL), is a valid URL, and was allowed by
    [_can_fetch] when it was tested. *)
Lemma extract_links_loop_sound (base_url : string)
    (url_patterns : option (list string)) (all : list string)
    (self0 : SimpleCrawler) (Q : string -> Prop) :
  (forall link,
      (if Py.str_truthy base_url
       then exists href,
              href ∈ all
              /\ urljoin L base_url href = Returns link
              /\ passes_patterns L url_patterns link = Returns true
       else link ∈ all) ->
      _is_valid_url L link = true ->
      (exists self1,
          cache_grown self0 self1 /\ (_can_fetch L self1 link).1 = true) ->
      Q link) ->
  forall hrefs self links result self',
    (forall href, href ∈ hrefs -> href ∈ all) ->
    cache_grown self0 self ->
    extract_links_loop L self hrefs base_url url_patterns links
    = (Returns result, self') ->
    Forall Q links -> Forall Q result.
Proof.
  intros HQ.
  induction hrefs as [|href rest IH];
    intros self links result self' Hall Hgrown Hrun Hlinks; simpl in Hrun.
  { by injection Hrun as <- <-. }
  assert (Hrest : forall h, h ∈ rest -> h ∈ all).
  { intros h Hh. apply Hall. by right. }
  assert (Hhref : href ∈ all).
  { apply Hall. by left. }
  assert (Hkeep : forall link ok self1,
    (if Py.str_truthy base_url
     then exists href,
            href ∈ all
            /\ urljoin L base_url href = Returns link
            /\ passes_patterns L url_patterns link = Returns true
     else link ∈ all) ->
    _is_valid_url L link = true ->
    _can_fetch L self link = (ok, self1) ->
    extract_links_loop L self1 rest base_url url_patterns
      (if ok then links ++ [link] else links) = (Returns result, self') ->
    Forall Q result).
  { intros link ok self1 Hfrom Hvalid Hfetch Hloop.
    eapply (IH self1); [exact Hrest| |exact Hloop|].
    - eapply cache_grown_trans; [exact Hgrown|].
      pose proof (can_fetch_grows self link) as [Hg _].
      by rewrite Hfetch in Hg.
    - destruct ok; [|done].
      apply Forall_app. split; [done|].
      constructor; [|constructor].
      apply HQ; [done..|].
      exists self. split; [done|]. by rewrite Hfetch. }
  destruct (Py.str_truthy base_url) eqn:Hbase.
  - destruct (urljoin L base_url href) as [full_url|] eqn:Hjoin; [|done].
    destruct (passes_patterns L url_patterns full_url) as [[|]|] eqn:Hpass;
      [|by eapply IH|done].
    destruct (urlparse L base_url) as [base_parsed|]; [|done].
    destruct (urlparse L full_url) as [url_parsed|]; [|done].
    destruct (same_site _ _); [|by eapply IH].
    destruct (_is_valid_url L full_url) eqn:Hvalid; [|by eapply IH].
    destruct (_can_fetch L self full_url) as [ok self1] eqn:Hfetch.
    eapply (Hkeep full_url); [|done..]. by exists href.
  - destruct (_is_valid_url L href) eqn:Hvalid; [|by eapply IH].
    destruct (_can_fetch L self href) as [ok self1] eqn:Hfetch.
    by eapply (Hkeep href).
Qed.

Lemma extract_links_sound (self : SimpleCrawler)
    (html_content base_url : string) (url_patterns : option (list string))
    (link : string) :
  link ∈ (extract_links L self html_content base_url url_patterns).1 ->
  exists hrefs,
    soup_hrefs L html_content = Returns hrefs
    /\ (if Py.str_truthy base_url
        then exists href,
               href ∈ hrefs
               /\ urljoin L base_url href = Returns link
               /\ passes_patterns L url_patterns link = Returns true
        else link ∈ hrefs)
    /\ _is_valid_url L link = true
    /\ exists self1,
         cache_grown self self1 /\ (_can_fetch L self1 link).1 = true.
Proof.
  unfold extract_links.
  destruct (soup_hrefs L html_content) as [hrefs|];
    [|by intros ?%elem_of_nil].
  destruct (extract_links_loop L self hrefs base_url url_patterns [])
    as [[links|] self'] eqn:Hloop; simpl; [|by intros ?%elem_of_nil].
  intros Hin. exists hrefs. split; [done|].
  pose proof (extract_links_loop_sound base_url url_patterns hrefs self
    (fun link =>
       (if Py.str_truthy base_url
        then exists href,
               href ∈ hrefs
               /\ urljoin L base_url href = Returns link
               /\ passes_patterns L url_patterns link = Returns true
        else link ∈ hrefs)
       /\ _is_valid_url L link = true
       /\ exists self1,
            cache_grown self self1 /\ (_can_fetch L self1 link).1 = true)
    ltac:(by intros) hrefs self [] links self' ltac:(done)
    (cache_grown_refl self) Hloop (List.Forall_nil _)) as Hall.
  rewrite List.Forall_forall in Hall. apply Hall.
  by apply list_elem_of_In.
Qed.

(** X3. With a base URL, every link [extract_links] returns is an [href]
    of the document resolved against the base URL by [urljoin], matches one
    of the patterns when patterns are given, and is a valid URL. *)
Theorem extract_links_with_base_sound (self : SimpleCrawler)
    (html_content base_url : string) (url_patterns : option (list string))
    (link : string) :
  base_url <> "" ->
  link ∈ (extract_links L self html_content base_url url_patterns).1 ->
  exists hrefs href,
    soup_hrefs L html_content = Returns hrefs
    /\ href ∈ hrefs
    /\ urljoin L base_url href = Returns link
    /\ passes_patterns L url_patterns link = Returns true
    /\ _is_valid_url L link = true.
Proof.
  intros Hbase%str_truthy_spec Hin.
  destruct (extract_links_sound _ _ _ _ _ Hin)
    as (hrefs & Hsoup & Hfrom & Hvalid & _).
  rewrite Hbase in Hfrom. destruct Hfrom as (href & Hhref & Hjoin & Hpass).
  by exists hrefs, href.
Qed.


Lemma filter_sublist {A} (f : A -> bool) (l : list A) :
  sublist (List.filter f l) l.
Proof.
  induction l as [|a l IH]; simpl; [constructor|].
  destruct (f a); by constructor.
Qed.

(** Without a base URL the loop of [extract_links] raises nothing and
    keeps, in their order, valid [href]s of the document: all of them when
    robots.txt is not respected. *)
Lemma extract_links_loop_without_base (base_url : string)
    (url_patterns : option (list string)) (hrefs : list string) :
  Py.str_truthy base_url = false ->
  forall self links,
    exists kept self',
      extract_links_loop L self hrefs base_url url_patterns links
      = (Returns (links ++ kept)%list, self')
      /\ sublist kept (List.filter (_is_valid_url L) hrefs)
      /\ (respect_robots_txt self = false
          -> kept = List.filter (_is_valid_url L) hrefs).
Proof.
  intros Hbase.
  induction hrefs as [|href rest IH]; intros self links; simpl.
  { exists [], self. rewrite app_nil_r. by repeat split. }
  rewrite Hbase.
  destruct (_is_valid_url L href) eqn:Hvalid; [|apply IH].
  pose proof (can_fetch_grows self href) as [(Hr & _) Hoff].
  destruct (_can_fetch L self href) as [ok self1] eqn:Hfetch.
  simpl in Hr, Hoff.
  destruct ok.
  - destruct (IH self1 (links ++ [href])%list)
      as (kept & self' & Hloop & Hsub & Hall).
    exists (href :: kept), self'. rewrite Hloop, <- app_assoc.
    repeat split; [by constructor|].
    intros Hrespect. f_equal. apply Hall. congruence.
  - destruct (IH self1 links) as (kept & self' & Hloop & Hsub & Hall).
    exists kept, self'. repeat split; [done|by constructor|].
    intros Hrespect. exfalso.
    unfold _can_fetch in Hfetch. by rewrite Hrespect in Hfetch.
Qed.

Lemma extract_links_loop_ignores_patterns (base_url : string)
    (url_patterns : option (list string)) (hrefs : list string) :
  Py.str_truthy base_url = false ->
  forall self links,
    extract_links_loop L self hrefs base_url url_patterns links
    = extract_links_loop L self hrefs base_url None links.
Proof.
  intros Hbase.
  induction hrefs as [|href rest IH]; intros self links; simpl; [done|].
  rewrite Hbase.
  destruct (_is_valid_url L href); [|apply IH].
  destruct (_can_fetch L self href) as [ok self1]. apply IH.
Qed.

(** X5. Without a base URL, [extract_links] returns a sub-sequence, in
    document order, of the [href]s of the document that are valid URLs,
    as they are written (nothing is resolved), and [url_patterns] has no
    effect. *)
Theorem extract_links_without_base (self : SimpleCrawler)
    (html_content : string) (url_patterns : option (list string))
    (hrefs : list string) :
  soup_hrefs L html_content = Returns hrefs ->
  sublist (extract_links L self html_content "" url_patterns).1
    (List.filter (_is_valid_url L) hrefs)
  /\ extract_links L self html_content "" url_patterns
     = extract_links L self html_content "" None.
Proof.
  intros Hsoup. unfold extract_links. rewrite Hsoup.
  rewrite (extract_links_loop_ignores_patterns "" url_patterns) by done.
  split; [|done].
  destruct (extract_links_loop_without_base "" None hrefs eq_refl self [])
    as (kept & self' & -> & Hsub & _).
  done.
Qed.

(** X6. Without a base URL, a crawler that does not respect robots.txt
    gets exactly the valid [href]s of the document, in document order and
    with their repetitions, and is left unchanged. *)
Theorem extract_links_without_base_all (self : SimpleCrawler)
    (html_content : string) (url_patterns : option (list string))
    (hrefs : list string) :
  respect_robots_txt self = false ->
  soup_hrefs L html_content = Returns hrefs ->
  extract_links L self html_content "" url_patterns
  = (List.filter (_is_valid_url L) hrefs, self).
Proof.
  intros Hrespect Hsoup.
  pose proof (extract_links_grows self html_content "" url_patterns)
    as [_ Hself].
  specialize (Hself Hrespect). revert Hself.
  unfold extract_links. rewrite Hsoup.
  destruct (extract_links_loop_without_base "" url_patterns hrefs eq_refl
              self []) as (kept & self' & -> & _ & Hall).
  simpl. intros ->. by rewrite Hall.
Qed.

(** X7. With a base URL, when no library call raises during the loop, a
    crawler that does not respect robots.txt returns every resolved [href]
    that the patterns let through, whose netloc (the host with its port
    and user information, as written) is the netloc of the base URL or
    ends with a dot followed by it, and that is a valid URL. *)
Theorem extract_links_with_base_complete (self : SimpleCrawler)
    (html_content base_url : string) (url_patterns : option (list string))
    (hrefs links : list string) (href link : string)
    (base_parsed link_parsed : ParseResult) :
  respect_robots_txt self = false ->
  base_url <> "" ->
  soup_hrefs L html_content = Returns hrefs ->
  (extract_links_loop L self hrefs base_url url_patterns []).1
  = Returns links ->
  href ∈ hrefs ->
  urljoin L base_url href = Returns link ->
  passes_patterns L url_patterns link = Returns true ->
  urlparse L base_url = Returns base_parsed ->
  urlparse L link = Returns link_parsed ->
  netloc_in_scope (netloc link_parsed) (netloc base_parsed) ->
  _is_valid_url L link = true ->
  link ∈ (extract_links L self html_content base_url url_patterns).1.
Proof.
  intros Hrespect Hbase%str_truthy_spec Hsoup Hloop Hhref Hjoin Hpass
    Hparse_base Hparse_link Hscope%same_site_spec Hvalid.
  unfold extract_links. rewrite Hsoup.
  destruct (extract_links_loop L self hrefs base_url url_patterns [])
    as [o self'] eqn:Hrun.
  simpl in Hloop. subst o. simpl.
  apply list_elem_of_split in Hhref as (before & after & ->).
  rewrite extract_links_loop_app in Hrun.
  destruct (extract_links_loop L self before base_url url_patterns [])
    as [[links1|] self1] eqn:Hbefore; [|done].
  pose proof (extract_links_loop_grows base_url url_patterns before self [])
    as [_ Hoff].
  rewrite Hbefore in Hoff. simpl in Hoff. rewrite (Hoff Hrespect) in Hrun.
  simpl in Hrun.
  rewrite Hbase, Hjoin, Hpass, Hparse_base, Hparse_link, Hscope, Hvalid
    in Hrun.
  unfold _can_fetch in Hrun. rewrite Hrespect in Hrun. simpl in Hrun.
  eapply extract_links_loop_keeps; [exact Hrun|].
  apply elem_of_app. right. by left.
Qed.

(** X8. One [href] on which [urljoin] or [re.search] raises empties the
    result of [extract_links]: the links accepted before it are dropped as
    well. *)
Theorem extract_links_raise_drops_all (self self1 : SimpleCrawler)
    (html_content base_url : string) (url_patterns : option (list string))
    (before after links1 : list string) (href : string) (e : exn) :
  base_url <> "" ->
  soup_hrefs L html_content = Returns (before ++ href :: after)%list ->
  extract_links_loop L self before base_url url_patterns []
  = (Returns links1, self1) ->
  urljoin L base_url href = Raises e
  \/ (exists full_url,
        urljoin L base_url href = Returns full_url
        /\ passes_patterns L url_patterns full_url = Raises e) ->
  (extract_links L self html_content base_url url_patterns).1 = [].
Proof.
  intros Hbase%str_truthy_spec Hsoup Hbefore Hraise.
  unfold extract_links. rewrite Hsoup, extract_links_loop_app, Hbefore.
  simpl. rewrite Hbase.
  destruct Hraise as [->|(full_url & -> & ->)]; done.
Qed.

(** ** What [parse_sitemap] returns for documents of the sitemap protocol *)

(** The [<url>] entries of a [<urlset>]: the [loc] texts that are not
    empty, in document order. *)
Lemma locs_urlset (entries : list string) :
  locs (Toy.urlset entries) "url" = List.filter Py.str_truthy entries.
Proof.
  assert (Hloc : String.eqb (sitemap_ns "loc") (sitemap_ns "url") = false)
    by done.
  assert (Hurl : String.eqb (sitemap_ns "url") (sitemap_ns "url") = true)
    by done.
  assert (Hll : String.eqb (sitemap_ns "loc") (sitemap_ns "loc") = true)
    by done.
  unfold locs, findall, Toy.urlset. cbn [descendants].
  induction entries as [|e rest IH]; [done|].
  cbn [List.map flat_map Toy.entry descendants app List.filter tag_of].
  rewrite Hurl, Hloc.
  change (omap loc_text (?x :: ?l)) with
    (match loc_text x with
     | Some y => y :: omap loc_text l
     | None => omap loc_text l
     end).
  rewrite IH. unfold loc_text, find, Toy.entry.
  cbn [children_of List.find tag_of].
  rewrite Hll. cbn [text_of Py.truthy List.filter].
  by destruct (Py.str_truthy e).
Qed.

(** A [<urlset>] has no [<sitemap>] entry. *)
Lemma locs_urlset_sitemap (entries : list string) :
  locs (Toy.urlset entries) "sitemap" = [].
Proof.
  assert (Hloc : String.eqb (sitemap_ns "loc") (sitemap_ns "sitemap") = false)
    by done.
  assert (Hurl : String.eqb (sitemap_ns "url") (sitemap_ns "sitemap") = false)
    by done.
  unfold locs, findall, Toy.urlset. cbn [descendants].
  induction entries as [|e rest IH]; [done|].
  cbn [List.map flat_map Toy.entry descendants app List.filter tag_of].
  by rewrite Hurl, Hloc.
Qed.

(** X9. For a sitemap that is not an index, [parse_sitemap] returns the
    [<loc>] texts of the [<url>] entries of the [<urlset>] in document
    order, with their repetitions and without the empty ones, and makes no
    recursive call. *)
Theorem parse_sitemap_urlset (fuel : nat) (sitemap_url : string)
    (response : Response) (entries : list string) :
  requests_get L sitemap_url = Returns response ->
  status_code response = 200 ->
  Py.contains "<sitemapindex" (text response) = false ->
  ET_fromstring L (text response) = Returns (Toy.urlset entries) ->
  parse_sitemap L (S fuel) sitemap_url
  = Some (List.filter Py.str_truthy entries).
Proof.
  intros Hget Hstatus Hmarker Hxml. simpl. unfold parse_sitemap_try.
  rewrite Hget, Hstatus, Hmarker, Hxml. simpl.
  by rewrite locs_urlset.
Qed.

(** X10. The test for a sitemap index is a test on the text of the
    response: a [<urlset>] whose text contains [<sitemapindex] is read as
    an index, and none of its URLs is returned. *)
Theorem parse_sitemap_marker_hides_urlset (fuel : nat) (sitemap_url : string)
    (response : Response) (entries : list string) :
  requests_get L sitemap_url = Returns response ->
  status_code response = 200 ->
  Py.contains "<sitemapindex" (text response) = true ->
  ET_fromstring L (text response) = Returns (Toy.urlset entries) ->
  parse_sitemap L (S fuel) sitemap_url = Some [].
Proof.
  intros Hget Hstatus Hmarker Hxml.
  rewrite (parse_sitemap_index _ _ _ _ Hget Hstatus Hmarker Hxml).
  by rewrite locs_urlset_sitemap.
Qed.

(** A sitemap that cannot be fetched or parsed resolves to no URL. *)
Lemma parse_sitemap_failed (sitemap_url : string) :
  (exists e, requests_get L sitemap_url = Raises e)
  \/ (exists response,
        requests_get L sitemap_url = Returns response
        /\ (status_code response <> 200
            \/ exists e, ET_fromstring L (text response) = Raises e)) ->
  parse_sitemap L 1 sitemap_url = Some [].
Proof.
  simpl. unfold parse_sitemap_try.
  intros [[e ->]|(response & -> & [Hstatus|[e Hxml]])].
  - by destruct e.
  - apply Z.eqb_neq in Hstatus. by rewrite Hstatus.
  - rewrite Hxml.
    destruct (status_code response =? 200); simpl; [|done].
    by destruct (Py.contains "<sitemapindex" (text response)), e.
Qed.

(** X11. A child of a sitemap index that cannot be fetched, does not
    answer 200 or is not well-formed contributes no URL and does not stop
    the index: the URLs of the children before and after it are
    returned. *)
Theorem parse_sitemap_index_skips_failed_child (sitemap_url : string)
    (response : Response) (root : Element) (before after : list string)
    (bad : string) (parts_before parts_after : list (list string)) :
  requests_get L sitemap_url = Returns response ->
  status_code response = 200 ->
  Py.contains "<sitemapindex" (text response) = true ->
  ET_fromstring L (text response) = Returns root ->
  locs root "sitemap" = (before ++ bad :: after)%list ->
  (exists e, requests_get L bad = Raises e)
  \/ (exists bad_response,
        requests_get L bad = Returns bad_response
        /\ (status_code bad_response <> 200
            \/ exists e, ET_fromstring L (text bad_response) = Raises e)) ->
  Forall2 (resolves L) before parts_before ->
  Forall2 (resolves L) after parts_after ->
  resolves L sitemap_url (concat parts_before ++ concat parts_after)%list.
Proof.
  intros Hget Hstatus Hmarker Hxml Hlocs Hbad Hbefore Hafter.
  assert (Hparts : Forall2 (resolves L) (before ++ bad :: after)%list
                     (parts_before ++ [] :: parts_after)%list).
  { apply Forall2_app; [done|]. constructor; [|done].
    exists 1%nat. by apply parse_sitemap_failed. }
  apply resolves_common_fuel in Hparts as [fuel Hparts].
  exists (S fuel).
  rewrite (parse_sitemap_index _ _ _ _ Hget Hstatus Hmarker Hxml), Hlocs.
  apply extend_children_spec. eexists. split; [exact Hparts|].
  by rewrite concat_app.
Qed.

(** ** [check_sitemap] and the seeding of [crawl_with_depth] *)

(** X12. When [check_sitemap] answers [False] for the start URL,
    [crawl_with_depth] does not call [parse_sitemap] and its queue starts
    with the start URL alone; when [check_sitemap] raises ([urljoin] is
    outside its [try]), [crawl_with_depth] raises the same exception. *)
Theorem check_sitemap_false_no_seed (fuel : nat) (self : SimpleCrawler)
    (start_url : string) (max_depth max_pages : option Z)
    (url_patterns : option (list string)) :
  (check_sitemap L start_url = Returns false ->
   crawl_with_depth_run L fuel self start_url max_depth max_pages
     url_patterns
   = Some (drain L (override max_depth (self_max_depth self))
             (override max_pages (self_max_pages self)) url_patterns
             {| queue := [(start_url, 0)]; visited := ∅; results := ∅;
                page_count := 0; crawler := self;
                log := [Enqueue start_url 0] |}))
  /\ (forall e,
        check_sitemap L start_url = Raises e ->
        crawl_with_depth L fuel self start_url max_depth max_pages
          url_patterns = Some (Raises e)).
Proof.
  unfold check_sitemap, crawl_with_depth, crawl_with_depth_run,
    sitemap_urls_of.
  destruct (urljoin L start_url "/sitemap.xml") as [sitemap_url|e0].
  - split; [|by destruct (requests_head L sitemap_url)].
    destruct (requests_head L sitemap_url) as [response|]; [|done].
    intros [= ->]. done.
  - split; [done|]. by intros e [= ->].
Qed.

(** ** The single-document dispatchers *)

(** The text [crawl] returns for a page of the web does not depend on the
    crawler: it is what [process_url] extracts, when the page could be
    fetched with a body that is not empty. *)
Lemma crawl_content_http (self : SimpleCrawler) (url : string) :
  is_http url = true ->
  (crawl L self url).1.1
  = if Py.truthy (get_html_from_url L url) then process_url L url else None.
Proof.
  unfold is_http, crawl. intros ->.
  destruct (Py.truthy (get_html_from_url L url)); simpl; [|done].
  by destruct (extract_links L self _ url None).
Qed.

Lemma extract_links_in_scope (self : SimpleCrawler)
    (html_content base_url : string) (url_patterns : option (list string))
    (link : string) :
  Py.str_truthy base_url = true ->
  link ∈ (extract_links L self html_content base_url url_patterns).1 ->
  exists base_parsed link_parsed,
    urlparse L base_url = Returns base_parsed
    /\ urlparse L link = Returns link_parsed
    /\ netloc_in_scope (netloc link_parsed) (netloc base_parsed).
Proof.
  intros Hbase. unfold extract_links.
  destruct (soup_hrefs L html_content) as [hrefs|];
    [|by intros ?%elem_of_nil].
  destruct (extract_links_loop L self hrefs base_url url_patterns [])
    as [[links|] self'] eqn:Hrun; [|by intros ?%elem_of_nil].
  simpl. revert link. apply Forall_forall.
  eapply (extract_links_loop_scope base_url url_patterns);
    [exact Hbase| |exact Hrun|constructor].
  intros full_url base_parsed url_parsed Hb Hu Hsite.
  exists base_parsed, url_parsed. by rewrite <- same_site_spec.
Qed.

(** X13. Every link [crawl] returns is a valid URL (scheme and netloc not
    empty); the netloc of a link of a page of the web (the host with its
    port and user information, as written) is the netloc of that page or
    ends with a dot followed by it.  Text files, PDF files and unsupported
    inputs give no link. *)
Theorem crawl_links_valid_in_scope (self : SimpleCrawler)
    (file_path_or_url link : string) :
  link ∈ (crawl L self file_path_or_url).1.2 ->
  _is_valid_url L link = true
  /\ (is_http file_path_or_url = true
      \/ Py.endswith file_path_or_url ".md" = true)
  /\ (is_http file_path_or_url = true ->
      exists page_parsed link_parsed,
        urlparse L file_path_or_url = Returns page_parsed
        /\ urlparse L link = Returns link_parsed
        /\ netloc_in_scope (netloc link_parsed) (netloc page_parsed)).
Proof.
  unfold crawl. fold (is_http file_path_or_url).
  destruct (is_http file_path_or_url) eqn:Hhttp.
  { destruct (negb (Py.truthy (get_html_from_url L file_path_or_url)));
      [by intros ?%elem_of_nil|].
    destruct (extract_links L self
                (default "" (get_html_from_url L file_path_or_url))
                file_path_or_url None) as [links self'] eqn:Hlinks.
    simpl. intros Hin.
    assert (Hin' : link ∈ (extract_links L self
                (default "" (get_html_from_url L file_path_or_url))
                file_path_or_url None).1) by by rewrite Hlinks.
    split; [|split; [by left|]].
    - by destruct (extract_links_sound _ _ _ _ _ Hin')
        as (_ & _ & _ & Hvalid & _).
    - intros _. eapply extract_links_in_scope; [|exact Hin'].
      by apply is_http_truthy. }
  destruct (Py.endswith file_path_or_url ".md").
  { destruct (get_html_from_markdown L file_path_or_url) as [html_content|];
      [|by intros ?%elem_of_nil].
    destruct (negb (Py.truthy html_content)); [by intros ?%elem_of_nil|].
    destruct (process_markdown_file L file_path_or_url) as [content|];
      [|by intros ?%elem_of_nil].
    destruct (extract_links L self (default "" html_content) "" None)
      as [links self'] eqn:Hlinks.
    simpl. intros Hin.
    assert (Hin' : link ∈ (extract_links L self (default "" html_content) ""
                             None).1) by by rewrite Hlinks.
    split; [|split; [by right|done]].
    by destruct (extract_links_sound _ _ _ _ _ Hin')
      as (_ & _ & _ & Hvalid & _). }
  destruct (Py.endswith file_path_or_url ".txt").
  { by destruct (process_text_file L file_path_or_url);
      intros ?%elem_of_nil. }
  destruct (Py.endswith file_path_or_url ".pdf"); [|by intros ?%elem_of_nil].
  by destruct (process_pdf_file L file_path_or_url); intros ?%elem_of_nil.
Qed.

(** X14. Whenever [crawl] returns text for a path or URL,
    [SimpleDocProcessor.process_document] returns the same text for it:
    the two dispatchers agree, although they test the suffixes in another
    order. *)
Theorem crawl_content_is_process_document (self : SimpleCrawler)
    (file_path_or_url content : string) :
  (crawl L self file_path_or_url).1.1 = Some content ->
  process_document L file_path_or_url = Returns (Some content).
Proof.
  unfold crawl, process_document.
  destruct (Py.startswith file_path_or_url "http://"
            || Py.startswith file_path_or_url "https://").
  { destruct (negb (Py.truthy (get_html_from_url L file_path_or_url)));
      [done|].
    destruct (extract_links L self _ file_path_or_url None).
    simpl. by intros ->. }
  destruct (Py.endswith file_path_or_url ".md") eqn:Hmd.
  { rewrite (endswith_md_not_pdf _ Hmd).
    destruct (get_html_from_markdown L file_path_or_url) as [html_content|];
      [|done].
    destruct (negb (Py.truthy html_content)); [done|].
    destruct (process_markdown_file L file_path_or_url) as [text|]; [|done].
    destruct (extract_links L self _ "" None).
    simpl. by intros ->. }
  destruct (Py.endswith file_path_or_url ".txt") eqn:Htxt.
  { rewrite (endswith_txt_not_pdf _ Htxt).
    destruct (process_text_file L file_path_or_url) as [text|]; [|done].
    simpl. by intros ->. }
  destruct (Py.endswith file_path_or_url ".pdf"); [|done].
  destruct (process_pdf_file L file_path_or_url) as [text|]; [|done].
  simpl. by intros ->.
Qed.

(** X15. [ResearchAssistant.process_document] returns a text exactly when
    [SimpleDocProcessor.process_document] returns that text and it is not
    empty; in every other case (no text, empty text, unsupported input, an
    exception) it raises. *)
Theorem research_assistant_process_document (file_path_or_url : string)
    (content : string) :
  ResearchAssistant_process_document L file_path_or_url = Returns content
  <-> content <> ""
      /\ process_document L file_path_or_url = Returns (Some content).
Proof.
  unfold ResearchAssistant_process_document, process_document.
  assert (Hcontent : forall o : outcome (option string),
    match o with
    | Returns c =>
        if negb (Py.truthy c) then Raises OtherException
        else Returns (default "" c)
    | Raises _ => Raises OtherException
    end = Returns content
    <-> content <> "" /\ o = Returns (Some content)).
  { intros [[c|]|e]; simpl; [|by split; [|intros [_ ?]]..].
    destruct (Py.str_truthy c) eqn:Hc; simpl.
    - apply str_truthy_spec in Hc.
      split; [by intros [= ->]|by intros [_ [= ->]]].
    - split; [done|]. intros [Hne [= ->]].
      apply str_truthy_spec in Hne. congruence. }
  destruct (Py.startswith file_path_or_url "http://"
            || Py.startswith file_path_or_url "https://");
    [exact (Hcontent (Returns (process_url L file_path_or_url)))|].
  destruct (Py.endswith file_path_or_url ".pdf");
    [exact (Hcontent (process_pdf_file L file_path_or_url))|].
  destruct (Py.endswith file_path_or_url ".md");
    [exact (Hcontent (process_markdown_file L file_path_or_url))|].
  destruct (Py.endswith file_path_or_url ".txt");
    [exact (Hcontent (process_text_file L file_path_or_url))|].
  by split; [|intros [_ ?]].
Qed.

(** ** What [crawl_with_depth] returns *)

(** What holds of the exception of every turn that ends with one holds of
    the exception the loop ends with. *)
Lemma drain_raises (max_depth max_pages : Z)
    (url_patterns : option (list string)) (Q : exn -> Prop) :
  (forall s e s',
      step L max_depth max_pages url_patterns s = Abort e s' -> Q e) ->
  forall s e s',
    drain L max_depth max_pages url_patterns s = (Some e, s') -> Q e.
Proof.
  intros Hstep s.
  apply (drain_elim L
    (fun max_depth max_pages url_patterns s r =>
       (forall s e s',
           step L max_depth max_pages url_patterns s = Abort e s' -> Q e) ->
       forall e s', r = (Some e, s') -> Q e)); [| | |exact Hstep].
  all: clear; intros max_depth max_pages url_patterns.
  - intros s s' _ IH _ Habort e s1 Hrun. by eapply IH.
  - intros s s' _ _ Habort e s1 [=].
  - intros s e s' Hstep _ Habort e1 s1 [= <- <-]. by eapply Habort.
Qed.

(** What holds of the frontier of every turn that ends the loop without an
    exception holds of the frontier the loop ends with. *)
Lemma drain_returns (max_depth max_pages : Z)
    (url_patterns : option (list string)) (Q : frontier -> Prop) :
  (forall s s',
      step L max_depth max_pages url_patterns s = Break s' -> Q s') ->
  forall s s',
    drain L max_depth max_pages url_patterns s = (None, s') -> Q s'.
Proof.
  intros Hstep s.
  apply (drain_elim L
    (fun max_depth max_pages url_patterns s r =>
       (forall s s',
           step L max_depth max_pages url_patterns s = Break s' -> Q s') ->
       forall s', r = (None, s') -> Q s')); [| | |exact Hstep].
  all: clear; intros max_depth max_pages url_patterns.
  - intros s s' _ IH _ Hbreak s1 Hrun. by eapply IH.
  - intros s s' Hstep _ Hbreak s1 [= <-]. by eapply Hbreak.
  - intros s e s' _ _ Hbreak s1 [=].
Qed.

(** The loop ends without an exception only with an empty queue or a used
    up page budget. *)
Lemma step_break (max_depth max_pages : Z)
    (url_patterns : option (list string)) (s s' : frontier) :
  step L max_depth max_pages url_patterns s = Break s' ->
  queue s' = [] \/ max_pages <= page_count s'.
Proof.
  unfold step.
  destruct (queue s) as [|[url depth] rest] eqn:Hq.
  { intros [= <-]. by left. }
  destruct (page_count s <? max_pages) eqn:Hlt; simpl.
  2: { intros [= <-]. right. by apply Z.ltb_ge. }
  destruct (bool_decide (url ∈ visited s) || (max_depth <? depth)); [done|].
  destruct (crawl L (crawler s) url) as [[content links] self'].
  destruct (Py.truthy content); [|done].
  destruct (max_pages <=? page_count s + 1) eqn:Hfull.
  { intros [= <-]. simpl. right. by apply Z.leb_le. }
  destruct (depth <? max_depth); [|done].
  by destruct (enqueue_links _ _ _ _ _ _ _) as [[e|] [queue' log'']].
Qed.

(** A raising [any_search] is a raising [re.search] on one of the
    patterns. *)
Lemma any_search_raises (patterns : list string) (s : string) (e : exn) :
  any_search L patterns s = Raises e ->
  exists pattern, pattern ∈ patterns /\ re_search L pattern s = Raises e.
Proof.
  induction patterns as [|pattern rest IH]; simpl; [done|].
  destruct (re_search L pattern s) as [[|]|e'] eqn:Hsearch.
  - done.
  - intros (p & Hin & Hp)%IH. exists p. split; [by right|done].
  - intros [= ->]. exists pattern. split; [by left|done].
Qed.

Lemma enqueue_links_raises (url_patterns : option (list string))
    (visited : gset string) (depth : Z) (links : list string) :
  forall queue log e queue' log',
    enqueue_links L url_patterns visited depth links queue log
    = (Some e, (queue', log')) ->
    exists link,
      link ∈ links /\ passes_patterns L url_patterns link = Raises e.
Proof.
  induction links as [|link rest IH]; intros queue log e queue' log';
    simpl; [done|].
  destruct (passes_patterns L url_patterns link) as [[|]|e'] eqn:Hpass.
  - destruct (bool_decide (link ∈ visited));
      intros (l & Hin & Hl)%IH; exists l; (split; [by right|done]).
  - intros (l & Hin & Hl)%IH. exists l. split; [by right|done].
  - intros [= -> _ _]. exists link. split; [by left|done].
Qed.

Lemma step_abort (max_depth max_pages : Z)
    (url_patterns : option (list string)) (s : frontier) (e : exn)
    (s' : frontier) :
  step L max_depth max_pages url_patterns s = Abort e s' ->
  exists patterns pattern link,
    url_patterns = Some patterns
    /\ pattern ∈ patterns
    /\ re_search L pattern link = Raises e.
Proof.
  unfold step.
  destruct (queue s) as [|[url depth] rest]; [done|].
  destruct (negb (page_count s <? max_pages)); [done|].
  destruct (bool_decide (url ∈ visited s) || (max_depth <? depth)); [done|].
  destruct (crawl L (crawler s) url) as [[content links] self'].
  destruct (Py.truthy content); [|done].
  destruct (max_pages <=? page_count s + 1); [done|].
  destruct (depth <? max_depth); [|done].
  destruct (enqueue_links _ _ _ _ _ _ _) as [[e'|] [queue' log'']] eqn:Henq;
    [|done].
  intros [= -> _].
  apply enqueue_links_raises in Henq as (link & _ & Hpass).
  unfold passes_patterns in Hpass.
  destruct url_patterns as [[|p patterns]|]; [done| |done].
  apply any_search_raises in Hpass as (pattern & Hin & Hsearch).
  by exists (p :: patterns), pattern, link.
Qed.

(** X16. The only exceptions that leave [crawl_with_depth] are the one of
    [urljoin] on the start URL and the one of [re.search] on one of the
    patterns: without [url_patterns], a call whose [urljoin] returns does
    not raise. *)
Theorem crawl_with_depth_raises_only (fuel : nat) (self : SimpleCrawler)
    (start_url : string) (max_depth max_pages : option Z)
    (url_patterns : option (list string)) (e : exn) :
  crawl_with_depth L fuel self start_url max_depth max_pages url_patterns
  = Some (Raises e) ->
  urljoin L start_url "/sitemap.xml" = Raises e
  \/ exists patterns pattern link,
       url_patterns = Some patterns
       /\ pattern ∈ patterns
       /\ re_search L pattern link = Raises e.
Proof.
  unfold crawl_with_depth, crawl_with_depth_run.
  destruct (urljoin L start_url "/sitemap.xml") as [sitemap_url|e0].
  - destruct (sitemap_urls_of L fuel sitemap_url) as [sitemap_urls|];
      [|done].
    destruct (drain L _ _ url_patterns _) as [[e1|] s] eqn:Hdrain; [|done].
    intros [= ->]. right.
    eapply (drain_raises _ _ _ _ (step_abort _ _ _)), Hdrain.
  - intros [= ->]. by left.
Qed.

(** The keys of [results] were dispatched, and [page_count] counts
    them. *)
Lemma crawl_with_depth_count (fuel : nat) (self : SimpleCrawler)
    (start_url : string) (max_depth max_pages : option Z)
    (url_patterns : option (list string)) (e : option exn) (s : frontier) :
  crawl_with_depth_run L fuel self start_url max_depth max_pages url_patterns
  = Some (e, s) ->
  dom (results s) ⊆ visited s
  /\ Z.of_nat (size (results s)) = page_count s.
Proof.
  intros Hrun.
  eapply (crawl_with_depth_run_invariant
            (fun s => dom (results s) ⊆ visited s
                      /\ Z.of_nat (size (results s)) = page_count s));
    [| |exact Hrun].
  - intros sitemap_urls _. rewrite initial_frontier_eq. simpl.
    by rewrite dom_empty_L, map_size_empty.
  - intros s0 s1 [Hdom Hsize] Hturn.
    destruct Hturn as [|url depth rest|url depth rest content links self' new
                       Hq Hlt Hv Hd Hcrawl Hnew Hdeep]; simpl; [done..|].
    destruct (Py.truthy content).
    + split.
      * rewrite dom_insert_L. by apply union_mono_l.
      * rewrite map_size_insert_None; [lia|].
        apply not_elem_of_dom. intros Hin. by apply Hv, Hdom.
    + split; [|done].
      intros x Hx. apply elem_of_union. right. by apply Hdom.
Qed.

(** X17. The loop of [crawl_with_depth] ends, without an exception, only
    when the queue is empty or the result has as many entries as the page
    budget: a result with fewer entries means that every URL that was put
    into the queue was taken out of it. *)
Theorem crawl_with_depth_stops_when (fuel : nat) (self : SimpleCrawler)
    (start_url : string) (max_depth max_pages : option Z)
    (url_patterns : option (list string)) (s : frontier) :
  crawl_with_depth_run L fuel self start_url max_depth max_pages url_patterns
  = Some (None, s) ->
  queue s = []
  \/ override max_pages (self_max_pages self) <= Z.of_nat (size (results s)).
Proof.
  intros Hrun.
  destruct (crawl_with_depth_count _ _ _ _ _ _ _ _ Hrun) as [_ ->].
  unfold crawl_with_depth_run in Hrun.
  destruct (urljoin L start_url "/sitemap.xml") as [sitemap_url|e0];
    [|done].
  destruct (sitemap_urls_of L fuel sitemap_url) as [sitemap_urls|]; [|done].
  injection Hrun as Hrun.
  eapply (drain_returns _ _ _ _ (step_break _ _ _)), Hrun.
Qed.

Lemma pages_with_text_enqueues (depth : Z) (urls : list string)
    (log : list event) :
  pages_with_text (List.map (fun url => Enqueue url depth) urls ++ log)
  = pages_with_text log.
Proof. induction urls as [|url rest IH]; simpl; done. Qed.

(** X18. The result of [crawl_with_depth] has exactly one entry for each
    call of [crawl] that gave text: no entry is overwritten, and the
    counter the page budget is compared with is the size of the result. *)
Theorem crawl_with_depth_counts_pages (fuel : nat) (self : SimpleCrawler)
    (start_url : string) (max_depth max_pages : option Z)
    (url_patterns : option (list string)) (e : option exn) (s : frontier) :
  crawl_with_depth_run L fuel self start_url max_depth max_pages url_patterns
  = Some (e, s) ->
  size (results s) = pages_with_text (log s)
  /\ Z.of_nat (size (results s)) = page_count s.
Proof.
  intros Hrun.
  cut (dom (results s) ⊆ visited s
       /\ size (results s) = pages_with_text (log s)).
  { intros [_ Hpages]. split; [done|].
    by destruct (crawl_with_depth_count _ _ _ _ _ _ _ _ Hrun). }
  eapply (crawl_with_depth_run_invariant
            (fun s => dom (results s) ⊆ visited s
                      /\ size (results s) = pages_with_text (log s)));
    [| |exact Hrun].
  - intros sitemap_urls _. rewrite initial_frontier_eq. simpl.
    rewrite dom_empty_L, map_size_empty, pages_with_text_enqueues.
    by split.
  - intros s0 s1 [Hdom Hsize] Hturn.
    destruct Hturn as [|url depth rest|url depth rest content links self' new
                       Hq Hlt Hv Hd Hcrawl Hnew Hdeep]; simpl; [done..|].
    rewrite pages_with_text_enqueues. simpl.
    destruct (Py.truthy content).
    + split.
      * rewrite dom_insert_L. by apply union_mono_l.
      * rewrite map_size_insert_None; [lia|].
        apply not_elem_of_dom. intros Hin. by apply Hv, Hdom.
    + split; [|done].
      intros x Hx. apply elem_of_union. right. by apply Hdom.
Qed.

(** X19. Every value of the result of [crawl_with_depth] is a text that is
    not empty, and it is the text that [crawl] returns for its key. *)
Theorem crawl_with_depth_results_from_crawl (fuel : nat)
    (self : SimpleCrawler) (start_url : string)
    (max_depth max_pages : option Z) (url_patterns : option (list string))
    (e : option exn) (s : frontier) (url content : string) :
  crawl_with_depth_run L fuel self start_url max_depth max_pages url_patterns
  = Some (e, s) ->
  results s !! url = Some content ->
  content <> ""
  /\ exists self0,
       cache_grown self self0 /\ (crawl L self0 url).1.1 = Some content.
Proof.
  intros Hrun. revert url content.
  cut (cache_grown self (crawler s)
       /\ forall url content,
            results s !! url = Some content ->
            content <> ""
            /\ exists self0,
                 cache_grown self self0
                 /\ (crawl L self0 url).1.1 = Some content).
  { by intros [_ ?]. }
  eapply (crawl_with_depth_run_invariant
            (fun s =>
               cache_grown self (crawler s)
               /\ forall url content,
                    results s !! url = Some content ->
                    content <> ""
                    /\ exists self0,
                         cache_grown self self0
                         /\ (crawl L self0 url).1.1 = Some content));
    [| |exact Hrun].
  - intros sitemap_urls _. rewrite initial_frontier_eq. simpl.
    split; [apply cache_grown_refl|]. by intros url content ?%lookup_empty_Some.
  - intros s0 s1 [Hgrown Hresults] Hturn.
    destruct Hturn as [|url depth rest|url depth rest content links self' new
                       Hq Hlt Hv Hd Hcrawl Hnew Hdeep]; simpl; [done..|].
    split.
    { eapply cache_grown_trans; [exact Hgrown|].
      pose proof (crawl_grows (crawler s0) url) as [Hg _].
      by rewrite Hcrawl in Hg. }
    destruct content as [text|]; simpl; [|exact Hresults].
    destruct (Py.str_truthy text) eqn:Htext; [|exact Hresults].
    intros url' content'.
    rewrite lookup_insert_Some. intros [[<- <-]|[_ Hold]].
    + split; [by apply str_truthy_spec|].
      exists (crawler s0). split; [done|]. by rewrite Hcrawl.
    + by apply Hresults.
Qed.

(** ** The order of the traversal *)

Lemma dispatches_enqueues (depth : Z) (urls : list string)
    (log : list event) :
  dispatches (List.map (fun url => Enqueue url depth) urls ++ log)
  = dispatches log.
Proof. induction urls as [|url rest IH]; simpl; done. Qed.

(** The head of a queue of two levels (entries of depth [d], then entries
    of depth [d + 1]) leaves a queue of two levels that start at its own
    depth. *)
Lemma two_levels_head (d : Z) (xs ys : list string) (url : string)
    (depth : Z) (rest : list (string * Z)) :
  (List.map (fun u => (u, d)) xs ++ List.map (fun u => (u, d + 1)) ys)%list
  = (url, depth) :: rest ->
  d <= depth
  /\ exists xs' ys',
       rest = (List.map (fun u => (u, depth)) xs'
               ++ List.map (fun u => (u, depth + 1)) ys')%list.
Proof.
  destruct xs as [|x xs]; simpl.
  - destruct ys as [|y ys]; simpl; [done|].
    intros [= -> <- <-]. split; [lia|]. exists ys, []. simpl.
    by rewrite app_nil_r.
  - intros [= -> <- <-]. split; [lia|]. by exists xs, ys.
Qed.

(** X20. [crawl_with_depth] is breadth-first: the depths of the entries it
    gives to [crawl] never decrease from one call to the next, and each of
    them is between 0 and the depth budget. *)
Theorem crawl_with_depth_breadth_first (fuel : nat) (self : SimpleCrawler)
    (start_url : string) (max_depth max_pages : option Z)
    (url_patterns : option (list string)) (e : option exn) (s : frontier) :
  crawl_with_depth_run L fuel self start_url max_depth max_pages url_patterns
  = Some (e, s) ->
  (forall url depth,
      (url, depth) ∈ dispatches (log s) ->
      0 <= depth <= override max_depth (self_max_depth self))
  /\ (forall before a da middle b db after,
        rev (dispatches (log s))
        = (before ++ (a, da) :: middle ++ (b, db) :: after)%list ->
        da <= db).
Proof.
  intros Hrun.
  set (budget := override max_depth (self_max_depth self)) in *.
  cut (exists d xs ys,
         queue s = (List.map (fun u => (u, d)) xs
                    ++ List.map (fun u => (u, d + 1)) ys)%list
         /\ 0 <= d
         /\ (forall url depth,
               (url, depth) ∈ dispatches (log s) ->
               0 <= depth <= budget /\ depth <= d)
         /\ (forall later b db earlier a da,
               dispatches (log s) = (later ++ (b, db) :: earlier)%list ->
               (a, da) ∈ earlier -> da <= db)).
  { intros (d & xs & ys & _ & _ & Hrange & Hsorted). split.
    - intros url depth Hin. by apply Hrange in Hin as [? _].
    - intros before a da middle b db after Hrev.
      apply (f_equal (@rev _)) in Hrev. rewrite rev_involutive in Hrev.
      rewrite rev_app_distr in Hrev. simpl in Hrev.
      rewrite rev_app_distr in Hrev. simpl in Hrev.
      rewrite <- !app_assoc in Hrev. simpl in Hrev.
      eapply (Hsorted (rev after) b db _ a da); [exact Hrev|].
      apply elem_of_app. right. by left. }
  eapply (crawl_with_depth_run_invariant
            (fun s =>
               exists d xs ys,
                 queue s = (List.map (fun u => (u, d)) xs
                            ++ List.map (fun u => (u, d + 1)) ys)%list
                 /\ 0 <= d
                 /\ (forall url depth,
                       (url, depth) ∈ dispatches (log s) ->
                       0 <= depth <= budget /\ depth <= d)
                 /\ (forall later b db earlier a da,
                       dispatches (log s)
                       = (later ++ (b, db) :: earlier)%list ->
                       (a, da) ∈ earlier -> da <= db)));
    [| |exact Hrun].
  - intros sitemap_urls _. rewrite initial_frontier_eq. simpl.
    exists 0, (start_url :: sitemap_urls), [].
    rewrite dispatches_enqueues. simpl. rewrite app_nil_r.
    split; [done|]. split; [done|]. split.
    + by intros url depth ?%elem_of_nil.
    + intros later b db earlier a da Hlog. by destruct later.
  - intros s0 s1 (d & xs & ys & Hqueue & Hd & Hrange & Hsorted) Hturn.
    destruct Hturn as [|url depth rest Hq|url depth rest content links self'
                       new Hq Hlt Hv Hdepth Hcrawl Hnew Hdeep]; simpl.
    + by exists d, xs, ys.
    + rewrite Hq in Hqueue. symmetry in Hqueue.
      apply two_levels_head in Hqueue as (Hle & xs' & ys' & ->).
      exists depth, xs', ys'.
      split; [done|]. split; [lia|]. split; [|done].
      intros u k Hin. apply Hrange in Hin. lia.
    + rewrite Hq in Hqueue. symmetry in Hqueue.
      apply two_levels_head in Hqueue as (Hle & xs' & ys' & ->).
      rewrite dispatches_enqueues. simpl.
      exists depth, xs', (ys' ++ new)%list.
      split; [by rewrite map_app, app_assoc|]. split; [lia|]. split.
      * intros u k [[= -> ->]|Hin]%elem_of_cons; [lia|].
        apply Hrange in Hin. lia.
      * intros [|ev later] b db earlier a da; simpl.
        -- intros [= <- <- <-] Hin. apply Hrange in Hin. lia.
        -- intros [= _ Hlog]. by eapply Hsorted.
Qed.

(** ** The keys of the result *)

(** The first turn of the loop, for budgets that allow one page: the start
    URL is given to [crawl]. *)
Lemma turn_first (max_depth max_pages : Z) (self : SimpleCrawler)
    (start_url : string) (sitemap_urls : list string) (s : frontier) :
  0 < max_pages ->
  0 <= max_depth ->
  turn L max_depth max_pages (initial_frontier self start_url sitemap_urls)
    s ->
  start_url ∈ visited s
  /\ results s
     = if Py.truthy (crawl L self start_url).1.1
       then {[start_url := default "" (crawl L self start_url).1.1]}
       else ∅.
Proof.
  intros Hpages Hdepth. rewrite initial_frontier_eq.
  inversion 1 as [Hend|url depth rest Hq Hlt Hskip
                  |url depth rest content links self' new Hq Hlt Hv Hd
                     Hcrawl Hnew Hdeep]; simpl in *.
  - destruct Hend as [?|?]; [done|lia].
  - injection Hq as <- <- _.
    destruct Hskip as [?%elem_of_empty|?]; [done|lia].
  - injection Hq as <- <- _. rewrite Hcrawl. simpl.
    split; [by apply elem_of_union_l, elem_of_singleton|].
    destruct (Py.truthy content); [|done].
    by rewrite insert_empty.
Qed.

(** An entry of the result stays as it is: its key is in [visited], and
    no URL is given to [crawl] twice. *)
Lemma turn_keeps_entry (max_depth max_pages : Z) (s s' : frontier)
    (url content : string) :
  url ∈ visited s /\ results s !! url = Some content ->
  turn L max_depth max_pages s s' ->
  url ∈ visited s' /\ results s' !! url = Some content.
Proof.
  intros [Hvisited Hentry].
  destruct 1 as [|url' depth rest|url' depth rest content' links self' new
                 Hq Hlt Hv Hd Hcrawl Hnew Hdeep]; simpl; [done..|].
  split; [by apply elem_of_union_r|].
  destruct (Py.truthy content'); [|done].
  rewrite lookup_insert_ne; [done|]. by intros ->.
Qed.


(** The entry of the start URL at the end of a loop that leaves without an
    exception, for budgets that allow one page. *)
Lemma drain_start_entry (max_depth max_pages : Z)
    (url_patterns : option (list string)) (self : SimpleCrawler)
    (start_url : string) (sitemap_urls : list string) (s : frontier)
    (content : string) :
  is_http start_url = true ->
  Py.truthy (get_html_from_url L start_url) = true ->
  process_url L start_url = Some content ->
  content <> "" ->
  0 < max_pages ->
  0 <= max_depth ->
  drain L max_depth max_pages url_patterns
    (initial_frontier self start_url sitemap_urls) = (None, s) ->
  results s !! start_url = Some content.
Proof.
  intros Hhttp Hhtml Htext Hcontent%str_truthy_spec Hpages Hdepth Hdrain.
  cut (start_url ∈ visited s /\ results s !! start_url = Some content).
  { by intros [_ ?]. }
  rewrite drain_step in Hdrain.
  pose proof (step_turn max_depth max_pages url_patterns
                (initial_frontier self start_url sitemap_urls)) as Hturn.
  apply turn_first in Hturn as [Hvisited Hresults]; [|done..].
  rewrite (crawl_content_http self start_url Hhttp), Hhtml, Htext
    in Hresults.
  simpl in Hresults. rewrite Hcontent in Hresults.
  destruct (step L _ _ url_patterns _) as [s1|s1|e s1]; simpl in *.
  - pose proof (drain_invariant max_depth max_pages url_patterns
                  (fun s => start_url ∈ visited s
                            /\ results s !! start_url = Some content)
                  (fun s0 s0' Hs Ht => turn_keeps_entry _ _ _ _ _ _ Hs Ht) s1)
      as Hend.
    rewrite Hdrain in Hend. apply Hend.
    split; [done|]. rewrite Hresults. apply lookup_singleton_eq.
  - injection Hdrain as <-.
    split; [done|]. rewrite Hresults. apply lookup_singleton_eq.
  - done.
Qed.

(** X21. When the start URL is a page of the web that can be fetched and
    gives text, and the budgets allow one page, the result of
    [crawl_with_depth] has that text under the start URL: robots.txt is not
    consulted for the start URL, and no later page replaces its entry. *)
Theorem crawl_with_depth_fetches_start_url (fuel : nat)
    (self : SimpleCrawler) (start_url : string)
    (max_depth max_pages : option Z) (url_patterns : option (list string))
    (result : gmap string string) (content : string) :
  is_http start_url = true ->
  Py.truthy (get_html_from_url L start_url) = true ->
  process_url L start_url = Some content ->
  content <> "" ->
  0 < override max_pages (self_max_pages self) ->
  0 <= override max_depth (self_max_depth self) ->
  crawl_with_depth L fuel self start_url max_depth max_pages url_patterns
  = Some (Returns result) ->
  result !! start_url = Some content.
Proof.
  intros Hhttp Hhtml Htext Hcontent Hpages Hdepth.
  unfold crawl_with_depth, crawl_with_depth_run.
  destruct (urljoin L start_url "/sitemap.xml") as [sitemap_url|]; [|done].
  destruct (sitemap_urls_of L fuel sitemap_url) as [sitemap_urls|]; [|done].
  destruct (drain L _ _ url_patterns _) as [[e|] s] eqn:Hdrain; [done|].
  intros [= <-]. by eapply drain_start_entry.
Qed.


(** X22. Every key of the result of [crawl_with_depth] is the start URL,
    a URL of the sitemap, or a link that [crawl] returned for a page that
    is itself a key of the result: links are followed only from pages that
    gave text. *)
Theorem crawl_with_depth_keys_have_parents (fuel : nat)
    (self : SimpleCrawler) (start_url : string)
    (max_depth max_pages : option Z) (url_patterns : option (list string))
    (sitemap_url : string) (sitemap_urls : list string) (e : option exn)
    (s : frontier) (url : string) :
  urljoin L start_url "/sitemap.xml" = Returns sitemap_url ->
  sitemap_urls_of L fuel sitemap_url = Some sitemap_urls ->
  crawl_with_depth_run L fuel self start_url max_depth max_pages url_patterns
  = Some (e, s) ->
  url ∈ dom (results s) ->
  url ∈ start_url :: sitemap_urls
  \/ exists page self0,
       page ∈ dom (results s)
       /\ cache_grown self self0
       /\ url ∈ (crawl L self0 page).1.2.
Proof.
  intros Hjoin Hsitemap Hrun.
  pose (R := fun (res : gmap string string) (u : string) =>
    u ∈ start_url :: sitemap_urls
    \/ exists page self0,
         page ∈ dom res
         /\ cache_grown self self0
         /\ u ∈ (crawl L self0 page).1.2).
  revert url.
  cut (cache_grown self (crawler s)
       /\ (forall u d, (u, d) ∈ queue s -> R (results s) u)
       /\ (forall u, u ∈ dom (results s) -> R (results s) u)).
  { by intros (_ & _ & ?). }
  eapply (crawl_with_depth_run_invariant
            (fun s =>
               cache_grown self (crawler s)
               /\ (forall u d, (u, d) ∈ queue s -> R (results s) u)
               /\ (forall u, u ∈ dom (results s) -> R (results s) u)));
    [| |exact Hrun].
  - intros urls Hurls. specialize (Hurls _ Hjoin).
    rewrite Hsitemap in Hurls. injection Hurls as <-.
    rewrite initial_frontier_eq. simpl.
    split; [apply cache_grown_refl|]. split.
    + intros u d Hin. left.
      apply elem_of_cons in Hin as [[= -> _]|Hin]; [by left|right].
      apply list_elem_of_In, in_map_iff in Hin
        as (u' & [= <- _] & Hu%list_elem_of_In).
      done.
    + intros u Hin. by rewrite dom_empty_L in Hin.
  - intros s0 s1 (Hgrown & Hqueue & Hkeys) Hturn.
    destruct Hturn as [|url depth rest Hq|url depth rest content links self'
                       new Hq Hlt Hv Hdepth Hcrawl Hnew Hdeep]; simpl.
    + done.
    + split; [done|]. split; [|done].
      intros u d Hin. apply (Hqueue u d). rewrite Hq. by right.
    + set (res := if Py.truthy content
                  then <[url := default "" content]> (results s0)
                  else results s0).
      assert (Hmono : forall u, R (results s0) u -> R res u).
      { intros u [Hseed|(page & self0 & Hpage & Hself0 & Hlink)];
          [by left|right].
        exists page, self0. split; [|done].
        unfold res. destruct (Py.truthy content); [|done].
        rewrite dom_insert_L. by apply elem_of_union_r. }
      assert (Hhead : R (results s0) url).
      { apply (Hqueue url depth). rewrite Hq. by left. }
      split.
      { eapply cache_grown_trans; [exact Hgrown|].
        pose proof (crawl_grows (crawler s0) url) as [Hg _].
        by rewrite Hcrawl in Hg. }
      split.
      * intros u d [Hin|Hin]%elem_of_app.
        { apply Hmono, (Hqueue u d). rewrite Hq. by right. }
        apply list_elem_of_In, in_map_iff in Hin
          as (link & [= <- _] & Hlink%list_elem_of_In).
        rewrite List.Forall_forall in Hnew.
        destruct (Hnew link) as [Hfound _]; [by apply list_elem_of_In|].
        destruct Hdeep as [_ Htext];
          [by intros ->; apply elem_of_nil in Hlink|].
        right. exists url, (crawler s0).
        split; [|split; [done|by rewrite Hcrawl]].
        unfold res. rewrite Htext, dom_insert_L.
        by apply elem_of_union_l, elem_of_singleton.
      * intros u. unfold res at 1.
        destruct (Py.truthy content) eqn:Htext.
        -- rewrite dom_insert_L.
           intros [->%elem_of_singleton|Hin]%elem_of_union;
             [by apply Hmono|by apply Hmono, Hkeys].
        -- intros Hin. by apply Hmono, Hkeys.
Qed.

(** ** Document order, patterns and budgets *)

Lemma extract_links_loop_order (base_url : string)
    (url_patterns : option (list string)) (hrefs : list string) :
  Py.str_truthy base_url = true ->
  forall self links result self',
    extract_links_loop L self hrefs base_url url_patterns links
    = (Returns result, self') ->
    exists kept,
      result = (links ++ kept)%list
      /\ sublist kept (resolve_all L base_url hrefs).
Proof.
  intros Hbase. unfold resolve_all.
  induction hrefs as [|href rest IH]; intros self links result self' Hrun;
    simpl in Hrun.
  { injection Hrun as <- <-. exists []. rewrite app_nil_r.
    split; [done|constructor]. }
  rewrite Hbase in Hrun. cbn [omap list_omap].
  destruct (urljoin L base_url href) as [full_url|]; [|done].
  assert (Hskip : forall self0,
    extract_links_loop L self0 rest base_url url_patterns links
    = (Returns result, self') ->
    exists kept,
      result = (links ++ kept)%list
      /\ sublist kept
           (full_url
            :: omap (fun href =>
                       match urljoin L base_url href with
                       | Returns full_url => Some full_url
                       | Raises _ => None
                       end) rest)).
  { intros self0 (kept & -> & Hsub)%IH. exists kept.
    split; [done|by constructor]. }
  destruct (passes_patterns L url_patterns full_url) as [[|]|];
    [|by eapply Hskip|done].
  destruct (urlparse L base_url) as [base_parsed|]; [|done].
  destruct (urlparse L full_url) as [url_parsed|]; [|done].
  destruct (same_site _ _); [|by eapply Hskip].
  destruct (_is_valid_url L full_url); [|by eapply Hskip].
  destruct (_can_fetch L self full_url) as [[|] self1]; [|by eapply Hskip].
  apply IH in Hrun as (kept & -> & Hsub).
  exists (full_url :: kept). rewrite <- app_assoc.
  split; [done|by constructor].
Qed.

(** X23. With a base URL, the links [extract_links] returns are in
    document order: they are a sub-sequence of the [href]s of the document
    resolved against the base URL, so a link is returned at most as often
    as an [href] resolves to it. *)
Theorem extract_links_with_base_order (self : SimpleCrawler)
    (html_content base_url : string) (url_patterns : option (list string))
    (hrefs : list string) :
  base_url <> "" ->
  soup_hrefs L html_content = Returns hrefs ->
  sublist (extract_links L self html_content base_url url_patterns).1
    (resolve_all L base_url hrefs).
Proof.
  intros Hbase%str_truthy_spec Hsoup. unfold extract_links. rewrite Hsoup.
  destruct (extract_links_loop L self hrefs base_url url_patterns [])
    as [[links|] self'] eqn:Hrun; simpl; [|apply sublist_nil_l].
  by apply (extract_links_loop_order _ _ _ Hbase) in Hrun
    as (kept & -> & Hsub).
Qed.

(** What every turn of the loop preserves, stated on [step], holds when
    the loop ends. *)
Lemma drain_invariant_step (max_depth max_pages : Z)
    (url_patterns : option (list string)) (P : frontier -> Prop) :
  (forall s,
      P s -> P (frontier_of (step L max_depth max_pages url_patterns s))) ->
  forall s, P s -> P (drain L max_depth max_pages url_patterns s).2.
Proof.
  intros Hstep s.
  apply (drain_elim L
    (fun max_depth max_pages url_patterns s r =>
       (forall s,
           P s ->
           P (frontier_of (step L max_depth max_pages url_patterns s))) ->
       P s -> P r.2)); [| | |exact Hstep].
  all: clear; intros max_depth max_pages url_patterns.
  - intros s s' Hs IH _ Hstep HP. apply IH; [exact Hstep|].
    specialize (Hstep s HP). by rewrite Hs in Hstep.
  - intros s s' Hs _ Hstep HP. specialize (Hstep s HP).
    by rewrite Hs in Hstep.
  - intros s e s' Hs _ Hstep HP. specialize (Hstep s HP).
    by rewrite Hs in Hstep.
Qed.

(** The entries [enqueue_links] adds are links that the patterns let
    through. *)
Lemma enqueue_links_passes (url_patterns : option (list string))
    (visited : gset string) (depth : Z) (links : list string) :
  forall queue log e queue' log',
    enqueue_links L url_patterns visited depth links queue log
    = (e, (queue', log')) ->
    forall u d,
      (u, d) ∈ queue' ->
      (u, d) ∈ queue
      \/ (u ∈ links /\ passes_patterns L url_patterns u = Returns true).
Proof.
  induction links as [|link rest IH]; intros queue log e queue' log' Hrun;
    simpl in Hrun.
  { injection Hrun as <- <- <-. by left. }
  assert (Hrest : forall queue0 log0,
    enqueue_links L url_patterns visited depth rest queue0 log0
    = (e, (queue', log')) ->
    forall u d,
      (u, d) ∈ queue' ->
      (u, d) ∈ queue0
      \/ (u ∈ link :: rest
          /\ passes_patterns L url_patterns u = Returns true)).
  { intros queue0 log0 H0 u d Hin.
    destruct (IH _ _ _ _ _ H0 u d Hin) as [?|[? ?]]; [by left|right].
    split; [by right|done]. }
  destruct (passes_patterns L url_patterns link) as [[|]|] eqn:Hpass.
  - destruct (bool_decide (link ∈ visited)); [by eapply Hrest|].
    intros u d Hin.
    destruct (Hrest _ _ Hrun u d Hin) as [Hold|?]; [|by right].
    apply elem_of_app in Hold as [?|Hnew]; [by left|right].
    apply list_elem_of_singleton in Hnew as [= -> ->].
    split; [by left|done].
  - by eapply Hrest.
  - injection Hrun as <- <- <-. by left.
Qed.

(** X24. [url_patterns] filters the links that [crawl_with_depth]
    follows, not its seeds: every key of the result is the start URL, a
    URL of the sitemap, or a URL that one of the patterns matches. *)
Theorem crawl_with_depth_keys_match_patterns (fuel : nat)
    (self : SimpleCrawler) (start_url : string)
    (max_depth max_pages : option Z) (url_patterns : option (list string))
    (sitemap_url : string) (sitemap_urls : list string) (e : option exn)
    (s : frontier) (url : string) :
  urljoin L start_url "/sitemap.xml" = Returns sitemap_url ->
  sitemap_urls_of L fuel sitemap_url = Some sitemap_urls ->
  crawl_with_depth_run L fuel self start_url max_depth max_pages url_patterns
  = Some (e, s) ->
  url ∈ dom (results s) ->
  url ∈ start_url :: sitemap_urls
  \/ passes_patterns L url_patterns url = Returns true.
Proof.
  intros Hjoin Hsitemap Hrun.
  pose (Q := fun u : string =>
    u ∈ start_url :: sitemap_urls
    \/ passes_patterns L url_patterns u = Returns true).
  revert url.
  cut ((forall u d, (u, d) ∈ queue s -> Q u)
       /\ (forall u, u ∈ dom (results s) -> Q u)).
  { by intros [_ ?]. }
  unfold crawl_with_depth_run in Hrun. rewrite Hjoin, Hsitemap in Hrun.
  injection Hrun as Hrun.
  pose proof (drain_invariant_step
                (override max_depth (self_max_depth self))
                (override max_pages (self_max_pages self)) url_patterns
                (fun s => (forall u d, (u, d) ∈ queue s -> Q u)
                          /\ (forall u, u ∈ dom (results s) -> Q u)))
    as Hend.
  change s with (e, s).2. rewrite <- Hrun. apply Hend; clear Hend Hrun e s.
  - intros s [Hqueue Hkeys]. unfold step.
    destruct (queue s) as [|[url depth] rest] eqn:Hq;
      [simpl; rewrite Hq; by split|].
    destruct (negb (page_count s <? _)); [simpl; rewrite Hq; by split|].
    assert (Hrest : forall u d, (u, d) ∈ rest -> Q u).
    { intros u d Hin. apply (Hqueue u d). by right. }
    assert (Hhead : Q url).
    { apply (Hqueue url depth). by left. }
    destruct (bool_decide (url ∈ visited s) || (_ <? depth)); [by split|].
    destruct (crawl L (crawler s) url) as [[content links] self'].
    destruct (Py.truthy content); [|by split].
    assert (Hkeys' : forall u,
      u ∈ dom (<[url := default "" content]> (results s)) -> Q u).
    { intros u. rewrite dom_insert_L.
      intros [->%elem_of_singleton|Hin]%elem_of_union; [done|].
      by apply Hkeys. }
    destruct (_ <=? page_count s + 1); [by split|].
    destruct (depth <? _); [|by split].
    destruct (enqueue_links L url_patterns ({[url]} ∪ visited s) depth links
                rest (Dispatch url depth content links :: log s))
      as [err [queue' log'']] eqn:Henq.
    assert (Hqueue' : forall u d, (u, d) ∈ queue' -> Q u).
    { intros u d Hin.
      destruct (enqueue_links_passes _ _ _ _ _ _ _ _ _ Henq u d Hin)
        as [Hold|[_ Hpass]]; [by eapply Hrest|by right]. }
    by destruct err.
  - rewrite initial_frontier_eq. simpl. split.
    + intros u d Hin. left.
      apply elem_of_cons in Hin as [[= -> _]|Hin]; [by left|right].
      apply list_elem_of_In, in_map_iff in Hin
        as (u' & [= <- _] & Hu%list_elem_of_In).
      done.
    + intros u Hin. by rewrite dom_empty_L in Hin.
Qed.

(** X25. A budget that allows no page gives an empty result: a page
    budget that is not positive or a negative depth budget, each one the
    value once the override is resolved. *)
Theorem crawl_with_depth_no_budget_empty (fuel : nat) (self : SimpleCrawler)
    (start_url : string) (max_depth max_pages : option Z)
    (url_patterns : option (list string)) (e : option exn) (s : frontier) :
  crawl_with_depth_run L fuel self start_url max_depth max_pages url_patterns
  = Some (e, s) ->
  override max_pages (self_max_pages self) <= 0
  \/ override max_depth (self_max_depth self) < 0 ->
  results s = ∅.
Proof.
  intros Hrun [Hpages|Hdepth].
  - pose proof (crawl_with_depth_size _ _ _ _ _ _ _ _ Hrun) as Hsize.
    apply map_size_empty_iff. lia.
  - cut (results s = ∅ /\ forall u d, (u, d) ∈ queue s -> 0 <= d).
    { by intros [? _]. }
    eapply (crawl_with_depth_run_invariant
              (fun s => results s = ∅
                        /\ forall u d, (u, d) ∈ queue s -> 0 <= d));
      [| |exact Hrun].
    + intros sitemap_urls _. rewrite initial_frontier_eq. simpl.
      split; [done|]. intros u d Hin.
      apply elem_of_cons in Hin as [[= _ ->]|Hin]; [done|].
      by apply list_elem_of_In, in_map_iff in Hin as (u' & [= _ <-] & _).
    + intros s0 s1 [Hempty Hqueue] Hturn.
      destruct Hturn as [|url depth rest Hq|url depth rest content links
                         self' new Hq Hlt Hv Hd Hcrawl Hnew Hdeep]; simpl.
      * done.
      * split; [done|]. intros u d Hin. apply (Hqueue u d).
        rewrite Hq. by right.
      * assert (0 <= depth); [|lia].
        apply (Hqueue url depth). rewrite Hq. by left.
Qed.

End Properties.

(** ** The properties on the example webs *)

(** The links of the page of [Examples.port_web]: the one to the host
    evil.com is kept, the one to the host sub.example.com is not. *)
Lemma port_web_links :
  (extract_links (Toy.lib Examples.port_web) Examples.plain
     "https://example.com/a" "https://example.com/a" None).1
  = ["https://evil.com:.example.com/x"].
Proof. vm_compute. reflexivity. Qed.

(** C6 fails on that page: the host of the link that is returned is
    evil.com, which is neither example.com nor one of its subdomains. *)
Lemma domain_scoping_by_host_counterexample :
  ~ domain_scoping_by_host (Toy.lib Examples.port_web) Examples.plain
      "https://example.com/a" "https://example.com/a" None.
Proof.
  intros Hscoping.
  destruct (Hscoping ltac:(discriminate)) as [Hhost _].
  specialize (Hhost "https://evil.com:.example.com/x"
                {| scheme := "https"; netloc := "example.com" |}
                {| scheme := "https"; netloc := "evil.com:.example.com" |}).
  rewrite port_web_links in Hhost.
  specialize (Hhost ltac:(by left) eq_refl eq_refl).
  destruct Hhost as [Hsame|[sub Hsub]].
  - vm_compute in Hsame. discriminate.
  - assert (Hends : Py.endswith (hostname "evil.com:.example.com")
                      ("." ++ hostname "example.com") = true).
    { apply endswith_spec. by exists sub. }
    vm_compute in Hends. discriminate.
Qed.

(** C6 as the code has it, on a page of example.com with one anchor to
    each of the three hosts. *)
Lemma extract_links_domain_scoping_witness :
  ("https://sub.example.com/y" ∈ Examples.scoping_links)
  /\ ("https://evil.com/x" ∉ Examples.scoping_links)
  /\ ("https://notexample.com/z" ∉ Examples.scoping_links).
Proof.
  destruct (extract_links_domain_scoping (Toy.lib Examples.scoping_web)
              Examples.plain "https://example.com/a" "https://example.com/a"
              None ltac:(discriminate)) as (_ & Hout & Hin).
  split; [|split].
  - eapply (Hin _ ["https://evil.com/x"] "https://sub.example.com/y"
              ["https://notexample.com/z"]); reflexivity.
  - eapply Hout; [reflexivity..|by left].
  - eapply Hout; [reflexivity..|by right].
Defined.



(** C7, on an index of two sitemaps of three pages each. *)
Lemma parse_sitemap_index_flattens_witness :
  resolves (Toy.lib Examples.sitemap_web) "https://example.com/sitemap.xml"
    ["https://example.com/a1"; "https://example.com/a2";
     "https://example.com/a3"; "https://example.com/b1";
     "https://example.com/b2"; "https://example.com/b3"].
Proof.
  eapply (proj2 (parse_sitemap_index_flattens (Toy.lib Examples.sitemap_web)
                   "https://example.com/sitemap.xml" _ _
                   eq_refl eq_refl eq_refl eq_refl)
            "https://example.com/s1.xml" "https://example.com/s2.xml").
  - reflexivity.
  - exists 1%nat. reflexivity.
  - exists 1%nat. reflexivity.
Defined.

(** C8, on a host that does not answer, a missing sitemap and a sitemap
    that is not well-formed. *)
Lemma parse_sitemap_failures_give_empty_witness :
  parse_sitemap (Toy.lib Examples.sitemap_web) 1
    "https://down.example.com/sitemap.xml" = Some []
  /\ parse_sitemap (Toy.lib Examples.sitemap_web) 1
       "https://example.com/missing.xml" = Some []
  /\ parse_sitemap (Toy.lib Examples.sitemap_web) 1
       "https://example.com/broken.xml" = Some [].
Proof.
  split; [|split].
  - eapply (proj1 (parse_sitemap_failures_give_empty
                     (Toy.lib Examples.sitemap_web) 0
                     "https://down.example.com/sitemap.xml")).
    reflexivity.
  - eapply (proj1 (proj2 (parse_sitemap_failures_give_empty
                            (Toy.lib Examples.sitemap_web) 0
                            "https://example.com/missing.xml")));
      [reflexivity|discriminate].
  - eapply (proj1 (proj2 (proj2 (parse_sitemap_failures_give_empty
                                   (Toy.lib Examples.sitemap_web) 0
                                   "https://example.com/broken.xml"))));
      reflexivity.
Defined.

(** The call [plain.crawl_with_depth("https://example.com/", max_depth=1)]
    on [Examples.crawl_web] ends without an exception, with the frontier
    [Examples.crawl_end]. *)
Lemma crawl_run_end :
  crawl_with_depth_run (Toy.lib Examples.crawl_web) 1 Examples.plain
    "https://example.com/" (Some 1) None None
  = Some (None, Examples.crawl_end).
Proof.
  eapply (crawl_with_depth_run_compute (Toy.lib Examples.crawl_web) 10);
    [reflexivity|reflexivity|vm_compute; reflexivity].
Qed.

Lemma crawl_call_end :
  crawl_with_depth (Toy.lib Examples.crawl_web) 1 Examples.plain
    "https://example.com/" (Some 1) None None
  = Some (Returns (results Examples.crawl_end)).
Proof. unfold crawl_with_depth. by rewrite crawl_run_end. Qed.

Lemma crawl_end_order :
  dispatch_order (log Examples.crawl_end)
  = ["https://example.com/"; "https://example.com/s";
     "https://example.com/b"; "https://example.com/x"].
Proof. vm_compute. reflexivity. Qed.

(** C1 fails on that call: the sitemap yields [/s], and the start URL is
    processed before it. *)
Lemma sitemap_urls_first_counterexample :
  ~ sitemap_urls_first (Toy.lib Examples.crawl_web) 1 Examples.plain
      "https://example.com/" (Some 1) None None.
Proof.
  intros Hfirst.
  destruct (Hfirst "https://example.com/sitemap.xml"
              ["https://example.com/s"; "https://example.com/s"]
              None Examples.crawl_end "https://example.com/s"
              eq_refl eq_refl crawl_run_end)
    as (l1 & l2 & l3 & Horder).
  - by left.
  - discriminate.
  - apply list_elem_of_In, in_rev. fold (dispatch_order (log Examples.crawl_end)).
    rewrite crawl_end_order. by left.
  - rewrite crawl_end_order in Horder.
    destruct l1 as [|first l1]; [discriminate|].
    simpl in Horder. injection Horder as _ Hrest.
    assert (Hin : "https://example.com/" ∈
                  ["https://example.com/s"; "https://example.com/b";
                   "https://example.com/x"]).
    { rewrite Hrest. apply elem_of_app. right. right.
      apply elem_of_app. right. by left. }
    repeat (apply elem_of_cons in Hin as [Hin|Hin]; [discriminate|]).
    by apply elem_of_nil in Hin.
Qed.

(** C1 as the code has it, on that call. *)
Lemma crawl_with_depth_start_url_first_witness :
  queue (initial_frontier Examples.plain "https://example.com/"
           ["https://example.com/s"; "https://example.com/s"])
  = [("https://example.com/", 0); ("https://example.com/s", 0);
     ("https://example.com/s", 0)]
  /\ exists rest,
       dispatch_order (log Examples.crawl_end) = "https://example.com/" :: rest.
Proof.
  destruct (crawl_with_depth_start_url_first (Toy.lib Examples.crawl_web) 1
              Examples.plain "https://example.com/" (Some 1) None None
              "https://example.com/sitemap.xml"
              ["https://example.com/s"; "https://example.com/s"]
              eq_refl eq_refl) as [Hqueue Hfirst].
  split; [exact Hqueue|].
  apply (Hfirst None); [exact crawl_run_end|reflexivity|discriminate].
Defined.

(** C2 fails on that call: [/s], listed twice in the sitemap, is put into
    the queue twice. *)
Lemma enqueued_at_most_once_counterexample :
  ~ enqueued_at_most_once (Toy.lib Examples.crawl_web) 1 Examples.plain
      "https://example.com/" (Some 1) None None.
Proof.
  intros Honce. specialize (Honce None Examples.crawl_end crawl_run_end).
  assert (Hlog : enqueued (log Examples.crawl_end)
                 = ["https://example.com/x"; "https://example.com/b";
                    "https://example.com/s"; "https://example.com/s";
                    "https://example.com/"]) by (vm_compute; reflexivity).
  rewrite Hlog in Honce.
  apply NoDup_cons in Honce as [_ Honce].
  apply NoDup_cons in Honce as [_ Honce].
  apply NoDup_cons in Honce as [Hs _].
  apply Hs. by left.
Qed.

(** C2 as the code has it, on that call: when [/x] is put into the queue,
    only [/s] and the start URL have been dispatched. *)
Lemma crawl_with_depth_enqueues_unvisited_witness :
  "https://example.com/x" ∉ dispatched (drop 3 (log Examples.crawl_end)).
Proof.
  eapply (crawl_with_depth_enqueues_unvisited (Toy.lib Examples.crawl_web) 1
            Examples.plain "https://example.com/" (Some 1) None None None
            Examples.crawl_end crawl_run_end
            (take 2 (log Examples.crawl_end)) "https://example.com/x" 1).
  vm_compute. reflexivity.
Defined.

(** C3, on that call: four pages, for a budget of 100. *)
Lemma crawl_with_depth_page_bound_witness :
  Z.of_nat (size (results Examples.crawl_end)) <= 100.
Proof.
  apply (crawl_with_depth_page_bound (Toy.lib Examples.crawl_web) 1
           Examples.plain "https://example.com/" (Some 1) None None
           (results Examples.crawl_end) crawl_call_end).
  discriminate.
Defined.

(** C4 fails on that call: [/x] is three links away from the start URL and
    is not in the sitemap, and it is a key of the result for [max_depth=1],
    because [/s], a page of the sitemap, links to it. *)
Lemma depth_bound_from_start_url_counterexample :
  ~ depth_bound_from_start_url (Toy.lib Examples.crawl_web) 1 Examples.plain
      "https://example.com/" (Some 1) None None.
Proof.
  intros Hbound.
  apply (Hbound "https://example.com/sitemap.xml"
           ["https://example.com/s"; "https://example.com/s"]
           (results Examples.crawl_end) "https://example.com/x"
           eq_refl eq_refl crawl_call_end).
  - intros Hin. repeat (apply elem_of_cons in Hin as [Hin|Hin]; [done|]).
    by apply elem_of_nil in Hin.
  - intros n Hchain. change (1 < Z.of_nat n).
    inversion Hchain as [|n1 page1 url1 Hchain1 Hlink1]; subst.
    inversion Hchain1 as [|n2 page2 url2 Hchain2 Hlink2]; subst; [|lia].
    vm_compute in Hlink1.
    apply elem_of_cons in Hlink1 as [Hlink1|Hlink1]; [done|].
    by apply elem_of_nil in Hlink1.
  - apply elem_of_dom. vm_compute. eauto.
Qed.

(** C4 as the code has it, on that call: [/x] is one link away from [/s], a
    page of the sitemap. *)
Lemma crawl_with_depth_depth_bound_witness :
  exists n : nat,
    Z.of_nat n <= 1
    /\ discovered
         ["https://example.com/"; "https://example.com/s";
          "https://example.com/s"]
         (log Examples.crawl_end) n "https://example.com/x".
Proof.
  apply (crawl_with_depth_depth_bound (Toy.lib Examples.crawl_web) 1
           Examples.plain "https://example.com/" (Some 1) None None
           "https://example.com/sitemap.xml"
           ["https://example.com/s"; "https://example.com/s"]
           None Examples.crawl_end eq_refl eq_refl crawl_run_end).
  apply elem_of_dom. vm_compute. eauto.
Defined.

(** C5, on that call: [/s] is in the queue twice and [/x] is found once it
    has been seen, and each is dispatched once. *)
Lemma crawl_with_depth_dispatches_once_witness :
  NoDup (dispatched (log Examples.crawl_end)).
Proof.
  exact (crawl_with_depth_dispatches_once (Toy.lib Examples.crawl_web) 1
           Examples.plain "https://example.com/" (Some 1) None None None
           Examples.crawl_end crawl_run_end).
Defined.

(** ** The further properties on the example webs *)

(** The call [SimpleCrawler().crawl_with_depth("https://example.com/")] on
    [Examples.polite_web] ends without an exception, with the frontier
    [Examples.polite_end]. *)
Lemma polite_run_end :
  crawl_with_depth_run (Toy.lib Examples.polite_web) 1 init_default
    "https://example.com/" None None None
  = Some (None, Examples.polite_end).
Proof.
  eapply (crawl_with_depth_run_compute (Toy.lib Examples.polite_web) 10);
    [reflexivity|reflexivity|vm_compute; reflexivity].
Qed.

Lemma polite_call_end :
  crawl_with_depth (Toy.lib Examples.polite_web) 1 init_default
    "https://example.com/" None None None
  = Some (Returns (results Examples.polite_end)).
Proof. unfold crawl_with_depth. by rewrite polite_run_end. Qed.

(** The call with the patterns [docs] and [(] on [Examples.patterns_web]
    raises. *)
Lemma patterns_call_raises :
  crawl_with_depth (Examples.strict_lib Examples.patterns_web) 1
    Examples.plain "https://example.com/" None None (Some ["docs"; "("])
  = Some (Raises OtherException).
Proof.
  unfold crawl_with_depth.
  rewrite (crawl_with_depth_run_compute
             (Examples.strict_lib Examples.patterns_web) 10 1 Examples.plain
             "https://example.com/" None None (Some ["docs"; "("])
             "https://example.com/sitemap.xml" [] Examples.patterns_end);
    [|reflexivity|reflexivity|vm_compute; reflexivity].
  vm_compute. reflexivity.
Qed.

(** X1: the parser cached for [https://example.com/] is returned for
    [/public], also once the robots.txt of the site cannot be read. *)
Lemma get_robot_parser_reuses_cache_witness :
  _get_robot_parser (Toy.lib Examples.no_robots_web) Examples.polite_cached
    "https://example.com/public"
  = (Returns (Some Examples.polite_parser), Examples.polite_cached).
Proof.
  apply (get_robot_parser_reuses_cache (Toy.lib Examples.polite_web)
           init_default Examples.polite_cached "https://example.com/"
           "https://example.com/public" Examples.polite_parser
           {| scheme := "https"; netloc := "example.com" |}
           {| scheme := "https"; netloc := "example.com" |}
           (Toy.lib Examples.no_robots_web)); reflexivity.
Defined.

(** X2, on the call on [Examples.polite_web], which reads one
    robots.txt, and on the call on [Examples.crawl_web] of a crawler that
    does not respect robots.txt. *)
Lemma crawl_with_depth_keeps_settings_witness :
  cache_grown init_default (crawler Examples.polite_end)
  /\ robot_parsers (crawler Examples.crawl_end)
     = robot_parsers Examples.plain.
Proof.
  split.
  - exact (proj1 (crawl_with_depth_keeps_settings
                    (Toy.lib Examples.polite_web) 1 init_default
                    "https://example.com/" None None None None
                    Examples.polite_end polite_run_end)).
  - exact (proj2 (crawl_with_depth_keeps_settings
                    (Toy.lib Examples.crawl_web) 1 Examples.plain
                    "https://example.com/" (Some 1) None None None
                    Examples.crawl_end crawl_run_end) eq_refl).
Defined.

(** X3, on the page of [Examples.scoping_web]. *)
Lemma extract_links_with_base_sound_witness :
  exists hrefs href,
    soup_hrefs (Toy.lib Examples.scoping_web) "https://example.com/a"
    = Returns hrefs
    /\ href ∈ hrefs
    /\ urljoin (Toy.lib Examples.scoping_web) "https://example.com/a" href
       = Returns "https://sub.example.com/y"
    /\ passes_patterns (Toy.lib Examples.scoping_web) None
         "https://sub.example.com/y" = Returns true
    /\ _is_valid_url (Toy.lib Examples.scoping_web)
         "https://sub.example.com/y" = true.
Proof.
  apply (extract_links_with_base_sound (Toy.lib Examples.scoping_web)
           Examples.plain "https://example.com/a" "https://example.com/a"
           None "https://sub.example.com/y"); [discriminate|].
  apply list_elem_of_In. vm_compute. by left.
Defined.


(** X5, on the home page of [Examples.polite_web], of which one [href] is
    a valid URL. *)
Lemma extract_links_without_base_witness :
  sublist
    (extract_links (Toy.lib Examples.polite_web) init_default
       "https://example.com/" "" (Some ["public"])).1
    (List.filter (_is_valid_url (Toy.lib Examples.polite_web))
       ["/private"; "/public"; "https://other.org/"; "/public"])
  /\ extract_links (Toy.lib Examples.polite_web) init_default
       "https://example.com/" "" (Some ["public"])
     = extract_links (Toy.lib Examples.polite_web) init_default
         "https://example.com/" "" None.
Proof.
  apply (extract_links_without_base (Toy.lib Examples.polite_web)
           init_default "https://example.com/" (Some ["public"])
           ["/private"; "/public"; "https://other.org/"; "/public"]).
  reflexivity.
Defined.

(** X6, on the page of [Examples.scoping_web], of which every [href] is a
    valid URL. *)
Lemma extract_links_without_base_all_witness :
  extract_links (Toy.lib Examples.scoping_web) Examples.plain
    "https://example.com/a" "" None
  = (List.filter (_is_valid_url (Toy.lib Examples.scoping_web))
       ["https://evil.com/x"; "https://sub.example.com/y";
        "https://notexample.com/z"],
     Examples.plain).
Proof.
  apply (extract_links_without_base_all (Toy.lib Examples.scoping_web)
           Examples.plain "https://example.com/a" None
           ["https://evil.com/x"; "https://sub.example.com/y";
            "https://notexample.com/z"]); reflexivity.
Defined.

(** X7, on the page of [Examples.scoping_web]. *)
Lemma extract_links_with_base_complete_witness :
  "https://sub.example.com/y"
  ∈ (extract_links (Toy.lib Examples.scoping_web) Examples.plain
       "https://example.com/a" "https://example.com/a" None).1.
Proof.
  apply (extract_links_with_base_complete (Toy.lib Examples.scoping_web)
           Examples.plain "https://example.com/a" "https://example.com/a"
           None
           ["https://evil.com/x"; "https://sub.example.com/y";
            "https://notexample.com/z"]
           ["https://sub.example.com/y"]
           "https://sub.example.com/y" "https://sub.example.com/y"
           {| scheme := "https"; netloc := "example.com" |}
           {| scheme := "https"; netloc := "sub.example.com" |}).
  - reflexivity.
  - discriminate.
  - reflexivity.
  - reflexivity.
  - right. by left.
  - reflexivity.
  - reflexivity.
  - reflexivity.
  - reflexivity.
  - right. by exists "sub".
  - reflexivity.
Defined.

(** X8, on the home page of [Examples.patterns_web] with the patterns
    [docs] and [(]: [/docs/a] is accepted, then [re.search] raises on
    [/blog/b]. *)
Lemma extract_links_raise_drops_all_witness :
  (extract_links (Examples.strict_lib Examples.patterns_web) Examples.plain
     "https://example.com/" "https://example.com/" (Some ["docs"; "("])).1
  = [].
Proof.
  apply (extract_links_raise_drops_all
           (Examples.strict_lib Examples.patterns_web) Examples.plain
           Examples.plain "https://example.com/" "https://example.com/"
           (Some ["docs"; "("]) ["/docs/a"] []
           ["https://example.com/docs/a"] "/blog/b" OtherException).
  - discriminate.
  - reflexivity.
  - reflexivity.
  - right. exists "https://example.com/blog/b". by split.
Defined.

(** X9, on the sitemap of [Examples.crawl_web], which lists [/s] twice. *)
Lemma parse_sitemap_urlset_witness :
  parse_sitemap (Toy.lib Examples.crawl_web) 1
    "https://example.com/sitemap.xml"
  = Some (List.filter Py.str_truthy
            ["https://example.com/s"; "https://example.com/s"]).
Proof.
  apply (parse_sitemap_urlset (Toy.lib Examples.crawl_web) 0
           "https://example.com/sitemap.xml"
           {| status_code := 200; text := "<urlset>" |}
           ["https://example.com/s"; "https://example.com/s"]);
    reflexivity.
Defined.

(** X10, on the sitemap of [Examples.marker_web]. *)
Lemma parse_sitemap_marker_hides_urlset_witness :
  parse_sitemap (Toy.lib Examples.marker_web) 1
    "https://example.com/sitemap.xml" = Some [].
Proof.
  apply (parse_sitemap_marker_hides_urlset (Toy.lib Examples.marker_web) 0
           "https://example.com/sitemap.xml"
           {| status_code := 200;
              text := "<!-- replaces the <sitemapindex> --><urlset>" |}
           ["https://example.com/a"]); reflexivity.
Defined.

(** X11, on the index of [Examples.partial_index_web]. *)
Lemma parse_sitemap_index_skips_failed_child_witness :
  resolves (Toy.lib Examples.partial_index_web)
    "https://example.com/index.xml"
    ["https://example.com/a1"; "https://example.com/a2";
     "https://example.com/a3"; "https://example.com/b1";
     "https://example.com/b2"; "https://example.com/b3"].
Proof.
  apply (parse_sitemap_index_skips_failed_child
           (Toy.lib Examples.partial_index_web)
           "https://example.com/index.xml"
           {| status_code := 200; text := "<sitemapindex>3" |}
           (Toy.sitemapindex
              ["https://example.com/s1.xml";
               "https://down.example.com/sitemap.xml";
               "https://example.com/s2.xml"])
           ["https://example.com/s1.xml"] ["https://example.com/s2.xml"]
           "https://down.example.com/sitemap.xml"
           [["https://example.com/a1"; "https://example.com/a2";
             "https://example.com/a3"]]
           [["https://example.com/b1"; "https://example.com/b2";
             "https://example.com/b3"]]).
  - reflexivity.
  - reflexivity.
  - reflexivity.
  - reflexivity.
  - reflexivity.
  - left. by exists OtherException.
  - constructor; [|constructor]. by exists 1%nat.
  - constructor; [|constructor]. by exists 1%nat.
Defined.

(** X12, on [Examples.no_robots_web], which has no sitemap. *)
Lemma check_sitemap_false_no_seed_witness :
  crawl_with_depth_run (Toy.lib Examples.no_robots_web) 1 init_default
    "https://example.com/a" None None None
  = Some (drain (Toy.lib Examples.no_robots_web) 3 100 None
            {| queue := [("https://example.com/a", 0)]; visited := ∅;
               results := ∅; page_count := 0; crawler := init_default;
               log := [Enqueue "https://example.com/a" 0] |}).
Proof.
  apply (proj1 (check_sitemap_false_no_seed (Toy.lib Examples.no_robots_web)
                  1 init_default "https://example.com/a" None None None)).
  reflexivity.
Defined.

(** X13, on the home page of [Examples.crawl_web]. *)
Lemma crawl_links_valid_in_scope_witness :
  _is_valid_url (Toy.lib Examples.crawl_web) "https://example.com/b" = true
  /\ (is_http "https://example.com/" = true
      \/ Py.endswith "https://example.com/" ".md" = true)
  /\ (is_http "https://example.com/" = true ->
      exists page_parsed link_parsed,
        urlparse (Toy.lib Examples.crawl_web) "https://example.com/"
        = Returns page_parsed
        /\ urlparse (Toy.lib Examples.crawl_web) "https://example.com/b"
           = Returns link_parsed
        /\ netloc_in_scope (netloc link_parsed) (netloc page_parsed)).
Proof.
  apply (crawl_links_valid_in_scope (Toy.lib Examples.crawl_web)
           Examples.plain "https://example.com/" "https://example.com/b").
  apply list_elem_of_In. vm_compute. by left.
Defined.

(** X14, on the Markdown file of [Examples.files_lib]. *)
Lemma crawl_content_is_process_document_witness :
  process_document Examples.files_lib "notes.md" = Returns (Some "notes").
Proof.
  apply (crawl_content_is_process_document Examples.files_lib Examples.plain
           "notes.md" "notes").
  reflexivity.
Defined.

(** X15, on the Markdown file of [Examples.files_lib]. *)
Lemma research_assistant_process_document_witness :
  ResearchAssistant_process_document Examples.files_lib "notes.md"
  = Returns "notes".
Proof.
  apply (proj2 (research_assistant_process_document Examples.files_lib
                  "notes.md" "notes")).
  split; [discriminate|reflexivity].
Defined.

(** X16, on the call that raises on [Examples.patterns_web]. *)
Lemma crawl_with_depth_raises_only_witness :
  urljoin (Examples.strict_lib Examples.patterns_web) "https://example.com/"
    "/sitemap.xml" = Raises OtherException
  \/ exists patterns pattern link,
       Some ["docs"; "("] = Some patterns
       /\ pattern ∈ patterns
       /\ re_search (Examples.strict_lib Examples.patterns_web) pattern link
          = Raises OtherException.
Proof.
  exact (crawl_with_depth_raises_only
           (Examples.strict_lib Examples.patterns_web) 1 Examples.plain
           "https://example.com/" None None (Some ["docs"; "("])
           OtherException patterns_call_raises).
Defined.

(** X17, on the call on [Examples.crawl_web]: four pages for a budget of
    100, and an empty queue. *)
Lemma crawl_with_depth_stops_when_witness :
  queue Examples.crawl_end = []
  \/ 100 <= Z.of_nat (size (results Examples.crawl_end)).
Proof.
  exact (crawl_with_depth_stops_when (Toy.lib Examples.crawl_web) 1
           Examples.plain "https://example.com/" (Some 1) None None
           Examples.crawl_end crawl_run_end).
Defined.

(** X18, on that call. *)
Lemma crawl_with_depth_counts_pages_witness :
  size (results Examples.crawl_end) = pages_with_text (log Examples.crawl_end)
  /\ Z.of_nat (size (results Examples.crawl_end))
     = page_count Examples.crawl_end.
Proof.
  exact (crawl_with_depth_counts_pages (Toy.lib Examples.crawl_web) 1
           Examples.plain "https://example.com/" (Some 1) None None None
           Examples.crawl_end crawl_run_end).
Defined.

(** X19, on that call, for the entry of [/x]. *)
Lemma crawl_with_depth_results_from_crawl_witness :
  "page x" <> ""
  /\ exists self0,
       cache_grown Examples.plain self0
       /\ (crawl (Toy.lib Examples.crawl_web) self0
             "https://example.com/x").1.1 = Some "page x".
Proof.
  apply (crawl_with_depth_results_from_crawl (Toy.lib Examples.crawl_web) 1
           Examples.plain "https://example.com/" (Some 1) None None None
           Examples.crawl_end "https://example.com/x" "page x"
           crawl_run_end).
  vm_compute. reflexivity.
Defined.

(** X20, on that call: the depths are 0, 0, 1, 1. *)
Lemma crawl_with_depth_breadth_first_witness :
  (forall url depth,
      (url, depth) ∈ dispatches (log Examples.crawl_end) ->
      0 <= depth <= 1)
  /\ (forall before a da middle b db after,
        rev (dispatches (log Examples.crawl_end))
        = (before ++ (a, da) :: middle ++ (b, db) :: after)%list ->
        da <= db).
Proof.
  exact (crawl_with_depth_breadth_first (Toy.lib Examples.crawl_web) 1
           Examples.plain "https://example.com/" (Some 1) None None None
           Examples.crawl_end crawl_run_end).
Defined.

(** X21, on the call on [Examples.polite_web], whose robots.txt disallows
    the start URL. *)
Lemma crawl_with_depth_fetches_start_url_witness :
  results Examples.polite_end !! "https://example.com/" = Some "home".
Proof.
  apply (crawl_with_depth_fetches_start_url (Toy.lib Examples.polite_web) 1
           init_default "https://example.com/" None None None
           (results Examples.polite_end) "home").
  - reflexivity.
  - reflexivity.
  - reflexivity.
  - discriminate.
  - reflexivity.
  - discriminate.
  - exact polite_call_end.
Defined.

(** X22, on the call on [Examples.crawl_web], for the key [/x]. *)
Lemma crawl_with_depth_keys_have_parents_witness :
  "https://example.com/x"
  ∈ ["https://example.com/"; "https://example.com/s";
     "https://example.com/s"]
  \/ exists page self0,
       page ∈ dom (results Examples.crawl_end)
       /\ cache_grown Examples.plain self0
       /\ "https://example.com/x"
          ∈ (crawl (Toy.lib Examples.crawl_web) self0 page).1.2.
Proof.
  apply (crawl_with_depth_keys_have_parents (Toy.lib Examples.crawl_web) 1
           Examples.plain "https://example.com/" (Some 1) None None
           "https://example.com/sitemap.xml"
           ["https://example.com/s"; "https://example.com/s"]
           None Examples.crawl_end "https://example.com/x"
           eq_refl eq_refl crawl_run_end).
  apply elem_of_dom. vm_compute. eauto.
Defined.

(** The call with the pattern [docs] on [Examples.patterns_web] ends
    without an exception, with the frontier [Examples.docs_end]. *)
Lemma docs_run_end :
  crawl_with_depth_run (Toy.lib Examples.patterns_web) 1 Examples.plain
    "https://example.com/" None None (Some ["docs"])
  = Some (None, Examples.docs_end).
Proof.
  eapply (crawl_with_depth_run_compute (Toy.lib Examples.patterns_web) 10);
    [reflexivity|reflexivity|vm_compute; reflexivity].
Qed.

(** The call with [max_depth=-1] on [Examples.crawl_web] ends without an
    exception, with the frontier [Examples.shallow_end]. *)
Lemma shallow_run_end :
  crawl_with_depth_run (Toy.lib Examples.crawl_web) 1 Examples.plain
    "https://example.com/" (Some (-1)) None None
  = Some (None, Examples.shallow_end).
Proof.
  eapply (crawl_with_depth_run_compute (Toy.lib Examples.crawl_web) 10);
    [reflexivity|reflexivity|vm_compute; reflexivity].
Qed.

(** X23, on the home page of [Examples.polite_web]. *)
Lemma extract_links_with_base_order_witness :
  sublist
    (extract_links (Toy.lib Examples.polite_web) Examples.plain
       "https://example.com/" "https://example.com/" None).1
    (resolve_all (Toy.lib Examples.polite_web) "https://example.com/"
       ["/private"; "/public"; "https://other.org/"; "/public"]).
Proof.
  apply (extract_links_with_base_order (Toy.lib Examples.polite_web)
           Examples.plain "https://example.com/" "https://example.com/" None
           ["/private"; "/public"; "https://other.org/"; "/public"]);
    [discriminate|reflexivity].
Defined.

(** X24, on the call with the pattern [docs], for the key [/docs/a]. *)
Lemma crawl_with_depth_keys_match_patterns_witness :
  "https://example.com/docs/a" ∈ ["https://example.com/"]
  \/ passes_patterns (Toy.lib Examples.patterns_web) (Some ["docs"])
       "https://example.com/docs/a" = Returns true.
Proof.
  apply (crawl_with_depth_keys_match_patterns
           (Toy.lib Examples.patterns_web) 1 Examples.plain
           "https://example.com/" None None (Some ["docs"])
           "https://example.com/sitemap.xml" [] None Examples.docs_end
           "https://example.com/docs/a" eq_refl eq_refl docs_run_end).
  apply elem_of_dom. vm_compute. eauto.
Defined.

(** X25, on the call with [max_depth=-1]. *)
Lemma crawl_with_depth_no_budget_empty_witness :
  results Examples.shallow_end = ∅.
Proof.
  apply (crawl_with_depth_no_budget_empty (Toy.lib Examples.crawl_web) 1
           Examples.plain "https://example.com/" (Some (-1)) None None None
           Examples.shallow_end shallow_run_end).
  right. reflexivity.
Defined.




(** That call gives the five pages of the site, [/c] at depth 2
    included. *)
Lemma zero_end_pages :
  dispatches (log Examples.zero_end)
  = [("https://example.com/c", 2); ("https://example.com/x", 1);
     ("https://example.com/b", 1); ("https://example.com/s", 0);
     ("https://example.com/", 0)]
  /\ size (results Examples.zero_end) = 5%nat.
Proof. vm_compute. done. Qed.

